(** * Course-marketplace backend: authentication middleware and cart rules

    A shallow embedding of the TypeScript services, middleware and
    controllers of the backend, over an explicit model of the two
    relational tables ([users], [cart_items]) they read and write.

    Conventions of the embedding:
    - an [async] method over the connection pool is a function from the
      store to the store after the call and the call's outcome (a returned
      value or a thrown error);
    - JavaScript numbers that hold identifiers and counts are integers [Z];
    - strings are sequences of code units in the range 0..255;
    - the password hash and the token codec are external libraries and
      enter through the classes [Bcrypt] and [Jwt];
    - the statements of the store compare ids as integers: that an id
      is a value of [INTEGER] ([Store.int4]) is a condition of the
      theorems that need it, not an error of the store;
    - the [email] and [password] of a JSON body are strings or absent. *)

From Stdlib Require Import ZArith List String Ascii Bool Lia Arith.
From Stdlib Require Import DecimalString DecimalNat.
From Stdlib Require Import Sorted Permutation.
Import ListNotations.

Local Open Scope string_scope.
Local Open Scope Z_scope.

(** ** JavaScript values and built-ins used by the code *)

Module Js.

(** Values thrown by the code and by the database driver. *)
Inductive Thrown : Type :=
| Error (message : string)
    (* [throw new Error(message)] *)
| DatabaseError (code : string) (message : string)
    (* raised by the driver when the store rejects a statement *)
| TypeError (message : string).
    (* reading a property of [undefined] *)

(** [err.message] *)
Definition message (e : Thrown) : string :=
  match e with
  | Error m => m
  | DatabaseError _ m => m
  | TypeError m => m
  end.

(** Outcome of running a function body: [return v] or [throw e]. *)
Inductive Outcome (A : Type) : Type :=
| Returned (v : A)
| Threw (e : Thrown).
Arguments Returned {A} v.
Arguments Threw {A} e.

(** A value found in a JSON body or a route parameter. *)
Inductive Value : Type :=
| Undefined
| Num (n : Z)
| Str (s : string).

(** Truthiness of an optional boolean property: [undefined] is falsy. *)
Definition truthy (b : option bool) : bool :=
  match b with
  | Some true => true
  | _ => false
  end.

(** [!s] for an optional string: [undefined] and the empty string. *)
Definition falsy_string (s : option string) : bool :=
  match s with
  | None => true
  | Some EmptyString => true
  | Some _ => false
  end.

(** [!v] *)
Definition falsy (v : Value) : bool :=
  match v with
  | Undefined => true
  | Num n => n =? 0
  | Str s => falsy_string (Some s)
  end.

(** The class [\s] of regular expressions and the white space skipped by
    [parseInt], among the code units 0..255. *)
Definition is_space (c : ascii) : bool :=
  let n := nat_of_ascii c in
  ((9 <=? n) && (n <=? 13) || (n =? 32) || (n =? 160))%nat.

Fixpoint skip_space (s : string) : string :=
  match s with
  | String c r => if is_space c then skip_space r else s
  | EmptyString => s
  end.

(** Value of a digit of the given radix (10 or 16), if the code unit is
    one. *)
Definition digit_value (radix : Z) (c : ascii) : option Z :=
  let n := Z.of_nat (nat_of_ascii c) in
  if (48 <=? n) && (n <=? 57) then Some (n - 48)
  else if (radix =? 16) && (97 <=? n) && (n <=? 102) then Some (n - 87)
  else if (radix =? 16) && (65 <=? n) && (n <=? 70) then Some (n - 55)
  else None.

(** Reads the longest prefix of digits; [None] when it is empty. *)
Fixpoint digits (radix : Z) (s : string) (acc : option Z) : option Z :=
  match s with
  | EmptyString => acc
  | String c r =>
      match digit_value radix c with
      | Some d =>
          digits radix r
            (Some (radix * match acc with Some a => a | None => 0 end + d))
      | None => acc
      end
  end.

(** [parseInt(s)] with no radix argument; [None] is [NaN]. *)
Definition parseInt_string (s : string) : option Z :=
  let s := skip_space s in
  let (sign, s) :=
    match s with
    | String "-" r => (-1, r)
    | String "+" r => (1, r)
    | _ => (1, s)
    end in
  let (radix, s) :=
    match s with
    | String "0" (String "x" r) => (16, r)
    | String "0" (String "X" r) => (16, r)
    | _ => (10, s)
    end in
  option_map (Z.mul sign) (digits radix s None).

(** [String(n)] for an integer. *)
Definition ToString (n : Z) : string :=
  (if n <? 0 then "-" else "")
  ++ NilEmpty.string_of_uint (Nat.to_uint (Z.abs_nat n)).

(** [parseInt(v)]: the argument is converted to a string first. *)
Definition parseInt (v : Value) : option Z :=
  match v with
  | Undefined => parseInt_string "undefined"
  | Num n => parseInt_string (ToString n)
  | Str s => parseInt_string s
  end.

(** [isNaN(x)] on a result of [parseInt]. *)
Definition isNaN (x : option Z) : bool :=
  match x with
  | None => true
  | Some _ => false
  end.

End Js.

(** ** The relational store

    The schema of [database/init.sql]: the two tables with their defaults,
    their [SERIAL] keys and their constraints, and the SQL statements the
    services send, each as a function on the tables. *)

Module Store.

(** [CREATE TYPE user_role AS ENUM ('user', 'admin')] *)
Inductive UserRole : Type := RoleUser | RoleAdmin.

Definition UserRole_eqb (a b : UserRole) : bool :=
  match a, b with
  | RoleUser, RoleUser | RoleAdmin, RoleAdmin => true
  | _, _ => false
  end.

Record UserRow : Type := mkUserRow {
  u_id : Z;
  u_email : string;
  u_password : string;
  u_first_name : option string;
  u_last_name : option string;
  u_phone : option string;
  u_role : UserRole;
  u_is_active : bool;
  u_created_at : Z;
  u_updated_at : Z
}.

Record CartItemRow : Type := mkCartItemRow {
  ci_id : Z;
  ci_user_id : Z;
  ci_course_id : Z;
  ci_bought : bool;
  ci_added_at : Z
}.

(** The store: both tables, the two sequences behind the [SERIAL]
    columns (the next value each will hand out) and the server's
    [CURRENT_TIMESTAMP]. *)
Record Db : Type := mkDb {
  users : list UserRow;
  cart_items : list CartItemRow;
  users_id_seq : Z;
  cart_items_id_seq : Z;
  current_timestamp : Z
}.

Definition with_users (db : Db) (us : list UserRow) (seq : Z) : Db :=
  {| users := us; cart_items := cart_items db;
     users_id_seq := seq; cart_items_id_seq := cart_items_id_seq db;
     current_timestamp := current_timestamp db |}.

Definition with_cart_items (db : Db) (cs : list CartItemRow) (seq : Z) : Db :=
  {| users := users db; cart_items := cs;
     users_id_seq := users_id_seq db; cart_items_id_seq := seq;
     current_timestamp := current_timestamp db |}.

(** *** Column types

    The values a column of [database/init.sql] holds. An [INSERT INTO
    users] checks the widths of its strings. The ids are compared as
    integers: a parameter outside [INTEGER] makes the real statement
    fail with [22003], so a property that depends on the outcome for
    such an id has [int4] as a condition. *)

(** [INTEGER] *)
Definition int4 (z : Z) : bool :=
  (-2147483648 <=? z) && (z <=? 2147483647).

(** [BIGINT], the type of a [LIMIT] count *)
Definition int8 (z : Z) : bool :=
  (-9223372036854775808 <=? z) && (z <=? 9223372036854775807).

(** [VARCHAR(n)] *)
Definition varchar (n : nat) (s : string) : bool :=
  (String.length s <=? n)%nat.

(** A [VARCHAR(n)] column that may be [NULL]. *)
Definition varchar_null (n : nat) (s : option string) : bool :=
  match s with
  | Some v => varchar n v
  | None => true
  end.


(** The width of the first of these columns, in the order of the table,
    whose string does not fit. *)
Definition first_too_long (email_ password_ : string)
    (first_name_ last_name_ phone_ : option string) : option nat :=
  if negb (varchar 255 email_) then Some 255%nat
  else if negb (varchar 255 password_) then Some 255%nat
  else if negb (varchar_null 100 first_name_) then Some 100%nat
  else if negb (varchar_null 100 last_name_) then Some 100%nat
  else if negb (varchar_null 20 phone_) then Some 20%nat
  else None.

(** *** Result rows

    A result row is a JavaScript object that has exactly the columns of
    the statement's [SELECT] or [RETURNING] list; any other property of
    it reads as [undefined]. *)

Inductive CartCol : Type :=
| col_id | col_user_id | col_course_id | col_bought | col_added_at.

Definition CartCol_eqb (a b : CartCol) : bool :=
  match a, b with
  | col_id, col_id | col_user_id, col_user_id
  | col_course_id, col_course_id | col_bought, col_bought
  | col_added_at, col_added_at => true
  | _, _ => false
  end.

Definition listed (c : CartCol) (cols : list CartCol) : bool :=
  existsb (CartCol_eqb c) cols.

Record CartItemDbRow : Type := mkCartItemDbRow {
  row_id : option Z;
  row_user_id : option Z;
  row_course_id : option Z;
  row_bought : option bool;
  row_added_at : option Z
}.

Definition project (cols : list CartCol) (r : CartItemRow) : CartItemDbRow :=
  {| row_id := if listed col_id cols then Some (ci_id r) else None;
     row_user_id := if listed col_user_id cols then Some (ci_user_id r) else None;
     row_course_id :=
       if listed col_course_id cols then Some (ci_course_id r) else None;
     row_bought := if listed col_bought cols then Some (ci_bought r) else None;
     row_added_at :=
       if listed col_added_at cols then Some (ci_added_at r) else None |}.

(** [column = $n] where the parameter may be [undefined], which the
    driver sends as [NULL]: the comparison then holds for no row. *)
Definition eq_param (column : Z) (param : option Z) : bool :=
  match param with
  | Some v => column =? v
  | None => false
  end.

(** [result.rowCount] of an [UPDATE] or [DELETE]: the rows its [WHERE]
    clause matches. *)
Definition rowCount {A : Type} (matches : A -> bool) (rows : list A) : Z :=
  Z.of_nat (List.length (filter matches rows)).

(** [UPDATE t SET ... WHERE matches] *)
Definition update_where {A : Type} (matches : A -> bool) (set : A -> A)
    (rows : list A) : list A :=
  map (fun r => if matches r then set r else r) rows.

(** [DELETE FROM t WHERE matches] *)
Definition delete_where {A : Type} (matches : A -> bool) (rows : list A)
    : list A :=
  filter (fun r => negb (matches r)) rows.

(** [SELECT cols FROM cart_items WHERE matches] *)
Definition select_cart_items (cols : list CartCol)
    (matches : CartItemRow -> bool) (db : Db) : list CartItemDbRow :=
  map (project cols) (filter matches (cart_items db)).

(** [SELECT COUNT( * ) as count FROM t WHERE matches]: the driver hands
    the [bigint] over as a decimal string. *)
Definition select_count {A : Type} (matches : A -> bool) (rows : list A)
    : string :=
  Js.ToString (rowCount matches rows).

Definition set_bought (b : bool) (r : CartItemRow) : CartItemRow :=
  {| ci_id := ci_id r; ci_user_id := ci_user_id r;
     ci_course_id := ci_course_id r; ci_bought := b;
     ci_added_at := ci_added_at r |}.

(** The errors of the store, by their SQLSTATE code and message. *)
Definition quoted (name : string) : string :=
  let q := String (ascii_of_nat 34) EmptyString in q ++ name ++ q.

Definition unique_violation (constraint : string) : Js.Thrown :=
  Js.DatabaseError "23505"
    ("duplicate key value violates unique constraint " ++ quoted constraint).

(** [22001]: a string is longer than its [VARCHAR(n)] column. *)
Definition value_too_long (n : nat) : Js.Thrown :=
  Js.DatabaseError "22001"
    ("value too long for type character varying("
     ++ Js.ToString (Z.of_nat n) ++ ")").

Definition foreign_key_violation (table constraint : string) : Js.Thrown :=
  Js.DatabaseError "23503"
    ("insert or update on table " ++ quoted table
     ++ " violates foreign key constraint " ++ quoted constraint).

(** [INSERT INTO cart_items (user_id, course_id) VALUES ($1, $2)
    RETURNING cols]. The key is drawn from the sequence, which advances
    whether or not the row is accepted; [bought] and [added_at] take
    their defaults. The primary key and [UNIQUE(user_id, course_id)] are
    checked when the row enters the indexes, the foreign key to [users]
    after that. *)
Definition insert_cart_item (cols : list CartCol) (user_id course_id : Z)
    (db : Db) : Db * Js.Outcome (list CartItemDbRow) :=
  let new_id := cart_items_id_seq db in
  let row := {| ci_id := new_id; ci_user_id := user_id;
                ci_course_id := course_id; ci_bought := false;
                ci_added_at := current_timestamp db |} in
  let rejected (e : Js.Thrown) :=
    (with_cart_items db (cart_items db) (new_id + 1), Js.Threw e) in
  if existsb (fun r => ci_id r =? new_id) (cart_items db) then
    rejected (unique_violation "cart_items_pkey")
  else if existsb (fun r => (ci_user_id r =? user_id)
                            && (ci_course_id r =? course_id)) (cart_items db)
  then
    rejected (unique_violation "cart_items_user_id_course_id_key")
  else if negb (existsb (fun u => u_id u =? user_id) (users db)) then
    rejected (foreign_key_violation "cart_items" "cart_items_user_id_fkey")
  else
    (with_cart_items db (cart_items db ++ [row])%list (new_id + 1),
     Js.Returned [project cols row]).

(** [INSERT INTO users (email, password, first_name, last_name, phone,
    role) VALUES (...) RETURNING ...]: [is_active] defaults to [TRUE],
    both timestamps to [CURRENT_TIMESTAMP]. The row is formed first,
    which draws the key from the sequence and rejects a string that is
    longer than its column; then the primary key and the [UNIQUE]
    constraint on [email] are checked. (The real store cuts a string
    whose excess is nothing but spaces to the width instead of
    rejecting it; here every string that is too long is rejected.) *)
Definition insert_user (email_ password_ : string)
    (first_name_ last_name_ phone_ : option string) (role_ : UserRole)
    (db : Db) : Db * Js.Outcome (list UserRow) :=
  let new_id := users_id_seq db in
  let row := {| u_id := new_id; u_email := email_; u_password := password_;
                u_first_name := first_name_; u_last_name := last_name_;
                u_phone := phone_; u_role := role_; u_is_active := true;
                u_created_at := current_timestamp db;
                u_updated_at := current_timestamp db |} in
  let rejected (e : Js.Thrown) :=
    (with_users db (users db) (new_id + 1), Js.Threw e) in
  match first_too_long email_ password_ first_name_ last_name_ phone_ with
  | Some width => rejected (value_too_long width)
  | None =>
      if existsb (fun u => u_id u =? new_id) (users db) then
        rejected (unique_violation "users_pkey")
      else if existsb (fun u => String.eqb (u_email u) email_) (users db) then
        rejected (unique_violation "users_email_key")
      else
        (with_users db (users db ++ [row])%list (new_id + 1),
         Js.Returned [row])
  end.

Definition set_is_active (b : bool) (now : Z) (u : UserRow) : UserRow :=
  {| u_id := u_id u; u_email := u_email u; u_password := u_password u;
     u_first_name := u_first_name u; u_last_name := u_last_name u;
     u_phone := u_phone u; u_role := u_role u; u_is_active := b;
     u_created_at := u_created_at u; u_updated_at := now |}.

Definition set_role (r : UserRole) (now : Z) (u : UserRow) : UserRow :=
  {| u_id := u_id u; u_email := u_email u; u_password := u_password u;
     u_first_name := u_first_name u; u_last_name := u_last_name u;
     u_phone := u_phone u; u_role := r; u_is_active := u_is_active u;
     u_created_at := u_created_at u; u_updated_at := now |}.

(** [ORDER BY key DESC]: the rows by descending key. SQL leaves the order
    of rows with equal keys open; here they keep the order of the table,
    and the properties of ordered results are stated so that they hold
    for every order of such rows. *)
Fixpoint insert_desc {A : Type} (key : A -> Z) (x : A) (sorted : list A)
    : list A :=
  match sorted with
  | [] => [x]
  | y :: rest =>
      if key y <=? key x then x :: y :: rest
      else y :: insert_desc key x rest
  end.

Definition order_by_desc {A : Type} (key : A -> Z) (rows : list A) : list A :=
  fold_right (insert_desc key) [] rows.

(** Newest first: along the list the keys never increase. *)
Definition descending {A : Type} (key : A -> Z) (l : list A) : Prop :=
  StronglySorted (fun a b => key b <= key a) l.

(** [LIMIT $n]: the store rejects a negative count. *)
Definition limit_rows {A : Type} (limit : Z) (rows : list A)
    : Js.Outcome (list A) :=
  if limit <? 0
  then Js.Threw (Js.DatabaseError "2201W" "LIMIT must not be negative")
  else Js.Returned (firstn (Z.to_nat limit) rows).

(** [SELECT cols FROM cart_items ci WHERE matches ORDER BY ci.added_at DESC] *)
Definition select_cart_items_newest_first (cols : list CartCol)
    (matches : CartItemRow -> bool) (db : Db) : list CartItemDbRow :=
  map (project cols) (order_by_desc ci_added_at (filter matches (cart_items db))).

End Store.

(** ** Asynchronous methods over the store

    The body of an [async] method: it reads and writes the store and ends
    by returning a value or by throwing. What was written before a throw
    stays written. *)

Module Task.

Definition Task (A : Type) : Type := Store.Db -> Store.Db * Js.Outcome A.

Definition ret {A : Type} (v : A) : Task A :=
  fun db => (db, Js.Returned v).

Definition throw {A : Type} (e : Js.Thrown) : Task A :=
  fun db => (db, Js.Threw e).

Definition bind {A B : Type} (m : Task A) (k : A -> Task B) : Task B :=
  fun db =>
    match m db with
    | (db', Js.Returned v) => k v db'
    | (db', Js.Threw e) => (db', Js.Threw e)
    end.

(** A statement that only reads. *)
Definition query {A : Type} (q : Store.Db -> A) : Task A :=
  fun db => (db, Js.Returned (q db)).

(** A statement that writes and cannot be rejected. *)
Definition execute {A : Type} (q : Store.Db -> Store.Db * A) : Task A :=
  fun db => let (db', v) := q db in (db', Js.Returned v).

(** [rows[0]] followed by a property read: a [TypeError] when the result
    has no row. *)
Definition first_row {A : Type} (rows : list A) (property : string) : Task A :=
  match rows with
  | r :: _ => ret r
  | [] => throw (Js.TypeError
            ("Cannot read properties of undefined (reading '"
             ++ property ++ "')"))
  end.

End Task.

Declare Scope task_scope.
Delimit Scope task_scope with task.
Notation "x <- m ;; k" := (Task.bind m (fun x => k))
  (at level 61, m at next level, right associativity) : task_scope.

(** ** Cart types ([types/cart]) *)

Module CartTypes.

(** The object built by [mapRowToCartItem]; a property is [undefined]
    when the row lacks the column. *)
Record CartItem : Type := mkCartItem {
  CartItem_id : option Z;
  CartItem_userId : option Z;
  CartItem_courseId : option Z;
  CartItem_addedAt : option Z
}.

End CartTypes.

(** ** [services/cartService.ts]

    [userId] and [courseId] are compared with the columns as integers;
    for an id outside [Store.int4] the real statement fails with
    [22003] instead. *)

Module CartService.
Import Store Task CartTypes.
Local Open Scope task_scope.

Definition mapRowToCartItem (row : CartItemDbRow) : CartItem :=
  {| CartItem_id := row_id row;
     CartItem_userId := row_user_id row;
     CartItem_courseId := row_course_id row;
     CartItem_addedAt := row_added_at row |}.

Definition addToCart (userId courseId : Z) : Task CartItem :=
  (* Check if item is already in cart *)
  existingItem <- query (select_cart_items [col_id]
      (fun r => (ci_user_id r =? userId) && (ci_course_id r =? courseId))) ;;
  match existingItem with
  | row0 :: _ =>
      if Js.truthy (row_bought row0)
      then throw (Js.Error "You already bought it")
      else throw (Js.Error "Course already in Cart")
  | [] =>
      (* Add to cart *)
      result <- insert_cart_item
          [col_id; col_user_id; col_course_id; col_bought; col_added_at]
          userId courseId ;;
      inserted <- first_row result "id" ;;
      (* Get the cart item with course details *)
      cartItemResult <- query (select_cart_items
          [col_id; col_user_id; col_course_id; col_bought; col_added_at]
          (fun r => eq_param (ci_id r) (row_id inserted))) ;;
      row <- first_row cartItemResult "id" ;;
      ret (mapRowToCartItem row)
  end.

Definition removeFromCart (userId courseId : Z) : Task bool :=
  let matches r :=
    (ci_user_id r =? userId) && (ci_course_id r =? courseId)
    && Bool.eqb (ci_bought r) false in
  result_rowCount <- execute (fun db =>
      (with_cart_items db (delete_where matches (cart_items db))
         (cart_items_id_seq db),
       rowCount matches (cart_items db))) ;;
  ret (result_rowCount >? 0).

Definition clearCart (userId : Z) (bought : bool) : Task bool :=
  result_rowCount <- execute (fun db =>
      if bought then
        let matches r := ci_user_id r =? userId in
        (with_cart_items db
           (update_where matches (set_bought true) (cart_items db))
           (cart_items_id_seq db),
         rowCount matches (cart_items db))
      else
        let matches r :=
          (ci_user_id r =? userId) && Bool.eqb (ci_bought r) false in
        (with_cart_items db (delete_where matches (cart_items db))
           (cart_items_id_seq db),
         rowCount matches (cart_items db))) ;;
  ret (result_rowCount >? 0).

(** [parseInt(result.rows[0].count)]; [None] is [NaN]. *)
Definition getCartItemCount (userId : Z) : Task (option Z) :=
  count <- query (fun db => select_count
      (fun r => (ci_user_id r =? userId) && Bool.eqb (ci_bought r) false)
      (cart_items db)) ;;
  ret (Js.parseInt (Js.Str count)).

Definition isInCart (userId courseId : Z) : Task bool :=
  result <- query (select_cart_items [col_id]
      (fun r => (ci_user_id r =? userId) && (ci_course_id r =? courseId)
                && Bool.eqb (ci_bought r) false)) ;;
  ret (0 <? Z.of_nat (List.length result)).

Definition getCartItem (userId courseId : Z) : Task (option CartItem) :=
  result <- query (select_cart_items
      [col_id; col_user_id; col_course_id; col_added_at]
      (fun r => (ci_user_id r =? userId) && (ci_course_id r =? courseId)
                && Bool.eqb (ci_bought r) false)) ;;
  match result with
  | [] => ret None
  | row0 :: _ => ret (Some (mapRowToCartItem row0))
  end.

Definition getItems (userId : Z) (bought : bool) : Task (list CartItem) :=
  result <- query (select_cart_items_newest_first
      [col_id; col_user_id; col_course_id; col_added_at]
      (fun r => (ci_user_id r =? userId) && Bool.eqb (ci_bought r) bought)) ;;
  ret (map mapRowToCartItem result).

(** This would require a wishlist table - placeholder for future
    implementation: for now, just remove from cart. *)
Definition moveToWishlist (userId courseId : Z) : Task bool :=
  let matches r := (ci_user_id r =? userId) && (ci_course_id r =? courseId) in
  result_rowCount <- execute (fun db =>
      (with_cart_items db (delete_where matches (cart_items db))
         (cart_items_id_seq db),
       rowCount matches (cart_items db))) ;;
  ret (result_rowCount >? 0).

(** [limit: number = 5]: an omitted limit is 5. *)
Definition getRecentlyAddedItems (userId : Z) (limit : option Z)
    : Task (list CartItem) :=
  let limit := match limit with Some n => n | None => 5 end in
  result <- (fun db =>
      (db, limit_rows limit
             (select_cart_items_newest_first
                [col_id; col_user_id; col_course_id; col_added_at]
                (fun r => (ci_user_id r =? userId)
                          && Bool.eqb (ci_bought r) false) db))) ;;
  ret (map mapRowToCartItem result).

End CartService.

(** ** [types/user.ts] *)

Module UserTypes.
Import Store.

Record User : Type := mkUser {
  User_id : Z;
  User_email : string;
  User_firstName : option string;
  User_lastName : option string;
  User_phone : option string;
  User_role : UserRole;
  User_isActive : bool;
  User_createdAt : Z;
  User_updatedAt : Z
}.

Record AuthUser : Type := mkAuthUser {
  AuthUser_id : Z;
  AuthUser_email : string;
  AuthUser_role : UserRole
}.

Record LoginRequest : Type := mkLoginRequest {
  LoginRequest_email : string;
  LoginRequest_password : string
}.

(** The [role] of a request is whatever string the body carries. *)
Record RegisterRequest : Type := mkRegisterRequest {
  RegisterRequest_email : string;
  RegisterRequest_password : string;
  RegisterRequest_firstName : option string;
  RegisterRequest_lastName : option string;
  RegisterRequest_phone : option string;
  RegisterRequest_role : option string
}.

(** The claims a token carries ([JWTPayload] of [middleware/auth.ts]). *)
Record JWTPayload : Type := mkJWTPayload {
  JWTPayload_userId : Z;
  JWTPayload_email : string;
  JWTPayload_role : UserRole
}.

End UserTypes.

(** ** External libraries

    [bcryptjs] draws a salt for every hash, so [bcrypt_hash] takes the salt
    it drew; [jsonwebtoken] reads the clock, so both of its functions take
    the time of the call. [jwt_verify] is [None] when the library throws. *)

Class Bcrypt : Type := {
  bcrypt_hash : string -> Z -> string -> string;
  bcrypt_compare : string -> string -> bool
}.

Class Jwt : Type := {
  jwt_sign : UserTypes.JWTPayload -> string -> Z -> string;
  jwt_verify : string -> string -> Z -> option UserTypes.JWTPayload
}.

(** ** [services/userService.ts] *)

Module UserService.
Import Store Task UserTypes.
Local Open Scope task_scope.

Section Service.
Context {bcrypt : Bcrypt} {jwt : Jwt}.
Variable jwtSecret : string.

Definition saltRounds : Z := 10.

Definition generateToken (now : Z) (user : User) : string :=
  let payload := {| JWTPayload_userId := User_id user;
                    JWTPayload_email := User_email user;
                    JWTPayload_role := User_role user |} in
  jwt_sign payload jwtSecret now.

Definition mapRowToUser (row : UserRow) : User :=
  {| User_id := u_id row;
     User_email := u_email row;
     User_firstName := u_first_name row;
     User_lastName := u_last_name row;
     User_phone := u_phone row;
     User_role := u_role row;
     User_isActive := u_is_active row;
     User_createdAt := u_created_at row;
     User_updatedAt := u_updated_at row |}.

(** [userData.role === 'admin' && requestingUser?.role === 'admin'] *)
Definition asks_admin (userData : RegisterRequest) : bool :=
  match RegisterRequest_role userData with
  | Some r => String.eqb r "admin"
  | None => false
  end.

Definition is_admin (requestingUser : option AuthUser) : bool :=
  match requestingUser with
  | Some a => UserRole_eqb (AuthUser_role a) RoleAdmin
  | None => false
  end.

Definition register (salt : string) (now : Z) (userData : RegisterRequest)
    (requestingUser : option AuthUser) : Task (User * string) :=
  (* Check if user already exists *)
  existingUser <- query (fun db =>
      filter (fun u => String.eqb (u_email u) (RegisterRequest_email userData))
             (users db)) ;;
  if 0 <? Z.of_nat (List.length existingUser)
  then throw (Js.Error "User already exists with this email")
  else
    (* Hash password *)
    let hashedPassword :=
      bcrypt_hash (RegisterRequest_password userData) saltRounds salt in
    (* Determine role - only admins can create admin users *)
    let role :=
      if asks_admin userData && is_admin requestingUser
      then RoleAdmin else RoleUser in
    (* Create user *)
    result <- insert_user
        (RegisterRequest_email userData) hashedPassword
        (RegisterRequest_firstName userData)
        (RegisterRequest_lastName userData)
        (RegisterRequest_phone userData) role ;;
    row <- first_row result "id" ;;
    let user := mapRowToUser row in
    let token := generateToken now user in
    ret (user, token).

Definition login (now : Z) (credentials : LoginRequest)
    : Task (User * string) :=
  result <- query (fun db =>
      filter (fun u => String.eqb (u_email u) (LoginRequest_email credentials)
                       && Bool.eqb (u_is_active u) true)
             (users db)) ;;
  match result with
  | [] => throw (Js.Error "User not exist")
  | userData :: _ =>
      let isValidPassword :=
        bcrypt_compare (LoginRequest_password credentials)
                       (u_password userData) in
      if negb isValidPassword
      then throw (Js.Error "Password is invalid")
      else
        let user := mapRowToUser userData in
        let token := generateToken now user in
        ret (user, token)
  end.

Definition getUserById (id : Z) : Task (option User) :=
  result <- query (fun db => filter (fun u => u_id u =? id) (users db)) ;;
  match result with
  | [] => ret None
  | row0 :: _ => ret (Some (mapRowToUser row0))
  end.

Definition updateUserRole (now : Z) (userId : Z) (newRole : UserRole)
    (requestingUser : AuthUser) : Task User :=
  (* Only admins can change user roles *)
  if negb (UserRole_eqb (AuthUser_role requestingUser) RoleAdmin)
  then throw (Js.Error "Access denied")
  else
    result <- execute (fun db =>
        let matches u := u_id u =? userId in
        let us := update_where matches (set_role newRole now) (users db) in
        (with_users db us (users_id_seq db), filter matches us)) ;;
    match result with
    | [] => throw (Js.Error "User not found")
    | row0 :: _ => ret (mapRowToUser row0)
    end.

Definition deactivateUser (now : Z) (userId : Z)
    (requestingUser : AuthUser) : Task bool :=
  (* Only admins can deactivate users *)
  if negb (UserRole_eqb (AuthUser_role requestingUser) RoleAdmin)
  then throw (Js.Error "Access denied")
  else
    result_rowCount <- execute (fun db =>
        let matches u := u_id u =? userId in
        (with_users db
           (update_where matches (set_is_active false now) (users db))
           (users_id_seq db),
         rowCount matches (users db))) ;;
    ret (result_rowCount >? 0).

Definition getAllUsers (requestingUser : AuthUser) : Task (list User) :=
  (* Only admins can view all users *)
  if negb (UserRole_eqb (AuthUser_role requestingUser) RoleAdmin)
  then throw (Js.Error "Access denied")
  else
    result <- query (fun db => order_by_desc u_created_at (users db)) ;;
    ret (map mapRowToUser result).

End Service.

End UserService.

(** ** The HTTP layer

    One request and its response in flight through a chain of Express
    handlers. A handler receives the exchange and the continuation [next];
    [res.status(s).json(j)] records the response, [next()] runs the rest of
    the chain. *)

Module Express.
Import Store UserTypes CartTypes.

(** [req.body] after JSON parsing, by the properties the handlers read;
    each of them but [courseId] is a string or absent. *)
Record Body : Type := mkBody {
  body_email : option string;
  body_password : option string;
  body_firstName : option string;
  body_lastName : option string;
  body_phone : option string;
  body_role : option string;
  body_courseId : Js.Value
}.

Record Request : Type := mkRequest {
  headers_authorization : option string;
  body : Body;
  user : option AuthUser
}.

(** The JSON envelope of a response. *)
Record Json : Type := mkJson {
  success : bool;
  message : string;
  error : option string;
  json_user : option User;
  json_token : option string;
  json_item : option CartItem
}.

Record Response : Type := mkResponse {
  statusCode : Z;
  json : Json
}.

Record Exchange : Type := mkExchange {
  db : Db;
  now : Z;                  (* the clock read during this request *)
  salt : string;            (* the salt the hash library draws *)
  req : Request;
  res : option Response;
  next_calls : nat          (* how often [next()] was invoked *)
}.

Definition Handler : Type := Exchange -> (Exchange -> Exchange) -> Exchange.

(** [res.status(status).json(j)] *)
Definition send (status : Z) (j : Json) (x : Exchange) : Exchange :=
  {| db := db x; now := now x; salt := salt x; req := req x;
     res := Some {| statusCode := status; json := j |};
     next_calls := next_calls x |}.

(** [{ success: false, message }] *)
Definition failure (m : string) : Json :=
  {| success := false; message := m; error := None;
     json_user := None; json_token := None; json_item := None |}.

(** [{ success: false, message: err.message || fallback, error: err.message }] *)
Definition failure_of (e : Js.Thrown) (fallback : string) : Json :=
  {| success := false;
     message := if String.eqb (Js.message e) "" then fallback else Js.message e;
     error := Some (Js.message e);
     json_user := None; json_token := None; json_item := None |}.

(** [req.user = u] *)
Definition set_user (u : AuthUser) (x : Exchange) : Exchange :=
  {| db := db x; now := now x; salt := salt x;
     req := {| headers_authorization := headers_authorization (req x);
               body := body (req x); user := Some u |};
     res := res x; next_calls := next_calls x |}.

Definition set_db (d : Db) (x : Exchange) : Exchange :=
  {| db := d; now := now x; salt := salt x; req := req x;
     res := res x; next_calls := next_calls x |}.

(** [next()] *)
Definition invoke (next : Exchange -> Exchange) (x : Exchange) : Exchange :=
  next {| db := db x; now := now x; salt := salt x; req := req x;
          res := res x; next_calls := S (next_calls x) |}.

(** The handlers of a route, run in order. *)
Fixpoint run (chain : list Handler) (x : Exchange) : Exchange :=
  match chain with
  | [] => x
  | h :: rest => h x (run rest)
  end.

End Express.

(** ** [middleware/auth.ts] *)

Module AuthMiddleware.
Import Store UserTypes Express.

Section Middleware.
Context {jwt : Jwt}.
Variable jwtSecret : string.

(** Basic authentication middleware *)
Definition authenticate : Handler := fun x next =>
  match headers_authorization (req x) with
  | None => send 401 (failure "Access token required") x
  | Some authHeader =>
      if negb (String.prefix "Bearer " authHeader)
      then send 401 (failure "Access token required") x
      else
        let token :=
          String.substring 7 (String.length authHeader - 7) authHeader in
        match jwt_verify token jwtSecret (now x) with
        | None => send 401 (failure "Invalid token") x
        | Some decoded =>
            (* Verify user still exists and is active *)
            let result :=
              filter (fun u => u_id u =? JWTPayload_userId decoded)
                     (users (db x)) in
            match result with
            | [] => send 401 (failure "Invalid or expired token") x
            | user :: _ =>
                if negb (u_is_active user)
                then send 401 (failure "Invalid or expired token") x
                else
                  invoke next
                    (set_user {| AuthUser_id := u_id user;
                                 AuthUser_email := u_email user;
                                 AuthUser_role := u_role user |} x)
            end
        end
  end.

(** Admin-only middleware *)
Definition requireAdmin : Handler := fun x next =>
  authenticate x (fun x =>
    match user (req x) with
    | None => x
    | Some u =>
        if negb (UserRole_eqb (AuthUser_role u) RoleAdmin)
        then send 403 (failure "Admin access required") x
        else invoke next x
    end).

Definition role_name (r : UserRole) : string :=
  match r with
  | RoleUser => "user"
  | RoleAdmin => "admin"
  end.

(** Role-based middleware factory *)
Definition requireRole (roles : list UserRole) : Handler := fun x next =>
  authenticate x (fun x =>
    match user (req x) with
    | None => x
    | Some u =>
        if negb (existsb (UserRole_eqb (AuthUser_role u)) roles)
        then send 403
               (failure ("Access denied. Required roles: "
                         ++ String.concat ", " (map role_name roles))) x
        else invoke next x
    end).

End Middleware.

End AuthMiddleware.

(** ** [controllers/authController.ts] *)

Module AuthController.
Import Store UserTypes Express.

(** [[^\s@]]: a code unit that is neither white space nor the at sign. *)
Definition plain (c : ascii) : bool :=
  negb (Js.is_space c) && negb (Ascii.eqb c "@").

Fixpoint all_plain (s : string) : bool :=
  match s with
  | EmptyString => true
  | String c r => plain c && all_plain r
  end.

(** Cuts a string at its first at sign. *)
Fixpoint cut_at (s : string) : option (string * string) :=
  match s with
  | EmptyString => None
  | String c r =>
      if Ascii.eqb c "@" then Some (EmptyString, r)
      else match cut_at r with
           | Some (l, d) => Some (String c l, d)
           | None => None
           end
  end.

(** A dot that is followed by at least one more code unit. *)
Fixpoint dot_before_end (s : string) : bool :=
  match s with
  | String c (String _ _ as r) => Ascii.eqb c "." || dot_before_end r
  | _ => false
  end.

(** [/^[^\s@]+@[^\s@]+\.[^\s@]+$/.test(s)]: the first at sign splits the
    string into a non-empty plain local part and a plain domain that has
    a dot which is neither its first nor its last code unit. *)
Definition emailRegex_test (s : string) : bool :=
  match cut_at s with
  | Some (String c l, String _ d as domain) =>
      all_plain (String c l) && all_plain domain && dot_before_end d
  | _ => false
  end.

Section Controller.
Context {bcrypt : Bcrypt} {jwt : Jwt}.
Variable jwtSecret : string.

Definition register : Handler := fun x _ =>
  (* Basic validation *)
  match body_email (body (req x)), body_password (body (req x)) with
  | Some email, Some password =>
      if String.eqb email "" || String.eqb password ""
      then send 400 (failure "Email and password are required") x
      (* Email validation *)
      else if negb (emailRegex_test email)
      then send 400 (failure "Invalid email format") x
      (* Password validation *)
      else if Z.of_nat (String.length password) <? 6
      then send 400
             (failure "Password must be at least 6 characters long") x
      else
        let userData :=
          {| RegisterRequest_email := email;
             RegisterRequest_password := password;
             RegisterRequest_firstName := body_firstName (body (req x));
             RegisterRequest_lastName := body_lastName (body (req x));
             RegisterRequest_phone := body_phone (body (req x));
             RegisterRequest_role := body_role (body (req x)) |} in
        match UserService.register jwtSecret (salt x) (now x)
                userData (user (req x)) (db x) with
        | (db', Js.Returned (user, token)) =>
            send 201
              {| success := true;
                 message := "User registered successfully";
                 error := None;
                 json_user := Some user;
                 json_token := Some token;
                 json_item := None |}
              (set_db db' x)
        | (db', Js.Threw err) =>
            send 400 (failure_of err "Registration failed") (set_db db' x)
        end
  | _, _ => send 400 (failure "Email and password are required") x
  end.

Definition login : Handler := fun x _ =>
  (* Basic validation *)
  match body_email (body (req x)), body_password (body (req x)) with
  | Some email, Some password =>
      if String.eqb email "" || String.eqb password ""
      then send 400 (failure "Email and password are required") x
      else
        let credentials :=
          {| LoginRequest_email := email;
             LoginRequest_password := password |} in
        match UserService.login jwtSecret (now x) credentials (db x) with
        | (db', Js.Returned (user, token)) =>
            send 200
              {| success := true;
                 message := "Login successful";
                 error := None;
                 json_user := Some user;
                 json_token := Some token;
                 json_item := None |}
              (set_db db' x)
        | (db', Js.Threw err) =>
            send 401 (failure_of err "Login failed") (set_db db' x)
        end
  | _, _ => send 400 (failure "Email and password are required") x
  end.

Definition getProfile : Handler := fun x _ =>
  match user (req x) with
  | None => send 401 (failure "User not authenticated") x
  | Some u =>
      match UserService.getUserById (AuthUser_id u) (db x) with
      | (db', Js.Returned None) =>
          send 404 (failure "User not found") (set_db db' x)
      | (db', Js.Returned (Some found)) =>
          send 200
            {| success := true;
               message := "Profile retrieved successfully";
               error := None;
               json_user := Some found;
               json_token := None;
               json_item := None |}
            (set_db db' x)
      | (db', Js.Threw err) =>
          send 500
            {| success := false;
               message := "Failed to retrieve profile";
               error := Some (Js.message err);
               json_user := None;
               json_token := None;
               json_item := None |}
            (set_db db' x)
      end
  end.

(** [!role || !['user', 'admin'].includes(role)] fails exactly when this
    is [None]. *)
Definition valid_role (role : option string) : option UserRole :=
  match role with
  | Some r =>
      if String.eqb r "user" then Some RoleUser
      else if String.eqb r "admin" then Some RoleAdmin
      else None
  | None => None
  end.

(** [id] is [req.params.id] of the matched route [/users/:id/role]. *)
Definition updateUserRole (id : string) : Handler := fun x _ =>
  match user (req x) with
  | None => send 401 (failure "User not authenticated") x
  | Some u =>
      match Js.parseInt (Js.Str id) with
      | None => send 400 (failure "Invalid user ID") x
      | Some userId =>
          match valid_role (body_role (body (req x))) with
          | None =>
              send 400 (failure "Valid role is required (user or admin)") x
          | Some role =>
              match UserService.updateUserRole (now x) userId role u (db x) with
              | (db', Js.Returned updatedUser) =>
                  send 200
                    {| success := true;
                       message := "User role updated successfully";
                       error := None;
                       json_user := Some updatedUser;
                       json_token := None;
                       json_item := None |}
                    (set_db db' x)
              | (db', Js.Threw err) =>
                  send 403 (failure_of err "Failed to update user role")
                    (set_db db' x)
              end
          end
      end
  end.

(** [id] is [req.params.id] of the matched route [/users/:id]. *)
Definition deactivateUser (id : string) : Handler := fun x _ =>
  match user (req x) with
  | None => send 401 (failure "User not authenticated") x
  | Some u =>
      match Js.parseInt (Js.Str id) with
      | None => send 400 (failure "Invalid user ID") x
      | Some userId =>
          (* Prevent self-deactivation *)
          if userId =? AuthUser_id u
          then send 400 (failure "Cannot deactivate your own account") x
          else
            match UserService.deactivateUser (now x) userId u (db x) with
            | (db', Js.Returned done) =>
                if negb done
                then send 404 (failure "User not found") (set_db db' x)
                else
                  send 200
                    {| success := true;
                       message := "User deactivated successfully";
                       error := None;
                       json_user := None;
                       json_token := None;
                       json_item := None |}
                    (set_db db' x)
            | (db', Js.Threw err) =>
                send 403 (failure_of err "Failed to deactivate user")
                  (set_db db' x)
            end
      end
  end.

End Controller.

End AuthController.

(** ** [controllers/cartController.ts] *)

Module CartController.
Import Store UserTypes Express.

Definition addToCart : Handler := fun x _ =>
  match user (req x) with
  | None => send 401 (failure "User not authenticated") x
  | Some u =>
      let courseId := body_courseId (body (req x)) in
      match Js.parseInt courseId with
      | None => send 400 (failure "Valid course ID is required") x
      | Some parsed =>
          if Js.falsy courseId
          then send 400 (failure "Valid course ID is required") x
          else
            match CartService.addToCart (AuthUser_id u) parsed (db x) with
            | (db', Js.Returned item) =>
                send 201
                  {| success := true;
                     message := "Course added to cart successfully";
                     error := None;
                     json_user := None;
                     json_token := None;
                     json_item := Some item |}
                  (set_db db' x)
            | (db', Js.Threw err) =>
                if String.eqb (Js.message err) "Course not found"
                then send 404 (failure (Js.message err)) (set_db db' x)
                else if String.eqb (Js.message err) "Course already in cart"
                then send 409 (failure (Js.message err)) (set_db db' x)
                else send 500 (failure (Js.message err)) (set_db db' x)
            end
      end
  end.

(** [courseId] is [req.params.courseId] of the matched route
    [/items/:courseId]. *)
Definition removeFromCart (courseId : string) : Handler := fun x _ =>
  match user (req x) with
  | None => send 401 (failure "User not authenticated") x
  | Some u =>
      match Js.parseInt (Js.Str courseId) with
      | None => send 400 (failure "Valid course ID is required") x
      | Some parsed =>
          if Js.falsy (Js.Str courseId)
          then send 400 (failure "Valid course ID is required") x
          else
            match CartService.removeFromCart (AuthUser_id u) parsed (db x) with
            | (db', Js.Returned removed) =>
                if negb removed
                then send 404 (failure "Course not found in cart")
                       (set_db db' x)
                else
                  send 200
                    {| success := true;
                       message := "Course removed from cart successfully";
                       error := None;
                       json_user := None;
                       json_token := None;
                       json_item := None |}
                    (set_db db' x)
            | (db', Js.Threw err) =>
                send 500 (failure (Js.message err)) (set_db db' x)
            end
      end
  end.

(** [req.query.bought == 'true'] for a query value that is a string or
    absent. *)
Definition is_true (bought : option string) : bool :=
  match bought with
  | Some s => String.eqb s "true"
  | None => false
  end.

(** [bought] is [req.query.bought]. *)
Definition clearCart (bought : option string) : Handler := fun x _ =>
  match user (req x) with
  | None => send 401 (failure "User not authenticated") x
  | Some u =>
      match CartService.clearCart (AuthUser_id u) (is_true bought) (db x) with
      | (db', Js.Returned cleared) =>
          if negb cleared
          then send 404 (failure "Cart is already empty") (set_db db' x)
          else
            send 200
              {| success := true;
                 message := "Cart cleared successfully";
                 error := None;
                 json_user := None;
                 json_token := None;
                 json_item := None |}
              (set_db db' x)
      | (db', Js.Threw err) =>
          send 500 (failure (Js.message err)) (set_db db' x)
      end
  end.

End CartController.

(** ** [routes/auth.ts], [routes/cart.ts] and their mounting in [app.ts] *)

Module Routes.
Import Store UserTypes Express.

Inductive Method : Type := GET | POST | PUT | DELETE.

Definition Method_eqb (a b : Method) : bool :=
  match a, b with
  | GET, GET | POST, POST | PUT, PUT | DELETE, DELETE => true
  | _, _ => false
  end.

Section Routers.
Context {bcrypt : Bcrypt} {jwt : Jwt}.
Variable jwtSecret : string.

(** The handlers [createAuthRouter] registers for a method and a path
    below [/api/auth]; of its routes the two public ones are modelled. *)
Definition createAuthRouter (m : Method) (path : string) : list Handler :=
  if Method_eqb m POST && String.eqb path "/register"
  then [AuthController.register jwtSecret]
  else if Method_eqb m POST && String.eqb path "/login"
  then [AuthController.login jwtSecret]
  else [].

(** [createCartRouter]: [router.use(authMiddleware.authenticate)] puts
    the middleware in front of every cart route; of the routes the one
    that adds to the cart is modelled. *)
Definition createCartRouter (m : Method) (path : string) : list Handler :=
  AuthMiddleware.authenticate jwtSecret
  :: (if Method_eqb m POST && String.eqb path "/"
      then [CartController.addToCart]
      else []).

(** What arrives from the network. *)
Record HttpRequest : Type := mkHttpRequest {
  http_method : Method;
  http_path : string;
  http_authorization : option string;
  http_body : Body
}.

(** Express hands the handlers a request object without [user]. *)
Definition incoming (d : Db) (now_ : Z) (salt_ : string) (r : HttpRequest)
    : Exchange :=
  {| db := d; now := now_; salt := salt_;
     req := {| headers_authorization := http_authorization r;
               body := http_body r;
               user := None |};
     res := None; next_calls := 0 |}.

(** [app.use(mount, router)]: the router sees the path below the mount
    point, [/] when nothing is left. *)
Definition below (mount path : string) : option string :=
  if String.eqb path mount then Some "/"
  else if String.prefix (mount ++ "/") path
  then Some (String.substring (String.length mount)
               (String.length path - String.length mount) path)
  else None.

(** [app.use('/api/cart', cartRoutes)] and
    [app.use('/api/auth', authRoutes)]. *)
Definition app (d : Db) (now_ : Z) (salt_ : string) (r : HttpRequest)
    : Exchange :=
  let x := incoming d now_ salt_ r in
  match below "/api/cart" (http_path r) with
  | Some path => run (createCartRouter (http_method r) path) x
  | None =>
      match below "/api/auth" (http_path r) with
      | Some path => run (createAuthRouter (http_method r) path) x
      | None => x
      end
  end.

(** The protected routes, each with the parameter its controller reads.
    [router.get('/profile', authMiddleware.authenticate,
    authController.getProfile)] *)
Definition profile_route : list Handler :=
  [AuthMiddleware.authenticate jwtSecret; AuthController.getProfile].

(** [router.put('/users/:id/role', authMiddleware.requireAdmin,
    authController.updateUserRole)] *)
Definition users_id_role_route (id : string) : list Handler :=
  [AuthMiddleware.requireAdmin jwtSecret; AuthController.updateUserRole id].

(** [router.delete('/users/:id', authMiddleware.requireAdmin,
    authController.deactivateUser)] *)
Definition users_id_route (id : string) : list Handler :=
  [AuthMiddleware.requireAdmin jwtSecret; AuthController.deactivateUser id].

(** [router.delete('/items/:courseId', cartController.removeFromCart)]
    behind [router.use(authMiddleware.authenticate)] *)
Definition items_courseId_route (courseId : string) : list Handler :=
  [AuthMiddleware.authenticate jwtSecret; CartController.removeFromCart courseId].

(** [router.delete('/clear', cartController.clearCart)] behind
    [router.use(authMiddleware.authenticate)] *)
Definition clear_route (bought : option string) : list Handler :=
  [AuthMiddleware.authenticate jwtSecret; CartController.clearCart bought].

End Routers.

End Routes.

(** ** Reference instances of the external libraries

    A hash that writes the password in front of the salt and a token that
    is the decimal user id; they make closed examples computable. *)

Module Fixture.
Import Store UserTypes Express.

#[export] Instance bcrypt : Bcrypt := {|
  bcrypt_hash p _ s := p ++ "$" ++ s;
  bcrypt_compare p h := String.prefix (p ++ "$") h
|}.

#[export] Instance jwt : Jwt := {|
  jwt_sign p _ _ := Js.ToString (JWTPayload_userId p);
  jwt_verify t _ _ :=
    option_map (fun i => {| JWTPayload_userId := i;
                            JWTPayload_email := "";
                            JWTPayload_role := RoleUser |})
               (Js.parseInt_string t)
|}.

(** The two sample users of [database/init.sql]. *)
Definition admin_row : UserRow :=
  {| u_id := 1; u_email := "admin@gmail.com";
     u_password := "$2b$10$hashedpassword";
     u_first_name := Some "Admin"; u_last_name := Some "User";
     u_phone := None; u_role := RoleAdmin; u_is_active := true;
     u_created_at := 0; u_updated_at := 0 |}.

Definition user_row : UserRow :=
  {| u_id := 2; u_email := "user@gmail.com";
     u_password := "$2b$10$hashedpassword";
     u_first_name := Some "Regular"; u_last_name := Some "User";
     u_phone := None; u_role := RoleUser; u_is_active := true;
     u_created_at := 0; u_updated_at := 0 |}.

Definition init_sql : Db :=
  {| users := [admin_row; user_row]; cart_items := [];
     users_id_seq := 3; cart_items_id_seq := 1;
     current_timestamp := 0 |}.

(** The store after user 2 has bought course 5. *)
Definition purchased_row : CartItemRow :=
  {| ci_id := 1; ci_user_id := 2; ci_course_id := 5;
     ci_bought := true; ci_added_at := 0 |}.

Definition purchased : Db :=
  {| users := [admin_row; user_row]; cart_items := [purchased_row];
     users_id_seq := 3; cart_items_id_seq := 2;
     current_timestamp := 0 |}.

(** A sign-up that asks for the admin role, and the identities of the
    two sample users. *)
Definition signup : RegisterRequest :=
  {| RegisterRequest_email := "a@x.com";
     RegisterRequest_password := "secret1";
     RegisterRequest_firstName := None;
     RegisterRequest_lastName := None;
     RegisterRequest_phone := None;
     RegisterRequest_role := Some "admin" |}.

(** A sign-up whose phone number has 25 characters. *)
Definition long_phone : RegisterRequest :=
  {| RegisterRequest_email := "b@x.com";
     RegisterRequest_password := "secret1";
     RegisterRequest_firstName := None;
     RegisterRequest_lastName := None;
     RegisterRequest_phone := Some "+00 000 000 000 000 000 0";
     RegisterRequest_role := None |}.

Definition root : AuthUser :=
  {| AuthUser_id := 1; AuthUser_email := "admin@gmail.com";
     AuthUser_role := RoleAdmin |}.

Definition regular : AuthUser :=
  {| AuthUser_id := 2; AuthUser_email := "user@gmail.com";
     AuthUser_role := RoleUser |}.

Definition no_body : Body :=
  {| body_email := None; body_password := None; body_firstName := None;
     body_lastName := None; body_phone := None; body_role := None;
     body_courseId := Js.Undefined |}.

(** User 2 with two courses in the cart, course 6 added after course 5. *)
Definition older_row : CartItemRow :=
  {| ci_id := 1; ci_user_id := 2; ci_course_id := 5;
     ci_bought := false; ci_added_at := 10 |}.

Definition newer_row : CartItemRow :=
  {| ci_id := 2; ci_user_id := 2; ci_course_id := 6;
     ci_bought := false; ci_added_at := 20 |}.

Definition two_in_cart : Db :=
  {| users := [admin_row; user_row]; cart_items := [older_row; newer_row];
     users_id_seq := 3; cart_items_id_seq := 3;
     current_timestamp := 30 |}.

(** The sample users and a third account created later. *)
Definition late_row : UserRow :=
  {| u_id := 3; u_email := "late@gmail.com";
     u_password := "$2b$10$hashedpassword";
     u_first_name := None; u_last_name := None;
     u_phone := None; u_role := RoleUser; u_is_active := true;
     u_created_at := 50; u_updated_at := 50 |}.

Definition two_signups : Db :=
  {| users := [admin_row; user_row; late_row]; cart_items := [];
     users_id_seq := 4; cart_items_id_seq := 1;
     current_timestamp := 60 |}.

(** The body [{ role: 'user' }]. *)
Definition role_user : Body :=
  {| body_email := None; body_password := None; body_firstName := None;
     body_lastName := None; body_phone := None; body_role := Some "user";
     body_courseId := Js.Undefined |}.

(** The body [{ courseId: 5 }]. *)
Definition course_5 : Body :=
  {| body_email := None; body_password := None; body_firstName := None;
     body_lastName := None; body_phone := None; body_role := None;
     body_courseId := Js.Num 5 |}.

End Fixture.


(** ** The constraints of the schema as a property of the store *)

Module Schema.
Import Store.

(** The key of [UNIQUE(user_id, course_id)]. *)
Definition cart_key (r : CartItemRow) : Z * Z := (ci_user_id r, ci_course_id r).

(** A store on which the constraints of [database/init.sql] hold and
    whose sequences are ahead of every key they have handed out. *)
Record consistent (db : Db) : Prop := mkConsistent {
  users_pkey : NoDup (map u_id (users db));
  users_email_key : NoDup (map u_email (users db));
  users_id_below_seq : forall u, In u (users db) -> u_id u < users_id_seq db;
  cart_items_pkey : NoDup (map ci_id (cart_items db));
  cart_items_user_id_course_id_key : NoDup (map cart_key (cart_items db));
  cart_items_user_id_fkey :
    forall r, In r (cart_items db) ->
      exists u, In u (users db) /\ u_id u = ci_user_id r;
  cart_items_id_below_seq :
    forall r, In r (cart_items db) -> ci_id r < cart_items_id_seq db
}.

End Schema.

(** ** Rows of the cart named in the statements of the properties *)

Module CartRows.
Import Store.

(** [user_id = u AND course_id = c] *)
Definition of_pair (u c : Z) (r : CartItemRow) : bool :=
  (ci_user_id r =? u) && (ci_course_id r =? c).

(** [user_id = u AND bought = false] *)
Definition unbought_of (u : Z) (r : CartItemRow) : bool :=
  (ci_user_id r =? u) && Bool.eqb (ci_bought r) false.

(** [user_id = u AND course_id = c AND bought = false] *)
Definition unbought_pair (u c : Z) (r : CartItemRow) : bool :=
  (ci_user_id r =? u) && (ci_course_id r =? c) && Bool.eqb (ci_bought r) false.

(** The row an accepted insert for the pair adds to the store. *)
Definition new_row (db : Db) (u c : Z) : CartItemRow :=
  {| ci_id := cart_items_id_seq db; ci_user_id := u; ci_course_id := c;
     ci_bought := false; ci_added_at := current_timestamp db |}.

(** The checkout commit on one row: an unbought row of the user becomes
    bought, every other row stays as it is. *)
Definition commit (u : Z) (r : CartItemRow) : CartItemRow :=
  if unbought_of u r then set_bought true r else r.

(** The item the service builds from a row it selected with the columns
    [id], [user_id], [course_id] and [added_at]. *)
Definition item_of (r : CartItemRow) : CartTypes.CartItem :=
  {| CartTypes.CartItem_id := Some (ci_id r);
     CartTypes.CartItem_userId := Some (ci_user_id r);
     CartTypes.CartItem_courseId := Some (ci_course_id r);
     CartTypes.CartItem_addedAt := Some (ci_added_at r) |}.

(** [user_id = u AND bought = b] *)
Definition listed_as (u : Z) (b : bool) (r : CartItemRow) : bool :=
  (ci_user_id r =? u) && Bool.eqb (ci_bought r) b.

End CartRows.

(** ** Two [addToCart] calls in flight

    Each [await client.query(...)] of [CartService.addToCart] is a point
    where the call is suspended and another request may run. The call is
    cut there into steps, one statement each, and two calls for the same
    user and course are interleaved by a schedule. *)

Module Interleaving.
Import Store CartTypes.

(** Where a call stands. *)
Inductive Pc : Type :=
| AtCheck                                   (* about to send the pre-check *)
| AtInsert                                  (* pre-check found no row *)
| AtFetch (result : list CartItemDbRow)     (* the insert returned *)
| Settled (o : Js.Outcome CartItem).        (* returned or threw *)

Definition all_columns : list CartCol :=
  [col_id; col_user_id; col_course_id; col_bought; col_added_at].

Definition type_error : Js.Thrown :=
  Js.TypeError "Cannot read properties of undefined (reading 'id')".

(** The next statement of the call and what the call does with its
    result. *)
Definition step (userId courseId : Z) (pc : Pc) (db : Db) : Db * Pc :=
  match pc with
  | AtCheck =>
      match select_cart_items [col_id]
              (fun r => (ci_user_id r =? userId) && (ci_course_id r =? courseId))
              db with
      | row0 :: _ =>
          if Js.truthy (row_bought row0)
          then (db, Settled (Js.Threw (Js.Error "You already bought it")))
          else (db, Settled (Js.Threw (Js.Error "Course already in Cart")))
      | [] => (db, AtInsert)
      end
  | AtInsert =>
      match insert_cart_item all_columns userId courseId db with
      | (db', Js.Returned result) => (db', AtFetch result)
      | (db', Js.Threw e) => (db', Settled (Js.Threw e))
      end
  | AtFetch result =>
      match result with
      | [] => (db, Settled (Js.Threw type_error))
      | inserted :: _ =>
          match select_cart_items all_columns
                  (fun r => eq_param (ci_id r) (row_id inserted)) db with
          | [] => (db, Settled (Js.Threw type_error))
          | row :: _ =>
              (db, Settled (Js.Returned (CartService.mapRowToCartItem row)))
          end
      end
  | Settled o => (db, Settled o)
  end.

(** A call run on its own, without interruption. *)
Definition alone (userId courseId : Z) (db : Db) : Db * Pc :=
  let (db1, pc1) := step userId courseId AtCheck db in
  let (db2, pc2) := step userId courseId pc1 db1 in
  step userId courseId pc2 db2.

(** Two calls for the same user and course over one store. *)
Record Race : Type := mkRace {
  store : Db;
  first : Pc;
  second : Pc
}.

Inductive Turn : Type := First | Second.

Definition advance (userId courseId : Z) (s : Race) (t : Turn) : Race :=
  match t with
  | First =>
      let (db', pc') := step userId courseId (first s) (store s) in
      {| store := db'; first := pc'; second := second s |}
  | Second =>
      let (db', pc') := step userId courseId (second s) (store s) in
      {| store := db'; first := first s; second := pc' |}
  end.

Definition play (userId courseId : Z) (turns : list Turn) (s : Race) : Race :=
  fold_left (advance userId courseId) turns s.

(** *** The states of a race on a store without a row for the pair *)

Section Raced.
Variables (db : Db) (u c : Z).

(** The store once one of the calls has inserted, with the sequence at
    [n]. *)
Definition inserted_store (n : Z) : Db :=
  with_cart_items db (cart_items db ++ [CartRows.new_row db u c])%list n.

(** What the call whose insert was accepted returns. *)
Definition item : CartItem :=
  {| CartItem_id := Some (cart_items_id_seq db);
     CartItem_userId := Some u;
     CartItem_courseId := Some c;
     CartItem_addedAt := Some (current_timestamp db) |}.

(** The store's answer to the second insert. *)
Definition rejection : Js.Thrown :=
  unique_violation "cart_items_user_id_course_id_key".

(** The call whose insert was accepted: it is about to fetch its row or
    has returned it. *)
Definition winning (pc : Pc) : Prop :=
  pc = AtFetch [project all_columns (CartRows.new_row db u c)]
  \/ pc = Settled (Js.Returned item).

(** One insert was accepted: the other call has not inserted yet, or
    its insert was rejected by the store. *)
Definition decided (s : Db) (won lost : Pc) : Prop :=
  winning won
  /\ ((s = inserted_store (cart_items_id_seq db + 1) /\ lost = AtInsert)
      \/ (s = inserted_store (cart_items_id_seq db + 2)
          /\ lost = Settled (Js.Threw rejection))).

(** The states two calls can be in after both passed the pre-check. *)
Definition reachable (s : Race) : Prop :=
  s = {| store := db; first := AtInsert; second := AtInsert |}
  \/ decided (store s) (first s) (second s)
  \/ decided (store s) (second s) (first s).

End Raced.

End Interleaving.

(** ** Rows of the users table named in the statements of the properties *)

Module UserRows.
Import Store UserTypes.

(** The role [register] stores: [admin] when the request asks for it and
    an admin makes the request, [user] otherwise. *)
Definition granted_role (userData : RegisterRequest)
    (requestingUser : option AuthUser) : UserRole :=
  match RegisterRequest_role userData, requestingUser with
  | Some r, Some a =>
      if String.eqb r "admin" && UserRole_eqb (AuthUser_role a) RoleAdmin
      then RoleAdmin else RoleUser
  | _, _ => RoleUser
  end.

(** The row an accepted registration adds to the store. *)
Definition new_user {bcrypt : Bcrypt} (db : Db) (salt : string)
    (userData : RegisterRequest) (requestingUser : option AuthUser) : UserRow :=
  {| u_id := users_id_seq db;
     u_email := RegisterRequest_email userData;
     u_password :=
       bcrypt_hash (RegisterRequest_password userData)
         UserService.saltRounds salt;
     u_first_name := RegisterRequest_firstName userData;
     u_last_name := RegisterRequest_lastName userData;
     u_phone := RegisterRequest_phone userData;
     u_role := granted_role userData requestingUser;
     u_is_active := true;
     u_created_at := current_timestamp db;
     u_updated_at := current_timestamp db |}.

End UserRows.

(** ** The credential a request presents *)

Module Credential.
Import Store UserTypes Express.

(** [req.user] as the middleware builds it from a row of [users]. *)
Definition identity (row : UserRow) : AuthUser :=
  {| AuthUser_id := u_id row;
     AuthUser_email := u_email row;
     AuthUser_role := u_role row |}.

(** What [authenticate] asks of a request before it calls [next()]: the
    [Authorization] header is [Bearer ] followed by [token], the token
    verifies to [decoded], and [row], the first row of [users] with the
    id of the token, is active. *)
Definition presents {jwt : Jwt} (jwtSecret : string) (x : Exchange)
    (token : string) (decoded : JWTPayload) (row : UserRow) : Prop :=
  headers_authorization (req x) = Some ("Bearer " ++ token)
  /\ jwt_verify token jwtSecret (now x) = Some decoded
  /\ hd_error (filter (fun u => u_id u =? JWTPayload_userId decoded)
                 (users (db x))) = Some row
  /\ u_is_active row = true.

End Credential.

(** * Properties *)

(** ** Decimal numerals read back by [parseInt] *)

Module JsFacts.
Import Js.

Lemma digits_uint (d : Decimal.uint) (a : Z) :
  0 <= a ->
  digits 10 (NilEmpty.string_of_uint d) (Some a)
  = Some (Z.of_nat (Nat.of_uint_acc d (Z.to_nat a))).
Proof.
  revert a.
  induction d as [|d IH|d IH|d IH|d IH|d IH|d IH|d IH|d IH|d IH|d IH];
    intros a Ha; cbn [NilEmpty.string_of_uint digits Nat.of_uint_acc];
    [ now rewrite Z2Nat.id | .. ];
    match goal with
    | |- context [digit_value 10 ?c] =>
        let v := eval vm_compute in (digit_value 10 c) in
        change (digit_value 10 c) with v
    end;
    cbv iota beta; rewrite IH by lia;
    rewrite Nat.tail_mul_spec; do 3 f_equal; lia.
Qed.

Lemma uint_nonnil_digit (d : Decimal.uint) :
  d <> Decimal.Nil ->
  digits 10 (NilEmpty.string_of_uint d) None
  = digits 10 (NilEmpty.string_of_uint d) (Some 0).
Proof. destruct d; [congruence | reflexivity ..]. Qed.

(** A decimal numeral is read back as the number it denotes. *)
Lemma parseInt_string_uint (d : Decimal.uint) :
  d <> Decimal.Nil ->
  parseInt_string (NilEmpty.string_of_uint d) = Some (Z.of_nat (Nat.of_uint d)).
Proof.
  intros Hd.
  assert (H : parseInt_string (NilEmpty.string_of_uint d)
              = option_map (Z.mul 1) (digits 10 (NilEmpty.string_of_uint d) None)).
  { destruct d as [|d|d|d|d|d|d|d|d|d|d]; try reflexivity.
    destruct d; reflexivity. }
  rewrite H, uint_nonnil_digit, digits_uint by (assumption || lia).
  cbn [option_map]. f_equal. unfold Nat.of_uint. simpl Z.to_nat. lia.
Qed.

Lemma to_uint_nonnil (n : nat) : Nat.to_uint n <> Decimal.Nil.
Proof.
  intros H. 
  pose proof (Unsigned.of_to n) as E. rewrite H in E. cbn in E. subst n.
  discriminate H.
Qed.

Lemma parseInt_ToString (n : Z) : parseInt_string (ToString n) = Some n.
Proof.
  unfold ToString. destruct (Z.ltb_spec n 0) as [Hneg|Hpos].
  - pose proof (to_uint_nonnil (Z.abs_nat n)) as Hnn.
    assert (H : parseInt_string ("-" ++ NilEmpty.string_of_uint (Nat.to_uint (Z.abs_nat n)))
              = option_map (Z.mul (-1))
                  (digits 10 (NilEmpty.string_of_uint (Nat.to_uint (Z.abs_nat n))) None)).
    { destruct (Nat.to_uint (Z.abs_nat n)) as [|d|d|d|d|d|d|d|d|d|d]; try reflexivity.
      destruct d; reflexivity. }
    rewrite H, uint_nonnil_digit, digits_uint by (assumption || lia).
    cbn [option_map]. f_equal. simpl Z.to_nat.
    change (Nat.of_uint_acc ?d 0%nat) with (Nat.of_uint d).
    rewrite Unsigned.of_to. lia.
  - cbn [append]. rewrite parseInt_string_uint by apply to_uint_nonnil.
    rewrite Unsigned.of_to. f_equal. lia.
Qed.

End JsFacts.

(** ** Lists of rows *)

Module RowFacts.

Section Rows.
Context {A : Type}.
Implicit Types (p q : A -> bool) (l : list A).

Lemma filter_none p l :
  (forall x, In x l -> p x = false) -> filter p l = [].
Proof.
  induction l as [|a l IH]; intros H; [reflexivity|].
  cbn. rewrite (H a) by now left. apply IH. intros x Hx. apply H. now right.
Qed.

Lemma filter_some p l x :
  In x l -> p x = true -> exists y rest, filter p l = y :: rest.
Proof.
  intros Hin Hp. destruct (filter p l) as [|y rest] eqn:E; [|eauto].
  assert (Hx : In x (filter p l)) by (apply filter_In; auto).
  rewrite E in Hx. destruct Hx.
Qed.

Lemma filter_head p l y rest :
  filter p l = y :: rest -> In y l /\ p y = true.
Proof.
  intros E. apply filter_In. rewrite E. now left.
Qed.

Lemma existsb_none p l :
  (forall x, In x l -> p x = false) -> existsb p l = false.
Proof.
  intros H. destruct (existsb p l) eqn:E; [|reflexivity].
  apply existsb_exists in E. destruct E as (x & Hx & Hp).
  rewrite (H x Hx) in Hp. discriminate.
Qed.

Lemma rowCount_positive p l :
  (Store.rowCount p l >? 0) = existsb p l.
Proof.
  unfold Store.rowCount.
  induction l as [|a l IH]; [reflexivity|].
  cbn. destruct (p a); cbn [List.length orb]; [|exact IH].
  apply Z.gtb_lt. lia.
Qed.

Lemma filter_all p l :
  (forall x, In x l -> p x = true) -> filter p l = l.
Proof.
  induction l as [|a l IH]; intros H; [reflexivity|].
  cbn. rewrite (H a) by now left.
  f_equal. apply IH. intros x Hx. apply H. now right.
Qed.

(** Rows of a table with a unique key are determined by the key. *)
Lemma unique_key_inj {K : Type} (key : A -> K) l x y :
  NoDup (map key l) -> In x l -> In y l -> key x = key y -> x = y.
Proof.
  induction l as [|a l IH]; intros Hnd Hx Hy E; [destruct Hx|].
  cbn in Hnd. inversion Hnd as [|? ? Hnotin Hnd']; subst.
  destruct Hx as [->|Hx], Hy as [->|Hy]; auto.
  - exfalso. apply Hnotin. rewrite E. now apply in_map.
  - exfalso. apply Hnotin. rewrite <- E. now apply in_map.
Qed.

End Rows.

End RowFacts.

(** ** The cart service *)

Module CartFacts.
Import Store Task CartTypes CartService Schema CartRows RowFacts.




Lemma of_pair_true u c r :
  of_pair u c r = true <-> ci_user_id r = u /\ ci_course_id r = c.
Proof. unfold of_pair. rewrite andb_true_iff, !Z.eqb_eq. tauto. Qed.

Lemma unbought_of_true u r :
  unbought_of u r = true <-> ci_user_id r = u /\ ci_bought r = false.
Proof.
  unfold unbought_of. rewrite andb_true_iff, Z.eqb_eq, eqb_true_iff. tauto.
Qed.

Lemma unbought_pair_true u c r :
  unbought_pair u c r = true
  <-> ci_user_id r = u /\ ci_course_id r = c /\ ci_bought r = false.
Proof.
  unfold unbought_pair.
  rewrite !andb_true_iff, !Z.eqb_eq, eqb_true_iff. tauto.
Qed.


(** Whatever its [bought] flag, a row for the pair makes [addToCart]
    throw the in-cart error: the pre-check selects [id] alone, so the
    [bought] property of its row is [undefined]. *)
Lemma addToCart_existing db u c r :
  In r (cart_items db) -> ci_user_id r = u -> ci_course_id r = c ->
  addToCart u c db = (db, Js.Threw (Js.Error "Course already in Cart")).
Proof.
  intros Hin Hu Hc.
  destruct (filter_some (of_pair u c) (cart_items db) r Hin) as (y & rest & E).
  { now apply of_pair_true. }
  unfold addToCart, bind, query, select_cart_items.
  change (fun r0 => (ci_user_id r0 =? u) && (ci_course_id r0 =? c))
    with (of_pair u c).
  rewrite E. reflexivity.
Qed.

Lemma insert_cart_item_accepted cols db u c :
  consistent db ->
  (exists usr, In usr (users db) /\ u_id usr = u) ->
  (forall r, In r (cart_items db) -> ~ (ci_user_id r = u /\ ci_course_id r = c)) ->
  insert_cart_item cols u c db
  = (with_cart_items db (cart_items db ++ [new_row db u c])%list
       (cart_items_id_seq db + 1),
     Js.Returned [project cols (new_row db u c)]).
Proof.
  intros Hok (usr & Husr & Hid) Hnone. unfold insert_cart_item.
  rewrite existsb_none.
  2:{ intros r Hr. apply Z.eqb_neq.
      pose proof (cart_items_id_below_seq db Hok r Hr). lia. }
  rewrite (existsb_none (fun r => _ && _)).
  2:{ intros r Hr. apply not_true_is_false. intros H.
      apply (Hnone r Hr). now apply of_pair_true. }
  replace (existsb (fun u0 => u_id u0 =? u) (users db)) with true.
  2:{ symmetry. apply existsb_exists. exists usr. split; [assumption|].
      now apply Z.eqb_eq. }
  reflexivity.
Qed.

Lemma addToCart_fresh db u c :
  consistent db ->
  (exists usr, In usr (users db) /\ u_id usr = u) ->
  (forall r, In r (cart_items db) -> ~ (ci_user_id r = u /\ ci_course_id r = c)) ->
  addToCart u c db
  = (with_cart_items db (cart_items db ++ [new_row db u c])%list
       (cart_items_id_seq db + 1),
     Js.Returned {| CartItem_id := Some (cart_items_id_seq db);
                    CartItem_userId := Some u;
                    CartItem_courseId := Some c;
                    CartItem_addedAt := Some (current_timestamp db) |}).
Proof.
  intros Hok Husr Hnone.
  unfold addToCart, bind, query, select_cart_items.
  rewrite filter_none.
  2:{ intros r Hr. apply not_true_is_false. intros H.
      apply (Hnone r Hr). now apply of_pair_true. }
  cbn [map]. rewrite insert_cart_item_accepted by assumption.
  cbn [first_row ret project listed existsb CartCol_eqb orb row_id eq_param
       with_cart_items cart_items].
  rewrite filter_app, filter_none.
  2:{ intros r Hr. apply Z.eqb_neq.
      pose proof (cart_items_id_below_seq db Hok r Hr). cbn. lia. }
  cbn [filter new_row ci_id]. rewrite Z.eqb_refl. reflexivity.
Qed.

(** *** [clearCart] *)


Lemma set_bought_bought r : ci_bought r = true -> set_bought true r = r.
Proof. destruct r; cbn; intros ->; reflexivity. Qed.

Lemma update_all_is_commit u rows :
  update_where (fun r => ci_user_id r =? u) (set_bought true) rows
  = map (commit u) rows.
Proof.
  unfold update_where. apply map_ext. intros r.
  unfold commit, unbought_of.
  destruct (ci_user_id r =? u); [|reflexivity].
  destruct (ci_bought r) eqn:E; cbn; [|reflexivity].
  now apply set_bought_bought.
Qed.

Lemma clearCart_bought db u :
  clearCart u true db
  = (with_cart_items db (map (commit u) (cart_items db)) (cart_items_id_seq db),
     Js.Returned (existsb (fun r => ci_user_id r =? u) (cart_items db))).
Proof.
  unfold clearCart, bind, execute, ret.
  now rewrite update_all_is_commit, rowCount_positive.
Qed.

Lemma clearCart_unbought db u :
  clearCart u false db
  = (with_cart_items db
       (filter (fun r => negb (unbought_of u r)) (cart_items db))
       (cart_items_id_seq db),
     Js.Returned (existsb (unbought_of u) (cart_items db))).
Proof.
  unfold clearCart, bind, execute, ret, delete_where.
  now rewrite rowCount_positive.
Qed.

(** *** [removeFromCart] and [isInCart] *)

Lemma removeFromCart_eq db u c :
  removeFromCart u c db
  = (with_cart_items db
       (filter (fun r => negb (unbought_pair u c r)) (cart_items db))
       (cart_items_id_seq db),
     Js.Returned (existsb (unbought_pair u c) (cart_items db))).
Proof.
  unfold removeFromCart, bind, execute, ret, delete_where.
  now rewrite rowCount_positive.
Qed.

Lemma isInCart_eq db u c :
  isInCart u c db = (db, Js.Returned (existsb (unbought_pair u c) (cart_items db))).
Proof.
  unfold isInCart, bind, query, ret, select_cart_items.
  change (fun r => (ci_user_id r =? u) && (ci_course_id r =? c)
                   && Bool.eqb (ci_bought r) false)
    with (unbought_pair u c).
  rewrite length_map. do 2 f_equal.
  induction (cart_items db) as [|a l IH]; [reflexivity|].
  cbn. destruct (unbought_pair u c a); cbn [List.length orb]; [|exact IH].
  apply Z.ltb_lt. lia.
Qed.

Lemma with_cart_items_same db :
  with_cart_items db (cart_items db) (cart_items_id_seq db) = db.
Proof. destruct db; reflexivity. Qed.

(** With the pair unique, a bought row for the pair leaves no unbought
    one. *)
Lemma bought_row_excludes_unbought db u c r :
  consistent db ->
  In r (cart_items db) -> ci_user_id r = u -> ci_course_id r = c ->
  ci_bought r = true ->
  forall r', In r' (cart_items db) -> unbought_pair u c r' = false.
Proof.
  intros Hok Hin Hu Hc Hb r' Hin'.
  apply not_true_is_false. intros H.
  apply unbought_pair_true in H. destruct H as (Hu' & Hc' & Hb').
  assert (r' = r).
  { apply (unique_key_inj cart_key (cart_items db)); auto.
    - apply (cart_items_user_id_course_id_key db Hok).
    - unfold cart_key. congruence. }
  congruence.
Qed.

(** A call that returns has appended its row and nothing else. *)
Lemma addToCart_returned db u c db' item :
  addToCart u c db = (db', Js.Returned item) ->
  db' = with_cart_items db (cart_items db ++ [new_row db u c])%list
          (cart_items_id_seq db + 1).
Proof.
  unfold addToCart, bind, query, select_cart_items.
  destruct (filter _ (cart_items db)) as [|y rest]; cbn [map].
  2:{ destruct (Js.truthy _); cbn; discriminate. }
  unfold insert_cart_item.
  destruct (existsb _ (cart_items db)); [discriminate|].
  destruct (existsb _ (cart_items db)); [discriminate|].
  destruct (existsb _ (users db)); cbn [negb]; [|discriminate].
  cbn [first_row ret].
  match goal with |- context [filter ?p ?l] => destruct (filter p l) end;
    cbn [map first_row ret throw]; intros H; inversion H; reflexivity.
Qed.

Lemma count_unbought_app u rows r :
  List.length (filter (unbought_of u) (rows ++ [r])%list)
  = (List.length (filter (unbought_of u) rows)
     + (if unbought_of u r then 1 else 0))%nat.
Proof.
  rewrite filter_app, length_app. cbn [filter].
  destruct (unbought_of u r); reflexivity.
Qed.

Lemma getCartItemCount_eq db u :
  getCartItemCount u db
  = (db, Js.Returned
           (Some (Z.of_nat (List.length (filter (unbought_of u) (cart_items db)))))).
Proof.
  unfold getCartItemCount, bind, query, ret, select_count, rowCount.
  cbn [Js.parseInt]. now rewrite JsFacts.parseInt_ToString.
Qed.

Lemma no_unbought_after_commit u rows :
  filter (unbought_of u) (map (commit u) rows) = [].
Proof.
  apply filter_none. intros r Hr. apply in_map_iff in Hr.
  destruct Hr as (r0 & <- & _). unfold commit.
  destruct (unbought_of u r0) eqn:E; [|exact E].
  unfold unbought_of. cbn. now rewrite andb_false_r.
Qed.
End CartFacts.

(** ** Registration, login and deactivation *)

Module UserFacts.
Import Store Task UserTypes UserService Schema UserRows RowFacts.

Section Facts.
Context {bcrypt : Bcrypt} {jwt : Jwt}.
Variable jwtSecret : string.

Lemma granted_role_eq userData requestingUser :
  (if asks_admin userData && is_admin requestingUser
   then RoleAdmin else RoleUser)
  = granted_role userData requestingUser.
Proof.
  unfold asks_admin, is_admin, granted_role.
  destruct (RegisterRequest_role userData) as [r|],
           requestingUser as [a|]; cbn; try reflexivity.
  now rewrite andb_false_r.
Qed.



(** What [register] does to the store, whatever its arguments. *)
Lemma register_cases salt now userData requestingUser db :
  let row := new_user db salt userData requestingUser in
  (exists db' e,
      register jwtSecret salt now userData requestingUser db
      = (db', Js.Threw e)
      /\ users db' = users db)
  \/ (register jwtSecret salt now userData requestingUser db
      = (with_users db (users db ++ [row])%list (users_id_seq db + 1),
         Js.Returned (mapRowToUser row,
                      generateToken jwtSecret now (mapRowToUser row)))
      /\ forall u, In u (users db)
                   -> u_email u <> RegisterRequest_email userData).
Proof.
  intros row. unfold register, bind, query.
  destruct (filter _ (users db)) as [|u0 rest] eqn:Efilter.
  2:{ left. eexists _, _. split; [reflexivity|reflexivity]. }
  cbn [List.length Z.of_nat Z.ltb Z.compare].
  unfold insert_user.
  destruct (first_too_long _ _ _ _ _).
  { left. eexists _, _. split; reflexivity. }
  destruct (existsb (fun u => u_id u =? users_id_seq db) (users db)).
  { left. eexists _, _. split; reflexivity. }
  destruct (existsb _ (users db)).
  { left. eexists _, _. split; reflexivity. }
  right. rewrite granted_role_eq. split; [reflexivity|].
  intros u Hu E.
  assert (Hin : In u (filter (fun u => String.eqb (u_email u)
                                (RegisterRequest_email userData)) (users db))).
  { apply filter_In. split; [assumption|]. now apply String.eqb_eq. }
  rewrite Efilter in Hin. destruct Hin.
Qed.


Lemma register_returned salt now userData requestingUser db db' user token :
  register jwtSecret salt now userData requestingUser db
  = (db', Js.Returned (user, token)) ->
  let row := new_user db salt userData requestingUser in
  db' = with_users db (users db ++ [row])%list (users_id_seq db + 1)
  /\ user = mapRowToUser row
  /\ forall u, In u (users db)
               -> u_email u <> RegisterRequest_email userData.
Proof.
  intros H row.
  destruct (register_cases salt now userData requestingUser db)
    as [(d & e & E & _)|(E & Hfresh)]; rewrite E in H.
  - discriminate.
  - inversion H. auto.
Qed.

Lemma login_after_register salt now' userData requestingUser db :
  (forall p s, bcrypt_compare p (bcrypt_hash p saltRounds s) = true) ->
  (forall u, In u (users db)
             -> u_email u <> RegisterRequest_email userData) ->
  let row := new_user db salt userData requestingUser in
  let db' := with_users db (users db ++ [row])%list (users_id_seq db + 1) in
  login jwtSecret now'
    {| LoginRequest_email := RegisterRequest_email userData;
       LoginRequest_password := RegisterRequest_password userData |} db'
  = (db', Js.Returned (mapRowToUser row,
                       generateToken jwtSecret now' (mapRowToUser row))).
Proof.
  intros Hbc Hfresh row db'. unfold login, bind, query.
  cbn [users with_users db' LoginRequest_email LoginRequest_password].
  rewrite filter_app, filter_none.
  2:{ intros u Hu. apply andb_false_iff. left.
      apply String.eqb_neq. now apply Hfresh. }
  cbn [filter app row new_user u_email u_is_active u_password].
  rewrite String.eqb_refl. cbn [Bool.eqb andb].
  change (u_password row)
    with (bcrypt_hash (RegisterRequest_password userData) saltRounds salt).
  now rewrite Hbc.
Qed.

(** After [deactivateUser] every row with the id is inactive. *)
Lemma deactivated_rows now userId requestingUser db db' b :
  deactivateUser now userId requestingUser db = (db', Js.Returned b) ->
  forall u, In u (users db') -> u_id u = userId -> u_is_active u = false.
Proof.
  unfold deactivateUser, bind, execute, ret.
  destruct (negb _); [discriminate|].
  intros H. inversion H; subst db' b; clear H.
  intros u Hu Hid. cbn [users with_users] in Hu.
  unfold update_where in Hu. apply in_map_iff in Hu.
  destruct Hu as (u0 & <- & _).
  destruct (u_id u0 =? userId) eqn:E; [reflexivity|].
  apply Z.eqb_neq in E. contradiction.
Qed.

End Facts.

End UserFacts.

(** ** The schema is kept by every statement the services send *)

Module SchemaFacts.
Import Store Task CartTypes CartService Schema CartRows RowFacts CartFacts.
Import UserTypes UserService UserRows UserFacts.

Section Keys.
Context {A K : Type}.
Variable key : A -> K.

Lemma NoDup_key_filter (p : A -> bool) (l : list A) :
NoDup (map key l) -> NoDup (map key (filter p l)).
Proof.
induction l as [|a l IH]; intros Hnd; [constructor|].
cbn in Hnd. inversion Hnd as [|? ? Hnotin Hnd']; subst.
cbn. destruct (p a); [|now apply IH].
cbn. constructor; [|now apply IH].
intros Hin. apply Hnotin. apply in_map_iff in Hin.
destruct Hin as (x & E & Hx). apply filter_In in Hx.
rewrite <- E. apply in_map. tauto.
Qed.

Lemma map_key_update (p : A -> bool) (f : A -> A) (l : list A) :
(forall a, key (f a) = key a) ->
map key (update_where p f l) = map key l.
Proof.
intros Hf. unfold update_where. rewrite map_map. apply map_ext.
intros a. destruct (p a); [apply Hf | reflexivity].
Qed.

Lemma NoDup_key_snoc (l : list A) (a : A) :
NoDup (map key l) -> (forall x, In x l -> key x <> key a) ->
NoDup (map key (l ++ [a])%list).
Proof.
intros Hnd Hfresh. rewrite map_app. cbn.
apply NoDup_app; [exact Hnd | repeat constructor; intros [] |].
intros k Hk [<-|[]]. apply in_map_iff in Hk.
destruct Hk as (x & E & Hx). exact (Hfresh x Hx E).
Qed.

End Keys.

Lemma existsb_false_all {A} (p : A -> bool) l :
  existsb p l = false -> forall x, In x l -> p x = false.
Proof.
  intros H x Hx. apply not_true_is_false. intros Hp.
  assert (E : existsb p l = true) by (apply existsb_exists; eauto).
  congruence.
Qed.

(** Rows of the cart are replaced, deleted or left; users stay. *)
Lemma consistent_cart_subset db rows n :
  consistent db ->
  NoDup (map ci_id rows) -> NoDup (map cart_key rows) ->
  (forall r, In r rows -> exists r0, In r0 (cart_items db)
                                     /\ ci_id r = ci_id r0
                                     /\ ci_user_id r = ci_user_id r0) ->
  cart_items_id_seq db <= n ->
  consistent (with_cart_items db rows n).
Proof.
  intros Hok Hid Hkey Hsub Hn.
  constructor; cbn [users cart_items users_id_seq cart_items_id_seq with_cart_items];
    try apply Hok; try assumption.
  - intros r Hr. destruct (Hsub r Hr) as (r0 & Hr0 & _ & ->).
    now apply (cart_items_user_id_fkey db Hok).
  - intros r Hr. destruct (Hsub r Hr) as (r0 & Hr0 & -> & _).
    pose proof (cart_items_id_below_seq db Hok r0 Hr0). lia.
Qed.

Lemma consistent_insert_cart_item cols u c db :
  consistent db -> consistent (fst (insert_cart_item cols u c db)).
Proof.
  intros Hok. unfold insert_cart_item.
  assert (Hrejected : consistent (with_cart_items db (cart_items db)
                                    (cart_items_id_seq db + 1))).
  { apply consistent_cart_subset; try apply Hok; eauto; lia. }
  destruct (existsb (fun r => ci_id r =? cart_items_id_seq db) (cart_items db))
    eqn:Eid; [exact Hrejected|].
  destruct (existsb (fun r => (ci_user_id r =? u) && (ci_course_id r =? c))
              (cart_items db)) eqn:Ekey; [exact Hrejected|].
  destruct (existsb (fun usr => u_id usr =? u) (users db)) eqn:Eusr;
    cbn [negb]; [|exact Hrejected].
  cbn [fst].
  pose proof (existsb_false_all _ _ Eid) as Hid.
  pose proof (existsb_false_all _ _ Ekey) as Hkey.
  apply existsb_exists in Eusr. destruct Eusr as (usr & Husr & Eu).
  apply Z.eqb_eq in Eu.
  constructor; cbn [users cart_items users_id_seq cart_items_id_seq with_cart_items];
    try apply Hok.
  - apply NoDup_key_snoc; [apply Hok|]. intros x Hx. cbn.
    apply Z.eqb_neq. now apply Hid.
  - apply NoDup_key_snoc; [apply Hok|]. intros x Hx E.
    unfold cart_key in E. cbn in E. inversion E as [[E1 E2]].
    specialize (Hkey x Hx). cbn in Hkey.
    rewrite E1, E2, !Z.eqb_refl in Hkey. discriminate.
  - intros r Hr. apply in_app_or in Hr. destruct Hr as [Hr|[<-|[]]].
    + now apply (cart_items_user_id_fkey db Hok).
    + exists usr. cbn. auto.
  - intros r Hr. apply in_app_or in Hr. destruct Hr as [Hr|[<-|[]]].
    + pose proof (cart_items_id_below_seq db Hok r Hr). lia.
    + cbn. lia.
Qed.

Lemma consistent_addToCart u c db :
  consistent db -> consistent (fst (addToCart u c db)).
Proof.
  intros Hok. unfold addToCart, bind, query.
  destruct (select_cart_items [col_id] _ db) as [|row0 rest].
  2:{ destruct (Js.truthy _); exact Hok. }
  pose proof (consistent_insert_cart_item
                [col_id; col_user_id; col_course_id; col_bought; col_added_at]
                u c db Hok) as H.
  destruct (insert_cart_item _ u c db) as [db1 [result|e]]; cbn [fst] in H |- *;
    [|exact H].
  destruct result as [|inserted rest]; cbn [first_row ret throw]; [exact H|].
  destruct (select_cart_items _ _ db1); exact H.
Qed.

Lemma consistent_removeFromCart u c db :
  consistent db -> consistent (fst (removeFromCart u c db)).
Proof.
  intros Hok. rewrite removeFromCart_eq. cbn [fst].
  apply consistent_cart_subset; try assumption; try lia.
  - apply NoDup_key_filter, Hok.
  - apply NoDup_key_filter, Hok.
  - intros r Hr. apply filter_In in Hr. exists r. tauto.
Qed.

Lemma consistent_clearCart u bought db :
  consistent db -> consistent (fst (clearCart u bought db)).
Proof.
  intros Hok. destruct bought.
  - unfold clearCart, bind, execute, ret. cbn [fst].
    apply consistent_cart_subset; try assumption; try lia.
    + rewrite map_key_update by reflexivity. apply Hok.
    + rewrite map_key_update by reflexivity. apply Hok.
    + intros r Hr. unfold update_where in Hr. apply in_map_iff in Hr.
      destruct Hr as (r0 & <- & Hr0). exists r0.
      destruct (ci_user_id r0 =? u); auto.
  - rewrite clearCart_unbought. cbn [fst].
    apply consistent_cart_subset; try assumption; try lia.
    + apply NoDup_key_filter, Hok.
    + apply NoDup_key_filter, Hok.
    + intros r Hr. apply filter_In in Hr. exists r. tauto.
Qed.

Section Users.
Context {bcrypt : Bcrypt} {jwt : Jwt}.
Variable jwtSecret : string.

Lemma consistent_register salt now userData requestingUser db :
consistent db ->
consistent (fst (register jwtSecret salt now userData requestingUser db)).
Proof.
intros Hok. unfold register, bind, query.
destruct (filter _ (users db)) as [|u0 rest]; [|exact Hok].
cbn [List.length Z.of_nat Z.ltb Z.compare]. unfold insert_user.
assert (Hrejected : consistent (with_users db (users db) (users_id_seq db + 1))).
{ constructor; cbn; try apply Hok.
  intros u Hu. pose proof (users_id_below_seq db Hok u Hu). lia. }
destruct (first_too_long _ _ _ _ _); [exact Hrejected|].
destruct (existsb (fun u => u_id u =? users_id_seq db) (users db)) eqn:Eid;
  [exact Hrejected|].
destruct (existsb (fun u => String.eqb (u_email u)
                              (RegisterRequest_email userData)) (users db))
  eqn:Eemail; [exact Hrejected|].
cbn [fst first_row ret].
pose proof (existsb_false_all _ _ Eid) as Hid.
pose proof (existsb_false_all _ _ Eemail) as Hemail.
constructor; cbn [users cart_items users_id_seq cart_items_id_seq with_users];
  try apply Hok.
- apply NoDup_key_snoc; [apply Hok|]. intros x Hx. cbn.
  apply Z.eqb_neq. now apply Hid.
- apply NoDup_key_snoc; [apply Hok|]. intros x Hx. cbn.
  apply String.eqb_neq. now apply Hemail.
- intros u Hu. apply in_app_or in Hu. destruct Hu as [Hu|[<-|[]]].
  + pose proof (users_id_below_seq db Hok u Hu). lia.
  + cbn. lia.
- intros r Hr. destruct (cart_items_user_id_fkey db Hok r Hr) as (u & Hu & E).
  exists u. split; [apply in_or_app; now left | exact E].
Qed.

Lemma consistent_deactivateUser now userId requestingUser db :
consistent db ->
consistent (fst (deactivateUser now userId requestingUser db)).
Proof.
intros Hok. unfold deactivateUser, bind, execute, ret.
destruct (negb _); [exact Hok|]. cbn [fst].
constructor; cbn [users cart_items users_id_seq cart_items_id_seq with_users];
  try apply Hok.
- rewrite map_key_update by reflexivity. apply Hok.
- rewrite map_key_update by reflexivity. apply Hok.
- intros u Hu. unfold update_where in Hu. apply in_map_iff in Hu.
  destruct Hu as (u0 & <- & Hu0).
  pose proof (users_id_below_seq db Hok u0 Hu0).
  now destruct (u_id u0 =? userId).
- intros r Hr. destruct (cart_items_user_id_fkey db Hok r Hr) as (u0 & Hu0 & E).
  exists (if u_id u0 =? userId then set_is_active false now u0 else u0).
  split; [|now destruct (u_id u0 =? userId)].
  unfold update_where. apply in_map_iff. exists u0. auto.
Qed.

End Users.

End SchemaFacts.

(** ** The sample stores *)

Module FixtureFacts.
Import Store Schema Fixture.

Ltac nodup_by_computation :=
  cbn;
  repeat match goal with
         | |- NoDup (_ :: _) =>
             apply NoDup_cons; [cbn; intuition (discriminate || congruence)|]
         end;
  apply NoDup_nil.

Ltac each_row tac :=
  let H := fresh "H" in
  intros ? H; cbn in H;
  repeat (destruct H as [<-|H]; [tac|]); destruct H.

Ltac pick_user :=
  cbn;
  solve [ eexists; split; [left; reflexivity|reflexivity]
        | eexists; split; [right; left; reflexivity|reflexivity]
        | eexists; split; [right; right; left; reflexivity|reflexivity] ].

Ltac consistent_by_computation :=
  constructor;
  [ nodup_by_computation
  | nodup_by_computation
  | each_row ltac:(cbn; lia)
  | nodup_by_computation
  | nodup_by_computation
  | each_row pick_user
  | each_row ltac:(cbn; lia) ].

Lemma bcrypt_accepts_own_hash p s :
  bcrypt_compare p (bcrypt_hash p UserService.saltRounds s) = true.
Proof.
  cbn. induction p as [|a p IH]; cbn.
  - destruct (ascii_dec "$" "$"); [now destruct s | congruence].
  - destruct (ascii_dec a a); [exact IH | congruence].
Qed.

Lemma init_sql_consistent : consistent init_sql.
Proof. consistent_by_computation. Qed.

Lemma purchased_consistent : consistent purchased.
Proof. consistent_by_computation. Qed.

(** A phone number of 25 characters does not fit [phone VARCHAR(20)]:
    the insert is rejected and the registration throws what the store
    throws. *)
Lemma register_rejects_long_phone :
  UserService.register (bcrypt := Fixture.bcrypt) (jwt := Fixture.jwt)
    "secret" "salt" 7 long_phone None init_sql
  = (with_users init_sql (users init_sql) 4,
     Js.Threw (Js.DatabaseError "22001"
                 "value too long for type character varying(20)")).
Proof. reflexivity. Qed.

End FixtureFacts.

(** ** The middleware and the routes *)

Module HttpFacts.
Import Store UserTypes UserService Schema RowFacts UserFacts.
Import Express AuthMiddleware Routes.

Lemma substring_all s : String.substring 0 (String.length s) s = s.
Proof. induction s as [|a s IH]; cbn; [reflexivity | now rewrite IH]. Qed.

(** The token of a bearer header. *)
Lemma bearer_token token :
  String.prefix "Bearer " ("Bearer " ++ token) = true
  /\ String.substring 7 (String.length ("Bearer " ++ token) - 7)
       ("Bearer " ++ token) = token.
Proof.
  split.
  - cbn. now destruct token.
  - cbn. rewrite Nat.sub_0_r. apply substring_all.
Qed.

Section Facts.
Context {jwt : Jwt}.
Variable jwtSecret : string.

(** [authenticate] on a bearer token that verifies, by the rows the
    store has for the decoded id. *)
Lemma authenticate_verified x next token decoded :
  headers_authorization (req x) = Some ("Bearer " ++ token) ->
  jwt_verify token jwtSecret (now x) = Some decoded ->
  authenticate jwtSecret x next
  = match filter (fun u => u_id u =? JWTPayload_userId decoded)
            (users (db x)) with
    | [] => send 401 (failure "Invalid or expired token") x
    | user :: _ =>
        if negb (u_is_active user)
        then send 401 (failure "Invalid or expired token") x
        else invoke next
               (set_user {| AuthUser_id := u_id user;
                            AuthUser_email := u_email user;
                            AuthUser_role := u_role user |} x)
    end.
Proof.
  intros Hhdr Hverify. unfold authenticate. rewrite Hhdr.
  destruct (bearer_token token) as [-> ->]. cbn [negb].
  now rewrite Hverify.
Qed.

Lemma authenticate_stale x next token decoded :
  headers_authorization (req x) = Some ("Bearer " ++ token) ->
  jwt_verify token jwtSecret (now x) = Some decoded ->
  (forall u, In u (users (db x)) -> u_id u = JWTPayload_userId decoded ->
             u_is_active u = false) ->
  authenticate jwtSecret x next
  = send 401 (failure "Invalid or expired token") x.
Proof.
  intros Hhdr Hverify Hstale.
  rewrite (authenticate_verified x next token decoded Hhdr Hverify).
  destruct (filter _ (users (db x))) as [|user rest] eqn:E; [reflexivity|].
  apply filter_head in E. destruct E as [Hin Hid].
  apply Z.eqb_eq in Hid. now rewrite (Hstale user Hin Hid).
Qed.

Lemma one_row_per_id d usr :
  NoDup (map u_id (users d)) -> In usr (users d) ->
  filter (fun u => u_id u =? u_id usr) (users d) = [usr].
Proof.
  intros Hnd.
  induction (users d) as [|a l IH]; intros Hin; [destruct Hin|].
  cbn in Hnd. inversion Hnd as [|? ? Hnotin Hnd']; subst.
  cbn [filter]. destruct Hin as [->|Hin].
  - rewrite Z.eqb_refl. f_equal. apply filter_none.
    intros x Hx. apply Z.eqb_neq. intros E. apply Hnotin.
    rewrite <- E. now apply in_map.
  - destruct (Z.eqb_spec (u_id a) (u_id usr)) as [E|_].
    + exfalso. apply Hnotin. rewrite E. now apply in_map.
    + now apply IH.
Qed.

Lemma authenticate_active x next token decoded usr :
  NoDup (map u_id (users (db x))) ->
  headers_authorization (req x) = Some ("Bearer " ++ token) ->
  jwt_verify token jwtSecret (now x) = Some decoded ->
  In usr (users (db x)) -> u_id usr = JWTPayload_userId decoded ->
  u_is_active usr = true ->
  authenticate jwtSecret x next
  = invoke next
      (set_user {| AuthUser_id := u_id usr;
                   AuthUser_email := u_email usr;
                   AuthUser_role := u_role usr |} x).
Proof.
  intros Hok Hhdr Hverify Hin Hid Hactive.
  rewrite (authenticate_verified x next token decoded Hhdr Hverify).
  rewrite <- Hid, one_row_per_id by assumption.
  now rewrite Hactive.
Qed.

End Facts.

End HttpFacts.

(** ** Interleaved [addToCart] calls *)

Module RaceFacts.
Import Store Task CartTypes CartService Schema CartRows RowFacts CartFacts.
Import Interleaving.

(** The steps, run without interruption, are the method. *)
Lemma alone_is_addToCart u c db :
  alone u c db
  = let (db', o) := addToCart u c db in (db', Settled o).
Proof.
  unfold alone, addToCart, bind, query. cbn [step].
  destruct (select_cart_items [col_id] _ db) as [|row0 rest].
  2:{ destruct (Js.truthy _); reflexivity. }
  cbn [step]. fold all_columns.
  destruct (insert_cart_item all_columns u c db) as [db1 [result|e]];
    [|reflexivity].
  cbn [step]. destruct result as [|inserted rest]; [reflexivity|].
  cbn [first_row ret].
  destruct (select_cart_items all_columns _ db1); reflexivity.
Qed.

Section Race.
Variables (db : Db) (u c : Z).
Hypothesis Hok : consistent db.
Hypothesis Huser : exists usr, In usr (users db) /\ u_id usr = u.
Hypothesis Hnone :
  forall r, In r (cart_items db) -> ~ (ci_user_id r = u /\ ci_course_id r = c).

(** Both pre-checks run before either insert: both calls pass. *)
Lemma both_pass_the_check :
  play u c [First; Second] {| store := db; first := AtCheck; second := AtCheck |}
  = {| store := db; first := AtInsert; second := AtInsert |}.
Proof.
  assert (E : forall d, cart_items d = cart_items db ->
                        step u c AtCheck d = (d, AtInsert)).
  { intros d Hd. cbn [step]. unfold select_cart_items.
    rewrite Hd, filter_none; [reflexivity|].
    intros r Hr. apply not_true_is_false. intros H.
    apply (Hnone r Hr). now apply of_pair_true. }
  unfold play. cbn [fold_left]. unfold advance at 2.
  cbn [store first second]. rewrite E by reflexivity.
  unfold advance. cbn [store first second]. now rewrite E.
Qed.

Local Abbreviation inserted_store := (inserted_store db u c).
Local Abbreviation item := (item db u c).
Local Abbreviation winning := (winning db u c).
Local Abbreviation decided := (decided db u c).
Local Abbreviation reachable := (reachable db u c).

Lemma step_insert_first :
  step u c AtInsert db
  = (inserted_store (cart_items_id_seq db + 1),
     AtFetch [project all_columns (new_row db u c)]).
Proof.
  cbn [step]. now rewrite insert_cart_item_accepted.
Qed.

Lemma step_insert_late :
  step u c AtInsert (inserted_store (cart_items_id_seq db + 1))
  = (inserted_store (cart_items_id_seq db + 2),
     Settled (Js.Threw rejection)).
Proof.
  cbn [step]. unfold insert_cart_item, inserted_store.
  cbn [cart_items cart_items_id_seq with_cart_items].
  rewrite existsb_none.
  2:{ intros r Hr. apply Z.eqb_neq. apply in_app_or in Hr.
      destruct Hr as [Hr|[<-|[]]].
      - pose proof (cart_items_id_below_seq db Hok r Hr). cbn. lia.
      - cbn. lia. }
  replace (existsb _ (cart_items db ++ [new_row db u c])%list) with true.
  2:{ symmetry. apply existsb_exists. exists (new_row db u c). split.
      - apply in_or_app. right. now left.
      - cbn. now rewrite !Z.eqb_refl. }
  replace (cart_items_id_seq db + 1 + 1) with (cart_items_id_seq db + 2)
    by lia.
  reflexivity.
Qed.

Lemma step_winning n pc :
  winning pc ->
  exists pc', step u c pc (inserted_store n) = (inserted_store n, pc')
              /\ winning pc'.
Proof.
  intros [->| ->].
  - exists (Settled (Js.Returned item)). split; [|now right].
    cbn [step]. unfold select_cart_items, inserted_store.
    cbn [cart_items with_cart_items project listed all_columns existsb
         CartCol_eqb orb row_id eq_param new_row ci_id].
    rewrite filter_app, filter_none.
    2:{ intros r Hr. apply Z.eqb_neq.
        pose proof (cart_items_id_below_seq db Hok r Hr). lia. }
    cbn [filter ci_id]. rewrite Z.eqb_refl. reflexivity.
  - exists (Settled (Js.Returned item)). split; [reflexivity|now right].
Qed.

Lemma step_decided s won lost :
  decided s won lost ->
  (exists won', step u c won s = (s, won') /\ decided s won' lost)
  /\ (exists s' lost', step u c lost s = (s', lost')
                       /\ decided s' won lost').
Proof.
  intros (Hwon & [(-> & ->)|(-> & ->)]).
  - split.
    + destruct (step_winning (cart_items_id_seq db + 1) _ Hwon)
        as (won' & E & Hwon').
      exists won'. split; [exact E|]. split; [exact Hwon'|]. now left.
    + eexists _, _. split; [apply step_insert_late|].
      split; [exact Hwon|]. now right.
  - split.
    + destruct (step_winning (cart_items_id_seq db + 2) _ Hwon)
        as (won' & E & Hwon').
      exists won'. split; [exact E|]. split; [exact Hwon'|]. now right.
    + eexists _, _. split; [reflexivity|].
      split; [exact Hwon|]. now right.
Qed.

Lemma advance_reachable s t :
  reachable s -> reachable (advance u c s t).
Proof.
  intros [->|[H|H]].
  - destruct t; unfold advance; cbn [store first second];
      rewrite step_insert_first.
    + right; left. split; [now left|]. left. split; reflexivity.
    + right; right. split; [now left|]. left. split; reflexivity.
  - destruct (step_decided _ _ _ H)
      as ((won' & E1 & H1) & (s' & lost' & E2 & H2)).
    destruct t; unfold advance.
    + rewrite E1. right; left. exact H1.
    + rewrite E2. right; left. exact H2.
  - destruct (step_decided _ _ _ H)
      as ((won' & E1 & H1) & (s' & lost' & E2 & H2)).
    destruct t; unfold advance.
    + rewrite E2. right; right. exact H2.
    + rewrite E1. right; right. exact H1.
Qed.

Lemma play_reachable turns s :
  reachable s -> reachable (play u c turns s).
Proof.
  revert s. induction turns as [|t turns IH]; intros s Hs; [exact Hs|].
  cbn [play fold_left]. apply IH. now apply advance_reachable.
Qed.

End Race.

End RaceFacts.

(** * The claims of the specification *)

Import Store Task CartTypes CartService Schema CartRows RowFacts CartFacts.
Import UserTypes UserService UserRows UserFacts.
Import Express AuthMiddleware Routes HttpFacts.
Import Interleaving RaceFacts.

(** C1: a request whose bearer token verifies while every [users] row with
    the decoded id is inactive, or there is none, is answered 401; the
    request gets no identity, the rest of the chain is not run and the
    store is not touched. This holds in particular on the store that
    [deactivateUser] leaves for the id of the token, so right after the
    deactivation. *)
Theorem authenticate_rejects_stale_credential {jwt : Jwt}
    jwtSecret x next token decoded :
  headers_authorization (req x) = Some ("Bearer " ++ token) ->
  jwt_verify token jwtSecret (now x) = Some decoded ->
  (forall u, In u (users (db x)) -> u_id u = JWTPayload_userId decoded ->
             u_is_active u = false)
  \/ (exists now0 admin db0 b,
        deactivateUser now0 (JWTPayload_userId decoded) admin db0
        = (db x, Js.Returned b)) ->
  let y := authenticate jwtSecret x next in
  y = send 401 (failure "Invalid or expired token") x
  /\ option_map statusCode (res y) = Some 401
  /\ user (req y) = user (req x)
  /\ next_calls y = next_calls x
  /\ db y = db x.
Proof.
  intros Hhdr Hverify Hstale y.
  assert (E : y = send 401 (failure "Invalid or expired token") x).
  { apply (authenticate_stale jwtSecret x next token decoded Hhdr Hverify).
    destruct Hstale as [H|(now0 & admin & db0 & b & H)]; [exact H|].
    exact (deactivated_rows _ _ _ _ _ _ H). }
  rewrite E. repeat split.
Qed.

Lemma authenticate_rejects_stale_credential_witness :
  let d := fst (deactivateUser 9 2 Fixture.root Fixture.init_sql) in
  let x := incoming d 10 "salt"
             {| http_method := GET; http_path := "/api/cart";
                http_authorization := Some "Bearer 2";
                http_body := Fixture.no_body |} in
  authenticate (jwt := Fixture.jwt) "secret" x (fun x => x)
  = send 401 (failure "Invalid or expired token") x.
Proof.
  cbv zeta.
  apply (authenticate_rejects_stale_credential (jwt := Fixture.jwt) "secret"
           _ (fun x => x) "2"
           {| JWTPayload_userId := 2; JWTPayload_email := "";
              JWTPayload_role := RoleUser |}).
  - reflexivity.
  - reflexivity.
  - right. exists 9, Fixture.root, Fixture.init_sql, true. reflexivity.
Defined.

(** C2, at the input where the code parts from it: when the cart row for
    user [u] and course [c] has [bought = true], [addToCart u c] does not
    fail with the already-purchased error but with the in-cart error, and
    leaves the store as it was. *)
Theorem addToCart_bought_row_reported_in_cart db u c r :
  In r (cart_items db) ->
  ci_user_id r = u -> ci_course_id r = c -> ci_bought r = true ->
  addToCart u c db = (db, Js.Threw (Js.Error "Course already in Cart"))
  /\ snd (addToCart u c db) <> Js.Threw (Js.Error "You already bought it").
Proof.
  intros Hin Hu Hc _.
  rewrite (addToCart_existing db u c r Hin Hu Hc). split; [reflexivity|].
  cbn. discriminate.
Qed.

Lemma addToCart_bought_row_reported_in_cart_witness :
  addToCart 2 5 Fixture.purchased
  = (Fixture.purchased, Js.Threw (Js.Error "Course already in Cart"))
  /\ snd (addToCart 2 5 Fixture.purchased)
     <> Js.Threw (Js.Error "You already bought it").
Proof.
  apply (addToCart_bought_row_reported_in_cart Fixture.purchased 2 5
           Fixture.purchased_row); [now left | reflexivity ..].
Defined.

(** With no row for the pair the call inserts an unbought row and returns
    it; a second call right after fails with the in-cart error. *)
Lemma addToCart_twice db u c :
  consistent db ->
  (exists usr, In usr (users db) /\ u_id usr = u) ->
  (forall r, In r (cart_items db) -> ~ (ci_user_id r = u /\ ci_course_id r = c)) ->
  exists db1 item,
    addToCart u c db = (db1, Js.Returned item)
    /\ cart_items db1 = (cart_items db ++ [new_row db u c])%list
    /\ CartItem_userId item = Some u /\ CartItem_courseId item = Some c
    /\ addToCart u c db1 = (db1, Js.Threw (Js.Error "Course already in Cart")).
Proof.
  intros Hok Husr Hnone. eexists _, _.
  split; [apply addToCart_fresh; assumption|].
  repeat split.
  apply (addToCart_existing _ u c (new_row db u c)); [|reflexivity ..].
  cbn. apply in_or_app. right. now left.
Qed.

(** After the checkout commit the call still reports the in-cart error. *)
Lemma addToCart_after_commit db u c r db' b :
  In r (cart_items db) -> ci_user_id r = u -> ci_course_id r = c ->
  clearCart u true db = (db', Js.Returned b) ->
  addToCart u c db' = (db', Js.Threw (Js.Error "Course already in Cart")).
Proof.
  intros Hin Hu Hc Hclear. rewrite clearCart_bought in Hclear.
  inversion Hclear; subst db' b; clear Hclear.
  apply (addToCart_existing _ u c (commit u r)).
  - cbn. now apply in_map.
  - unfold commit. destruct (unbought_of u r); assumption.
  - unfold commit. destruct (unbought_of u r); assumption.
Qed.

(** C3 as stated fails: user 2 has a bought cart row and no unbought one,
    yet [clearCart 2 true] returns [true]. *)
Lemma clearCart_true_with_bought_rows_only :
  clearCart 2 true Fixture.purchased = (Fixture.purchased, Js.Returned true)
  /\ ~ (exists r, In r (cart_items Fixture.purchased)
                  /\ ci_user_id r = 2 /\ ci_bought r = false).
Proof.
  split; [reflexivity|].
  intros (r & [<-|[]] & _ & H). discriminate H.
Qed.

(** C3, amended: [clearCart u true] turns exactly the unbought rows of [u]
    into bought rows and returns [true] exactly when [u] has a cart row,
    bought or not; [clearCart u false] deletes exactly the unbought rows of
    [u] and returns [true] exactly when there was one. Nothing else in the
    store changes. *)
Theorem clearCart_commit_or_delete db u :
  (exists b,
     clearCart u true db
     = (with_cart_items db (map (commit u) (cart_items db))
          (cart_items_id_seq db), Js.Returned b)
     /\ (b = true <-> exists r, In r (cart_items db) /\ ci_user_id r = u))
  /\ (exists b,
        clearCart u false db
        = (with_cart_items db
             (filter (fun r => negb (unbought_of u r)) (cart_items db))
             (cart_items_id_seq db), Js.Returned b)
        /\ (b = true <-> exists r, In r (cart_items db)
                                   /\ ci_user_id r = u /\ ci_bought r = false)).
Proof.
  split.
  - eexists. split; [apply clearCart_bought|].
    rewrite existsb_exists. split; intros (r & Hr & H); exists r; split; auto.
    + now apply Z.eqb_eq.
    + now apply Z.eqb_eq.
  - eexists. split; [apply clearCart_unbought|].
    rewrite existsb_exists. split; intros (r & Hr & H); exists r; split; auto.
    + now apply unbought_of_true.
    + now apply unbought_of_true.
Qed.



(** C5: a request to [POST /api/auth/register] reaches the controller with
    no identity on it, since the route has the controller as its only
    handler, and so every user it adds to the store has role [user],
    whatever the body and the [Authorization] header say. *)
Theorem register_route_never_creates_admin {bcrypt : Bcrypt} {jwt : Jwt}
    jwtSecret d now_ salt_ authorization body_ :
  let r := {| http_method := POST; http_path := "/api/auth/register";
              http_authorization := authorization; http_body := body_ |} in
  let y := app jwtSecret d now_ salt_ r in
  createAuthRouter jwtSecret POST "/register"
  = [AuthController.register jwtSecret]
  /\ y = AuthController.register jwtSecret (incoming d now_ salt_ r) (fun x => x)
  /\ user (req (incoming d now_ salt_ r)) = None
  /\ (users (db y) = users d
      \/ exists row, users (db y) = (users d ++ [row])%list
                     /\ u_role row = RoleUser)
  /\ (forall u, option_map (fun a => json_user (json a)) (res y) = Some (Some u)
                -> User_role u = RoleUser).
Proof.
  intros r y. split; [reflexivity|]. split; [reflexivity|]. split; [reflexivity|].
  assert (E : y = AuthController.register jwtSecret (incoming d now_ salt_ r)
                    (fun x => x)) by reflexivity.
  rewrite E. clear E y. unfold AuthController.register.
  cbn [req incoming body user db salt now r http_body].
  destruct (body_email body_) as [email|], (body_password body_) as [password|];
    try (split; [left; reflexivity | cbn; discriminate]).
  destruct (_ || _); [split; [left; reflexivity | cbn; discriminate]|].
  destruct (negb _); [split; [left; reflexivity | cbn; discriminate]|].
  destruct (_ <? 6); [split; [left; reflexivity | cbn; discriminate]|].
  match goal with
  | |- context [register jwtSecret ?s ?n ?u None ?db0] =>
      destruct (register_cases jwtSecret s n u None db0)
        as [(d' & e & -> & Husers)|(-> & _)]
  end.
  - split; [left; exact Husers | cbn; discriminate].
  - split.
    + right. eexists. split; [reflexivity|].
      cbn [u_role new_user]. unfold granted_role.
      now destruct (RegisterRequest_role _).
    + cbn. intros u H. inversion H. cbn. unfold granted_role.
      now destruct (body_role body_).
Qed.

(** C6: for ids [u] and [c] of the type of the columns, [removeFromCart u
    c] returns [true] exactly when the cart has the row for [u] and [c]
    with [bought = false], and it deletes that row and no other; when the
    row for the pair is bought the call returns [false] and leaves the
    store as it was; after the call [isInCart u c] is [false]. *)
Theorem removeFromCart_unbought_only db u c :
  consistent db ->
  int4 u = true -> int4 c = true ->
  exists db' b,
    removeFromCart u c db = (db', Js.Returned b)
    /\ (b = true <-> exists r, In r (cart_items db) /\ ci_user_id r = u
                               /\ ci_course_id r = c /\ ci_bought r = false)
    /\ (forall r', In r' (cart_items db')
                   <-> In r' (cart_items db)
                       /\ ~ (ci_user_id r' = u /\ ci_course_id r' = c
                             /\ ci_bought r' = false))
    /\ ((exists r, In r (cart_items db) /\ ci_user_id r = u
                   /\ ci_course_id r = c /\ ci_bought r = true)
        -> b = false /\ db' = db)
    /\ isInCart u c db' = (db', Js.Returned false).
Proof.
  intros Hok _ _. eexists _, _. split; [apply removeFromCart_eq|].
  split; [|split; [|split]].
  - rewrite existsb_exists.
    split; intros (r & Hr & H); exists r; split; auto;
      now apply unbought_pair_true.
  - intros r'. cbn [cart_items with_cart_items]. rewrite filter_In.
    rewrite negb_true_iff, <- not_true_iff_false, unbought_pair_true. tauto.
  - intros (r & Hin & Hu & Hc & Hb).
    pose proof (bought_row_excludes_unbought db u c r Hok Hin Hu Hc Hb) as Hnone.
    split; [now apply existsb_none|].
    rewrite filter_all; [apply with_cart_items_same|].
    intros x Hx. now rewrite Hnone.
  - rewrite isInCart_eq. do 2 f_equal. apply existsb_none.
    intros x Hx. cbn [cart_items with_cart_items] in Hx.
    apply filter_In in Hx. destruct Hx as [_ Hx].
    now apply negb_true_iff in Hx.
Qed.

Lemma removeFromCart_unbought_only_witness :
  exists db' b,
    removeFromCart 2 5 Fixture.purchased = (db', Js.Returned b)
    /\ (b = true <-> exists r, In r (cart_items Fixture.purchased)
                               /\ ci_user_id r = 2
                               /\ ci_course_id r = 5 /\ ci_bought r = false)
    /\ (forall r', In r' (cart_items db')
                   <-> In r' (cart_items Fixture.purchased)
                       /\ ~ (ci_user_id r' = 2 /\ ci_course_id r' = 5
                             /\ ci_bought r' = false))
    /\ ((exists r, In r (cart_items Fixture.purchased) /\ ci_user_id r = 2
                   /\ ci_course_id r = 5 /\ ci_bought r = true)
        -> b = false /\ db' = Fixture.purchased)
    /\ isInCart 2 5 db' = (db', Js.Returned false).
Proof.
  apply (removeFromCart_unbought_only Fixture.purchased 2 5).
  - apply FixtureFacts.purchased_consistent.
  - reflexivity.
  - reflexivity.
Defined.

(** C7, at the input where the code parts from it: an authenticated user
    posts the same course id twice to [/api/cart] and the course was not in
    the cart. The first response is 201; the second is 500 with the
    message of the in-cart error, not 400 or 409. *)
Theorem post_cart_twice_second_is_500 {bcrypt : Bcrypt} {jwt : Jwt}
    jwtSecret d now1 salt1 now2 salt2 token decoded usr body_ parsed :
  consistent d ->
  jwt_verify token jwtSecret now1 = Some decoded ->
  jwt_verify token jwtSecret now2 = Some decoded ->
  In usr (users d) -> u_id usr = JWTPayload_userId decoded ->
  u_is_active usr = true ->
  Js.falsy (body_courseId body_) = false ->
  Js.parseInt (body_courseId body_) = Some parsed ->
  (forall r, In r (cart_items d)
             -> ~ (ci_user_id r = u_id usr /\ ci_course_id r = parsed)) ->
  let r := {| http_method := POST; http_path := "/api/cart";
              http_authorization := Some ("Bearer " ++ token);
              http_body := body_ |} in
  let y1 := app jwtSecret d now1 salt1 r in
  let y2 := app jwtSecret (db y1) now2 salt2 r in
  option_map statusCode (res y1) = Some 201
  /\ res y2 = Some {| statusCode := 500;
                      json := failure "Course already in Cart" |}.
Proof.
  intros Hok Hv1 Hv2 Hin Hid Hactive Hfalsy Hparse Hnone r y1 y2.
  assert (E1 : y1 = authenticate jwtSecret (incoming d now1 salt1 r)
                      (fun x => CartController.addToCart x (fun x => x)))
    by reflexivity.
  rewrite (authenticate_active jwtSecret _ _ token decoded usr) in E1;
    [ | exact (users_pkey d Hok) | reflexivity | exact Hv1 | exact Hin
      | exact Hid | exact Hactive ].
  unfold invoke, CartController.addToCart in E1.
  cbn [req set_user user body incoming r http_body db AuthUser_id] in E1.
  rewrite Hparse, Hfalsy in E1.
  rewrite addToCart_fresh in E1; [ | exact Hok | eauto | exact Hnone ].
  assert (E2 : y2 = authenticate jwtSecret (incoming (db y1) now2 salt2 r)
                      (fun x => CartController.addToCart x (fun x => x)))
    by reflexivity.
  rewrite E1 in E2 |- *. split; [reflexivity|].
  rewrite (authenticate_active jwtSecret _ _ token decoded usr) in E2;
    [ | exact (users_pkey d Hok) | reflexivity | exact Hv2 | exact Hin
      | exact Hid | exact Hactive ].
  unfold invoke, CartController.addToCart in E2.
  cbn [req set_user user body incoming r http_body db AuthUser_id send set_db]
    in E2.
  rewrite Hparse, Hfalsy in E2.
  rewrite (addToCart_existing _ (u_id usr) parsed (new_row d (u_id usr) parsed))
    in E2; [ | cbn; apply in_or_app; right; now left | reflexivity ..].
  rewrite E2. reflexivity.
Qed.

Lemma post_cart_twice_second_is_500_witness :
  let r := {| http_method := POST; http_path := "/api/cart";
              http_authorization := Some "Bearer 2";
              http_body := Fixture.course_5 |} in
  let y1 := app (bcrypt := Fixture.bcrypt) (jwt := Fixture.jwt)
              "secret" Fixture.init_sql 10 "salt" r in
  let y2 := app (bcrypt := Fixture.bcrypt) (jwt := Fixture.jwt)
              "secret" (db y1) 11 "salt" r in
  option_map statusCode (res y1) = Some 201
  /\ res y2 = Some {| statusCode := 500;
                      json := failure "Course already in Cart" |}.
Proof.
  apply (post_cart_twice_second_is_500 (bcrypt := Fixture.bcrypt)
           (jwt := Fixture.jwt) "secret" Fixture.init_sql 10 "salt" 11 "salt"
           "2" {| JWTPayload_userId := 2; JWTPayload_email := "";
                  JWTPayload_role := RoleUser |}
           Fixture.user_row Fixture.course_5 5).
  - apply FixtureFacts.init_sql_consistent.
  - reflexivity.
  - reflexivity.
  - right. now left.
  - reflexivity.
  - reflexivity.
  - reflexivity.
  - reflexivity.
  - intros r0 [].
Defined.

(** C8: [getCartItemCount u] is the number of cart rows of [u] with
    [bought = false]; two items added one after the other raise it by two,
    and after [clearCart u true] it is 0. *)
Theorem getCartItemCount_counts_unbought db u c1 c2 db1 item1 db2 item2 db3 b :
  addToCart u c1 db = (db1, Js.Returned item1) ->
  addToCart u c2 db1 = (db2, Js.Returned item2) ->
  clearCart u true db2 = (db3, Js.Returned b) ->
  let count d := Z.of_nat (List.length (filter (unbought_of u) (cart_items d))) in
  (forall d, getCartItemCount u d = (d, Js.Returned (Some (count d))))
  /\ getCartItemCount u db2 = (db2, Js.Returned (Some (count db + 2)))
  /\ getCartItemCount u db3 = (db3, Js.Returned (Some 0)).
Proof.
  intros H1 H2 H3 count.
  split; [intros d; apply getCartItemCount_eq|]. split.
  - rewrite getCartItemCount_eq. do 3 f_equal.
    apply addToCart_returned in H1, H2. subst db2 db1. unfold count.
    cbn [cart_items with_cart_items].
    rewrite !count_unbought_app.
    unfold unbought_of, new_row; cbn [ci_user_id ci_bought with_cart_items].
    rewrite Z.eqb_refl. cbn. lia.
  - rewrite clearCart_bought in H3. inversion H3; subst db3 b.
    rewrite getCartItemCount_eq. cbn [cart_items with_cart_items].
    now rewrite no_unbought_after_commit.
Qed.

Lemma getCartItemCount_counts_unbought_witness :
  let db1 := fst (addToCart 2 5 Fixture.init_sql) in
  let db2 := fst (addToCart 2 6 db1) in
  let db3 := fst (clearCart 2 true db2) in
  getCartItemCount 2 db2 = (db2, Js.Returned (Some 2))
  /\ getCartItemCount 2 db3 = (db3, Js.Returned (Some 0)).
Proof.
  cbv zeta.
  edestruct (getCartItemCount_counts_unbought Fixture.init_sql 2 5 6)
    as (_ & H2 & H3).
  - vm_compute. reflexivity.
  - vm_compute. reflexivity.
  - vm_compute. reflexivity.
  - split; [exact H2 | exact H3].
Defined.

(** C9: when a registration with email [e] and password [p] returns a
    user, a login with [e] and [p] on the store it leaves returns that same
    user, so the same id; the hash library is assumed to accept a password
    against its own hash. *)
Theorem register_then_login {bcrypt : Bcrypt} {jwt : Jwt}
    jwtSecret salt now now' userData requestingUser db db' user token :
  (forall p s, bcrypt_compare p (bcrypt_hash p saltRounds s) = true) ->
  register jwtSecret salt now userData requestingUser db
  = (db', Js.Returned (user, token)) ->
  exists user' token',
    login jwtSecret now'
      {| LoginRequest_email := RegisterRequest_email userData;
         LoginRequest_password := RegisterRequest_password userData |} db'
    = (db', Js.Returned (user', token'))
    /\ user' = user
    /\ User_id user' = User_id user.
Proof.
  intros Hbc Hreg.
  apply register_returned in Hreg. destruct Hreg as (-> & -> & Hfresh).
  eexists _, _. split; [now apply login_after_register|].
  split; reflexivity.
Qed.

Lemma register_then_login_witness :
  let db' := fst (register (bcrypt := Fixture.bcrypt) (jwt := Fixture.jwt)
                    "secret" "salt" 7 Fixture.signup None Fixture.init_sql) in
  exists user' token',
    login (bcrypt := Fixture.bcrypt) (jwt := Fixture.jwt) "secret" 8
      {| LoginRequest_email := "a@x.com";
         LoginRequest_password := "secret1" |} db'
    = (db', Js.Returned (user', token'))
    /\ User_id user' = 3.
Proof.
  cbv zeta.
  edestruct (register_then_login (bcrypt := Fixture.bcrypt)
               (jwt := Fixture.jwt) "secret" "salt" 7 8
               Fixture.signup None Fixture.init_sql)
    as (user' & token' & Hlogin & Hsame & _).
  - apply FixtureFacts.bcrypt_accepts_own_hash.
  - vm_compute. reflexivity.
  - exists user', token'. split; [exact Hlogin|]. now subst user'.
Defined.

(** C10 as stated fails: user 2 adds course 5 in two concurrent calls;
    both pre-checks run, then the first call inserts and returns, then the
    second inserts. The second call ends with the store's unique-violation
    error, not with the in-cart error. *)
Lemma raced_insert_is_not_translated :
  let s := play 2 5 [First; Second; First; First; Second]
             {| store := Fixture.init_sql; first := AtCheck; second := AtCheck |} in
  first s = Settled (Js.Returned (item Fixture.init_sql 2 5))
  /\ second s
     = Settled (Js.Threw (Js.DatabaseError "23505"
         ("duplicate key value violates unique constraint "
          ++ quoted "cart_items_user_id_course_id_key")))
  /\ second s <> Settled (Js.Threw (Js.Error "Course already in Cart")).
Proof.
  cbv zeta. split; [reflexivity|]. split; [reflexivity|].
  vm_compute. discriminate.
Qed.

(** C10, amended: when two [addToCart] calls for the same user and course
    have both passed the pre-check on a store that has no row for the
    pair, then however their remaining steps interleave, a call that
    throws throws the store's unique-violation error unchanged, the two
    calls never both return, and the cart never holds a second row for the
    pair; when the calls insert one after the other, the second insert is
    rejected in this way. *)
Theorem raced_addToCart_surfaces_rejection db u c turns :
  consistent db ->
  (exists usr, In usr (users db) /\ u_id usr = u) ->
  (forall r, In r (cart_items db) -> ~ (ci_user_id r = u /\ ci_course_id r = c)) ->
  let raced := {| store := db; first := AtInsert; second := AtInsert |} in
  let s := play u c turns raced in
  play u c [First; Second] {| store := db; first := AtCheck; second := AtCheck |}
  = raced
  /\ (forall e, first s = Settled (Js.Threw e) \/ second s = Settled (Js.Threw e)
                -> e = unique_violation "cart_items_user_id_course_id_key")
  /\ ~ (exists i j, first s = Settled (Js.Returned i)
                    /\ second s = Settled (Js.Returned j))
  /\ (forall r, In r (cart_items (store s)) ->
                ci_user_id r = u -> ci_course_id r = c -> r = new_row db u c)
  /\ second (play u c [First; Second] raced)
     = Settled (Js.Threw (unique_violation "cart_items_user_id_course_id_key")).
Proof.
  intros Hok Huser Hnone raced s.
  split; [now apply both_pass_the_check|].
  assert (Hs : reachable db u c s).
  { apply play_reachable; try assumption. now left. }
  assert (Hrow : forall d n r,
             d = inserted_store db u c n -> In r (cart_items d) ->
             ci_user_id r = u -> ci_course_id r = c -> r = new_row db u c).
  { intros d n r -> Hr Hu Hc. cbn in Hr. apply in_app_or in Hr.
    destruct Hr as [Hr|[<-|[]]]; [|reflexivity].
    exfalso. apply (Hnone r Hr). now split. }
  split; [|split; [|split]].
  - intros e He.
    destruct Hs as [Hs|[(Hw & Hl)|(Hw & Hl)]].
    + rewrite Hs in He. cbn in He.
      destruct He; discriminate.
    + destruct He as [He|He].
      * rewrite He in Hw. destruct Hw; discriminate.
      * rewrite He in Hl. destruct Hl as [(_ & H)|(_ & H)];
          [discriminate | now inversion H].
    + destruct He as [He|He].
      * rewrite He in Hl. destruct Hl as [(_ & H)|(_ & H)];
          [discriminate | now inversion H].
      * rewrite He in Hw. destruct Hw; discriminate.
  - intros (i & j & Hi & Hj).
    destruct Hs as [Hs|[(_ & Hl)|(_ & Hl)]].
    + rewrite Hs in Hi. discriminate.
    + rewrite Hj in Hl. destruct Hl as [(_ & H)|(_ & H)]; discriminate.
    + rewrite Hi in Hl. destruct Hl as [(_ & H)|(_ & H)]; discriminate.
  - intros r Hr Hu Hc.
    destruct Hs as [Hs|[(_ & Hl)|(_ & Hl)]].
    + rewrite Hs in Hr. cbn in Hr.
      exfalso. apply (Hnone r Hr). now split.
    + destruct Hl as [(H & _)|(H & _)]; eapply Hrow; eauto.
    + destruct Hl as [(H & _)|(H & _)]; eapply Hrow; eauto.
  - unfold play, raced. cbn [fold_left]. unfold advance at 2.
    cbn [store first second]. rewrite step_insert_first by assumption.
    unfold advance. cbn [store first second].
    rewrite step_insert_late by assumption. reflexivity.
Qed.

Lemma raced_addToCart_surfaces_rejection_witness :
  let raced := {| store := Fixture.init_sql; first := AtInsert;
                  second := AtInsert |} in
  second (play 2 5 [First; Second] raced)
  = Settled (Js.Threw (unique_violation "cart_items_user_id_course_id_key")).
Proof.
  apply (raced_addToCart_surfaces_rejection Fixture.init_sql 2 5 []
           FixtureFacts.init_sql_consistent).
  - exists Fixture.user_row. split; [right; now left | reflexivity].
  - intros r [].
Defined.

(** * Further properties *)

(** ** Ordered results *)

Module OrderFacts.
Import Store.

Section Order.
Context {A : Type}.
Variable key : A -> Z.

Local Abbreviation descending := (descending key).

Lemma insert_desc_perm x l : Permutation (insert_desc key x l) (x :: l).
Proof.
  induction l as [|y l IH]; cbn; [reflexivity|].
  destruct (key y <=? key x); [reflexivity|].
  rewrite IH. apply perm_swap.
Qed.

Lemma order_by_desc_perm l : Permutation (order_by_desc key l) l.
Proof.
  induction l as [|x l IH]; cbn; [reflexivity|].
  rewrite insert_desc_perm. now constructor.
Qed.

Lemma insert_desc_sorted x l :
  descending l -> descending (insert_desc key x l).
Proof.
  unfold descending.
  induction l as [|y l IH]; intros Hs; cbn.
  - repeat constructor.
  - inversion Hs as [|? ? Hs' Hall]; subst.
    destruct (Z.leb_spec (key y) (key x)) as [Hle|Hlt].
    + constructor; [assumption|]. constructor; [assumption|].
      eapply Forall_impl; [|exact Hall]. cbn. intros a Ha. lia.
    + constructor; [now apply IH|].
      apply (Permutation_Forall (Permutation_sym (insert_desc_perm x l))).
      constructor; [lia | assumption].
Qed.

Lemma order_by_desc_sorted l : descending (order_by_desc key l).
Proof.
  induction l as [|x l IH]; cbn; [constructor|].
  now apply insert_desc_sorted.
Qed.

Lemma order_by_desc_In l x : In x (order_by_desc key l) <-> In x l.
Proof.
  split; apply Permutation_in;
    [apply order_by_desc_perm | symmetry; apply order_by_desc_perm].
Qed.

Lemma order_by_desc_length l :
  List.length (order_by_desc key l) = List.length l.
Proof. apply Permutation_length, order_by_desc_perm. Qed.

End Order.

(** A list that is newest first stays so under a map that keeps keys. *)
Lemma descending_map {A B : Type} (keyA : A -> Z) (keyB : B -> Z)
    (f : A -> B) l :
  (forall a, keyB (f a) = keyA a) ->
  descending keyA l -> descending keyB (map f l).
Proof.
  intros Hf. unfold descending. induction 1 as [|a l Hs IH Hall]; cbn.
  - constructor.
  - constructor; [assumption|].
    apply Forall_map. eapply Forall_impl; [|exact Hall].
    cbn. intros b Hb. now rewrite !Hf.
Qed.

Lemma firstn_In {A : Type} n (l : list A) x : In x (firstn n l) -> In x l.
Proof.
  intros H. rewrite <- (firstn_skipn n l). apply in_or_app. now left.
Qed.

Lemma descending_firstn {A : Type} (key : A -> Z) n l :
  descending key l -> descending key (firstn n l).
Proof.
  unfold descending. revert n. induction l as [|a l IH]; intros n Hs.
  - destruct n; constructor.
  - destruct n; cbn; [constructor|].
    inversion Hs as [|? ? Hs' Hall]; subst.
    constructor; [now apply IH|].
    apply Forall_forall. intros x Hx.
    apply (proj1 (Forall_forall _ _) Hall). eapply firstn_In; eauto.
Qed.

(** In a list that is newest first, nothing of the tail is newer than
    anything of the head. *)
Lemma descending_app {A : Type} (key : A -> Z) l1 l2 :
  descending key (l1 ++ l2)%list ->
  forall a b, In a l1 -> In b l2 -> key b <= key a.
Proof.
  unfold descending. induction l1 as [|x l1 IH]; intros Hs a b Ha Hb.
  - destruct Ha.
  - cbn in Hs. inversion Hs as [|? ? Hs' Hall]; subst.
    destruct Ha as [->|Ha].
    + apply (proj1 (Forall_forall _ _) Hall). apply in_or_app. now right.
    + now apply (IH Hs' a b).
Qed.

End OrderFacts.

(** ** More of the cart service *)

Module CartMoreFacts.
Import Store Task CartTypes CartService Schema CartRows RowFacts CartFacts.
Import OrderFacts.

Lemma listed_as_true u b r :
  listed_as u b r = true <-> ci_user_id r = u /\ ci_bought r = b.
Proof.
  unfold listed_as. rewrite andb_true_iff, Z.eqb_eq, eqb_true_iff. tauto.
Qed.

Lemma getItems_eq db u b :
  getItems u b db
  = (db, Js.Returned
           (map item_of
              (order_by_desc ci_added_at (filter (listed_as u b) (cart_items db))))).
Proof.
  unfold getItems, bind, query, ret, select_cart_items_newest_first.
  rewrite map_map. reflexivity.
Qed.

Lemma getRecentlyAddedItems_eq db u n :
  0 <= n ->
  getRecentlyAddedItems u (Some n) db
  = (db, Js.Returned
           (firstn (Z.to_nat n)
              (map item_of
                 (order_by_desc ci_added_at
                    (filter (listed_as u false) (cart_items db)))))).
Proof.
  intros Hn. unfold getRecentlyAddedItems, bind, ret, limit_rows,
    select_cart_items_newest_first.
  destruct (Z.ltb_spec n 0); [lia|].
  rewrite !firstn_map, !map_map. reflexivity.
Qed.

Lemma moveToWishlist_eq db u c :
  moveToWishlist u c db
  = (with_cart_items db
       (filter (fun r => negb (of_pair u c r)) (cart_items db))
       (cart_items_id_seq db),
     Js.Returned (existsb (of_pair u c) (cart_items db))).
Proof.
  unfold moveToWishlist, bind, execute, ret, delete_where.
  now rewrite rowCount_positive.
Qed.

(** A call that returns found no row for the pair. *)
Lemma addToCart_returned_none db u c db' item :
  addToCart u c db = (db', Js.Returned item) ->
  forall r, In r (cart_items db) -> of_pair u c r = false.
Proof.
  unfold addToCart, bind, query, select_cart_items.
  change (fun r => (ci_user_id r =? u) && (ci_course_id r =? c))
    with (of_pair u c).
  destruct (filter (of_pair u c) (cart_items db)) as [|y rest] eqn:E.
  - intros _ r Hr. apply not_true_is_false. intros Hp.
    assert (H : In r (filter (of_pair u c) (cart_items db)))
      by (apply filter_In; auto).
    rewrite E in H. destruct H.
  - cbn [map]. destruct (Js.truthy _); cbn; discriminate.
Qed.

(** The item a call returns is the item of the row it has inserted. *)
Lemma addToCart_returned_item db u c db' item :
  addToCart u c db = (db', Js.Returned item) ->
  item = item_of (new_row db u c).
Proof.
  unfold addToCart, bind, query, select_cart_items.
  destruct (filter _ (cart_items db)) as [|y rest]; cbn [map].
  2:{ destruct (Js.truthy _); cbn; discriminate. }
  unfold insert_cart_item.
  pose proof (existsb_exists (fun r => ci_id r =? cart_items_id_seq db)
                (cart_items db)) as Hid.
  destruct (existsb _ (cart_items db)); [discriminate|].
  destruct (existsb _ (cart_items db)); [discriminate|].
  destruct (existsb _ (users db)); cbn [negb]; [|discriminate].
  cbn [first_row ret project listed existsb CartCol_eqb orb row_id eq_param
       with_cart_items cart_items].
  rewrite filter_app, filter_none.
  2:{ intros r Hr. apply not_true_is_false. intros H.
      assert (E : false = true) by (apply Hid; eauto).
      discriminate E. }
  cbn [filter ci_id List.app]. rewrite Z.eqb_refl. cbn [map first_row ret].
  intros H. inversion H. reflexivity.
Qed.

Lemma getCartItem_eq db u c :
  getCartItem u c db
  = (db, Js.Returned
           (option_map item_of (find (unbought_pair u c) (cart_items db)))).
Proof.
  unfold getCartItem, bind, query, ret, select_cart_items.
  change (fun r => (ci_user_id r =? u) && (ci_course_id r =? c)
                   && Bool.eqb (ci_bought r) false)
    with (unbought_pair u c).
  induction (cart_items db) as [|a l IH]; [reflexivity|].
  cbn [filter find]. destruct (unbought_pair u c a); [reflexivity | exact IH].
Qed.

Lemma find_existsb {A} (p : A -> bool) l :
  existsb p l = match find p l with Some _ => true | None => false end.
Proof.
  induction l as [|a l IH]; [reflexivity|].
  cbn. destruct (p a); [reflexivity | exact IH].
Qed.

Lemma filter_filter {A} (p q : A -> bool) l :
  filter p (filter q l) = filter (fun x => q x && p x) l.
Proof.
  induction l as [|a l IH]; [reflexivity|].
  cbn. destruct (q a); cbn; [destruct (p a)|]; now rewrite IH.
Qed.

Lemma filter_ext_in' {A} (p q : A -> bool) l :
  (forall x, In x l -> p x = q x) -> filter p l = filter q l.
Proof.
  induction l as [|a l IH]; intros H; [reflexivity|].
  cbn. rewrite (H a) by now left.
  rewrite IH; [reflexivity|]. intros x Hx. apply H. now right.
Qed.

(** A delete that matches rows of [u] alone keeps the rows of others. *)
Lemma delete_keeps_other_users u u' (p : CartItemRow -> bool) l :
  u' <> u ->
  (forall r, p r = true -> ci_user_id r = u) ->
  filter (fun r => ci_user_id r =? u') (filter (fun r => negb (p r)) l)
  = filter (fun r => ci_user_id r =? u') l.
Proof.
  intros Hne Hp. rewrite filter_filter. apply filter_ext_in'.
  intros r _. destruct (Z.eqb_spec (ci_user_id r) u') as [E|E];
    [|now rewrite andb_false_r].
  rewrite andb_true_r. apply negb_true_iff, not_true_is_false.
  intros H. apply Hp in H. congruence.
Qed.

Lemma commit_user u r : ci_user_id (commit u r) = ci_user_id r.
Proof. unfold commit. now destruct (unbought_of u r). Qed.

Lemma commit_other_users u u' l :
  u' <> u ->
  filter (fun r => ci_user_id r =? u') (map (commit u) l)
  = filter (fun r => ci_user_id r =? u') l.
Proof.
  intros Hne. induction l as [|r l IH]; [reflexivity|].
  cbn [map filter]. rewrite IH, commit_user.
  destruct (Z.eqb_spec (ci_user_id r) u') as [E|E]; [|reflexivity].
  f_equal. unfold commit, unbought_of.
  destruct (Z.eqb_spec (ci_user_id r) u); [congruence | reflexivity].
Qed.

Lemma commit_item u r : item_of (commit u r) = item_of r.
Proof. unfold commit. now destruct (unbought_of u r). Qed.

Lemma commit_listed u r :
  listed_as u true (commit u r) = listed_as u true r || listed_as u false r.
Proof.
  unfold commit, unbought_of, listed_as.
  destruct (ci_user_id r =? u) eqn:E, (ci_bought r) eqn:Eb;
    cbn; rewrite ?E, ?Eb; reflexivity.
Qed.

Lemma commit_count u l :
  List.length (filter (listed_as u true) (map (commit u) l))
  = (List.length (filter (listed_as u true) l)
     + List.length (filter (listed_as u false) l))%nat.
Proof.
  induction l as [|r l IH]; [reflexivity|].
  cbn [map filter]. rewrite commit_listed.
  destruct (listed_as u true r) eqn:E1, (listed_as u false r) eqn:E2;
    cbn [orb List.length]; rewrite IH; try lia.
  apply listed_as_true in E1, E2. destruct E1 as [_ E1], E2 as [_ E2].
  congruence.
Qed.

End CartMoreFacts.

Import Store Task CartTypes CartService Schema CartRows RowFacts CartFacts.
Import OrderFacts CartMoreFacts.

(** [getItems u b] returns the items of exactly the cart rows of [u] whose
    [bought] flag is [b], newest first; for [b = false] there are as many
    as [getCartItemCount u] reports. *)
Theorem getItems_partition_newest_first db u b :
  exists rows,
    getItems u b db = (db, Js.Returned (map item_of rows))
    /\ Permutation rows (filter (listed_as u b) (cart_items db))
    /\ (forall r, In r rows <-> In r (cart_items db)
                                /\ ci_user_id r = u /\ ci_bought r = b)
    /\ descending ci_added_at rows
    /\ exists unbought,
         getItems u false db = (db, Js.Returned unbought)
         /\ getCartItemCount u db
            = (db, Js.Returned (Some (Z.of_nat (List.length unbought)))).
Proof.
  exists (order_by_desc ci_added_at (filter (listed_as u b) (cart_items db))).
  split; [apply getItems_eq|].
  split; [apply order_by_desc_perm|].
  split; [|split].
  - intros r. rewrite order_by_desc_In, filter_In, listed_as_true. tauto.
  - apply order_by_desc_sorted.
  - eexists. split; [apply getItems_eq|].
    rewrite getCartItemCount_eq, length_map, order_by_desc_length.
    reflexivity.
Qed.

(** [getRecentlyAddedItems u limit], for a count that is not negative (5
    when the limit is omitted), returns the items of unbought cart rows
    of [u], each row at most once, newest first: as many as the count
    allows and the cart has, and no row it leaves out is newer than a row
    it returns. Which of several rows added at the same time it returns
    is left open. *)
Theorem getRecentlyAddedItems_newest_within_limit db u limit :
  let n := match limit with Some n => n | None => 5 end in
  0 <= n -> int8 n = true ->
  exists rows rest,
    getRecentlyAddedItems u limit db = (db, Js.Returned (map item_of rows))
    /\ Permutation (rows ++ rest)%list
         (filter (listed_as u false) (cart_items db))
    /\ List.length rows
       = Nat.min (Z.to_nat n)
           (List.length (filter (listed_as u false) (cart_items db)))
    /\ descending ci_added_at rows
    /\ forall r r', In r rows -> In r' rest ->
                    ci_added_at r' <= ci_added_at r.
Proof.
  intros n Hn _.
  set (sorted := order_by_desc ci_added_at
                   (filter (listed_as u false) (cart_items db))).
  exists (firstn (Z.to_nat n) sorted), (skipn (Z.to_nat n) sorted).
  split; [|split; [|split; [|split]]].
  - change (getRecentlyAddedItems u limit db)
      with (getRecentlyAddedItems u (Some n) db).
    rewrite getRecentlyAddedItems_eq by exact Hn.
    now rewrite firstn_map.
  - rewrite firstn_skipn. apply order_by_desc_perm.
  - rewrite length_firstn. unfold sorted. now rewrite order_by_desc_length.
  - apply descending_firstn, order_by_desc_sorted.
  - apply descending_app. rewrite firstn_skipn. apply order_by_desc_sorted.
Qed.

Lemma getRecentlyAddedItems_newest_within_limit_witness :
  exists rows rest,
    getRecentlyAddedItems 2 (Some 1) Fixture.two_in_cart
    = (Fixture.two_in_cart, Js.Returned (map item_of rows))
    /\ Permutation (rows ++ rest)%list
         (filter (listed_as 2 false) (cart_items Fixture.two_in_cart))
    /\ List.length rows
       = Nat.min (Z.to_nat 1)
           (List.length
              (filter (listed_as 2 false) (cart_items Fixture.two_in_cart)))
    /\ descending ci_added_at rows
    /\ forall r r', In r rows -> In r' rest ->
                    ci_added_at r' <= ci_added_at r.
Proof.
  apply (getRecentlyAddedItems_newest_within_limit Fixture.two_in_cart 2
           (Some 1)).
  - lia.
  - reflexivity.
Defined.

(** For ids [u] and [c] of the type of the columns, [moveToWishlist u c]
    deletes the cart row of the pair whether it is bought or not, and
    returns whether there was one; on a store that keeps the schema the
    user can then add the course again, also when it had been bought. *)
Theorem moveToWishlist_frees_the_pair db u c :
  consistent db ->
  int4 u = true -> int4 c = true ->
  (exists usr, In usr (users db) /\ u_id usr = u) ->
  exists db1 b db2 item,
    moveToWishlist u c db = (db1, Js.Returned b)
    /\ (b = true <-> exists r, In r (cart_items db)
                               /\ ci_user_id r = u /\ ci_course_id r = c)
    /\ (forall r, In r (cart_items db1)
                  <-> In r (cart_items db)
                      /\ ~ (ci_user_id r = u /\ ci_course_id r = c))
    /\ users db1 = users db
    /\ addToCart u c db1 = (db2, Js.Returned item)
    /\ CartItem_courseId item = Some c.
Proof.
  intros Hok _ _ Husr.
  assert (Hin : forall r,
             In r (filter (fun r => negb (of_pair u c r)) (cart_items db))
             <-> In r (cart_items db)
                 /\ ~ (ci_user_id r = u /\ ci_course_id r = c)).
  { intros r. rewrite filter_In, negb_true_iff, <- not_true_iff_false,
      of_pair_true. tauto. }
  eexists _, _, _, _. split; [apply moveToWishlist_eq|].
  split; [|split; [exact Hin|split; [reflexivity|]]].
  - rewrite existsb_exists.
    split; intros (r & Hr & H); exists r; split; auto; now apply of_pair_true.
  - assert (Hok1 : consistent
                     (with_cart_items db
                        (filter (fun r => negb (of_pair u c r)) (cart_items db))
                        (cart_items_id_seq db))).
    { apply SchemaFacts.consistent_cart_subset; try apply Hok; try lia.
      - apply SchemaFacts.NoDup_key_filter, Hok.
      - apply SchemaFacts.NoDup_key_filter, Hok.
      - intros r Hr. apply filter_In in Hr. exists r. tauto. }
    split; [apply addToCart_fresh; [exact Hok1 | exact Husr |] | reflexivity].
    intros r Hr. now apply Hin in Hr.
Qed.

Lemma moveToWishlist_frees_the_pair_witness :
  exists db2 item,
    addToCart 2 5 (fst (moveToWishlist 2 5 Fixture.purchased))
    = (db2, Js.Returned item)
    /\ CartItem_courseId item = Some 5.
Proof.
  destruct (moveToWishlist_frees_the_pair Fixture.purchased 2 5
              FixtureFacts.purchased_consistent)
    as (db1 & b & db2 & item & Hmove & _ & _ & _ & Hadd & Hitem).
  - reflexivity.
  - reflexivity.
  - exists Fixture.user_row. split; [right; now left | reflexivity].
  - exists db2, item. split; [|exact Hitem].
    rewrite Hmove. exact Hadd.
Defined.

(** Adding and removing cancel: after [addToCart u c] has returned,
    [isInCart u c] is true, [removeFromCart u c] returns [true] and gives
    back the cart rows and users there were before, and a second
    [removeFromCart u c] returns [false] and changes nothing. *)
Theorem addToCart_removeFromCart_cancel db u c db1 item :
  addToCart u c db = (db1, Js.Returned item) ->
  exists db2,
    isInCart u c db1 = (db1, Js.Returned true)
    /\ removeFromCart u c db1 = (db2, Js.Returned true)
    /\ cart_items db2 = cart_items db
    /\ users db2 = users db
    /\ removeFromCart u c db2 = (db2, Js.Returned false).
Proof.
  intros Hadd.
  pose proof (addToCart_returned_none _ _ _ _ _ Hadd) as Hnone.
  apply addToCart_returned in Hadd. subst db1.
  assert (Hnew : unbought_pair u c (new_row db u c) = true).
  { apply unbought_pair_true. repeat split. }
  assert (Hold : forall r, In r (cart_items db) -> unbought_pair u c r = false).
  { intros r Hr. specialize (Hnone r Hr). unfold of_pair in Hnone.
    unfold unbought_pair. now rewrite Hnone. }
  assert (Hrows : filter (fun r => negb (unbought_pair u c r))
                    (cart_items db ++ [new_row db u c])%list = cart_items db).
  { rewrite filter_app. cbn [filter]. rewrite Hnew. cbn [negb].
    rewrite app_nil_r. apply filter_all. intros r Hr. now rewrite Hold. }
  assert (Hsome : existsb (unbought_pair u c)
                    (cart_items db ++ [new_row db u c])%list = true).
  { rewrite existsb_app. cbn [existsb]. now rewrite Hnew, orb_true_r. }
  exists (with_cart_items db (cart_items db) (cart_items_id_seq db + 1)).
  split; [|split; [|split; [reflexivity|split; [reflexivity|]]]].
  - rewrite isInCart_eq. cbn [cart_items with_cart_items]. now rewrite Hsome.
  - rewrite removeFromCart_eq.
    cbn [cart_items cart_items_id_seq users with_cart_items].
    now rewrite Hrows, Hsome.
  - rewrite removeFromCart_eq.
    cbn [cart_items cart_items_id_seq users with_cart_items].
    rewrite filter_all by (intros r Hr; now rewrite Hold).
    now rewrite existsb_none.
Qed.

Lemma addToCart_removeFromCart_cancel_witness :
  let db1 := fst (addToCart 2 5 Fixture.init_sql) in
  exists db2,
    removeFromCart 2 5 db1 = (db2, Js.Returned true)
    /\ cart_items db2 = cart_items Fixture.init_sql.
Proof.
  cbv zeta.
  edestruct (addToCart_removeFromCart_cancel Fixture.init_sql 2 5)
    as (db2 & _ & Hremove & Hrows & _).
  - vm_compute. reflexivity.
  - exists db2. split; [exact Hremove | exact Hrows].
Defined.

(** The cart operations of one user never touch another user's rows nor
    the users table: after [addToCart], [removeFromCart], [clearCart] or
    [moveToWishlist] for [u], the cart rows of any other user are the same
    rows in the same order. *)
Theorem cart_operations_keep_other_users_rows db u u' c b :
  u' <> u ->
  let rows_of d := filter (fun r => ci_user_id r =? u') (cart_items d) in
  let untouched d := rows_of d = rows_of db /\ users d = users db in
  untouched (fst (addToCart u c db))
  /\ untouched (fst (removeFromCart u c db))
  /\ untouched (fst (clearCart u b db))
  /\ untouched (fst (moveToWishlist u c db)).
Proof.
  intros Hne rows_of untouched. unfold untouched, rows_of.
  assert (Hdel : forall p : CartItemRow -> bool,
             (forall r, p r = true -> ci_user_id r = u) ->
             filter (fun r => ci_user_id r =? u')
               (filter (fun r => negb (p r)) (cart_items db))
             = filter (fun r => ci_user_id r =? u') (cart_items db)).
  { intros p Hp. now apply (delete_keeps_other_users u). }
  assert (Hadd : forall d, fst (addToCart u c db) = d ->
             d = db
             \/ d = with_cart_items db (cart_items db) (cart_items_id_seq db + 1)
             \/ d = with_cart_items db (cart_items db ++ [new_row db u c])%list
                      (cart_items_id_seq db + 1)).
  { intros d <-. unfold addToCart, bind, query.
    destruct (select_cart_items [col_id] _ db) as [|row0 rest].
    2:{ destruct (Js.truthy _); now left. }
    unfold insert_cart_item.
    destruct (existsb (fun r => ci_id r =? cart_items_id_seq db) (cart_items db));
      [right; now left|].
    destruct (existsb _ (cart_items db)); [right; now left|].
    destruct (negb _); [right; now left|].
    cbn [first_row ret].
    match goal with
    | |- context [select_cart_items ?cols ?p ?d] =>
        destruct (select_cart_items cols p d)
    end; right; now right. }
  split; [|split; [|split]].
  - destruct (Hadd _ eq_refl) as [->|[->| ->]]; try (split; reflexivity).
    cbn [cart_items users with_cart_items]. split; [|reflexivity].
    rewrite filter_app. cbn [filter new_row ci_user_id].
    destruct (Z.eqb_spec u u'); [congruence | apply app_nil_r].
  - rewrite removeFromCart_eq. cbn [fst cart_items users with_cart_items].
    split; [|reflexivity].
    apply Hdel. intros r H. now apply unbought_pair_true in H.
  - destruct b.
    + rewrite clearCart_bought. cbn [fst cart_items users with_cart_items].
      split; [now apply commit_other_users | reflexivity].
    + rewrite clearCart_unbought. cbn [fst cart_items users with_cart_items].
      split; [|reflexivity].
      apply Hdel. intros r H. now apply unbought_of_true in H.
  - rewrite moveToWishlist_eq. cbn [fst cart_items users with_cart_items].
    split; [|reflexivity].
    apply Hdel. intros r H. now apply of_pair_true in H.
Qed.

Lemma cart_operations_keep_other_users_rows_witness :
  filter (fun r => ci_user_id r =? 2)
    (cart_items (fst (clearCart 1 false Fixture.two_in_cart)))
  = [Fixture.older_row; Fixture.newer_row].
Proof.
  refine (proj1 (proj1 (proj2 (proj2
    (cart_operations_keep_other_users_rows Fixture.two_in_cart 1 2 5 false _))))).
  discriminate.
Defined.

(** [clearCart u false] empties the active cart and keeps the purchases:
    afterwards the count of [u] is 0, [isInCart u c] is false for every
    course, [getItems u true] lists what it listed before, and clearing
    again returns [false]. *)
Theorem clearCart_false_empties_active_cart db u :
  let db' := fst (clearCart u false db) in
  getCartItemCount u db' = (db', Js.Returned (Some 0))
  /\ (forall c, isInCart u c db' = (db', Js.Returned false))
  /\ snd (getItems u true db') = snd (getItems u true db)
  /\ clearCart u false db' = (db', Js.Returned false).
Proof.
  intros db'. unfold db'. rewrite clearCart_unbought. cbn [fst].
  set (kept := filter (fun r => negb (unbought_of u r)) (cart_items db)).
  assert (Hkept : forall r, In r kept -> unbought_of u r = false).
  { intros r Hr. apply filter_In in Hr. now apply negb_true_iff. }
  split; [|split; [|split]].
  - rewrite getCartItemCount_eq. cbn [cart_items with_cart_items].
    now rewrite (filter_none _ _ Hkept).
  - intros c. rewrite isInCart_eq. cbn [cart_items with_cart_items].
    rewrite existsb_none; [reflexivity|].
    intros r Hr. specialize (Hkept r Hr). unfold unbought_of in Hkept.
    unfold unbought_pair.
    destruct (ci_user_id r =? u); [|reflexivity].
    cbn [andb] in *. now rewrite Hkept, andb_false_r.
  - rewrite !getItems_eq. cbn [snd cart_items with_cart_items].
    do 3 f_equal. unfold kept. rewrite filter_filter.
    apply filter_ext_in'. intros r _. unfold listed_as, unbought_of.
    destruct (ci_user_id r =? u), (ci_bought r); reflexivity.
  - rewrite clearCart_unbought. cbn [cart_items cart_items_id_seq with_cart_items].
    rewrite filter_all by (intros r Hr; now rewrite (Hkept r Hr)).
    now rewrite (existsb_none _ _ Hkept).
Qed.

(** [clearCart u true] moves the active cart of [u] to the purchases:
    afterwards [getItems u false] is empty and [getItems u true] lists
    exactly the items that [getItems u true] and [getItems u false] listed
    before. *)
Theorem clearCart_true_moves_cart_to_purchases db u :
  let db' := fst (clearCart u true db) in
  exists before_bought before_unbought after_bought,
    getItems u true db = (db, Js.Returned before_bought)
    /\ getItems u false db = (db, Js.Returned before_unbought)
    /\ getItems u true db' = (db', Js.Returned after_bought)
    /\ getItems u false db' = (db', Js.Returned [])
    /\ (forall i, In i after_bought
                  <-> In i before_bought \/ In i before_unbought)
    /\ List.length after_bought
       = (List.length before_bought + List.length before_unbought)%nat.
Proof.
  intros db'. unfold db'. rewrite clearCart_bought. cbn [fst].
  eexists _, _, _. rewrite !getItems_eq. cbn [cart_items with_cart_items].
  split; [reflexivity|]. split; [reflexivity|]. split; [reflexivity|].
  pose proof (commit_item u) as Hitem.
  pose proof (commit_listed u) as Hlisted.
  split; [|split].
  - do 2 f_equal. replace (filter _ _) with (@nil CartItemRow); [reflexivity|].
    symmetry. apply filter_none. intros r Hr. apply in_map_iff in Hr.
    destruct Hr as (r0 & <- & _). unfold commit, unbought_of, listed_as.
    destruct (ci_user_id r0 =? u) eqn:E, (ci_bought r0) eqn:Eb;
      cbn; rewrite ?E, ?Eb; reflexivity.
  - intros i. rewrite !in_map_iff. split.
    + intros (r & <- & Hr). apply order_by_desc_In, filter_In in Hr.
      destruct Hr as [Hr Hl]. apply in_map_iff in Hr.
      destruct Hr as (r0 & <- & Hr0). rewrite Hlisted in Hl. rewrite Hitem.
      apply orb_true_iff in Hl. destruct Hl as [Hl|Hl]; [left|right];
        exists r0; (split; [reflexivity|]);
        apply order_by_desc_In, filter_In; auto.
    + intros [(r & <- & Hr)|(r & <- & Hr)];
        apply order_by_desc_In, filter_In in Hr; destruct Hr as [Hr Hl];
        exists (commit u r); (split; [apply Hitem|]);
        apply order_by_desc_In, filter_In;
        (split; [now apply in_map | rewrite Hlisted, Hl; auto using orb_true_r]).
  - rewrite !length_map, !order_by_desc_length. apply commit_count.
Qed.

(** [getCartItem u c] finds an item exactly when [isInCart u c] is true;
    the item is that of an unbought cart row of [u] for course [c], and
    it carries the ids and the time of that row. *)
Theorem getCartItem_agrees_with_isInCart db u c :
  exists found,
    getCartItem u c db = (db, Js.Returned found)
    /\ isInCart u c db
       = (db, Js.Returned match found with Some _ => true | None => false end)
    /\ forall item, found = Some item ->
         exists r, In r (cart_items db) /\ item = item_of r
                   /\ ci_user_id r = u /\ ci_course_id r = c
                   /\ ci_bought r = false.
Proof.
  exists (option_map item_of (find (unbought_pair u c) (cart_items db))).
  split; [apply getCartItem_eq|]. split.
  - rewrite isInCart_eq, find_existsb.
    now destruct (find (unbought_pair u c) (cart_items db)).
  - intros item Hitem.
    destruct (find (unbought_pair u c) (cart_items db)) as [r|] eqn:Ef;
      [|discriminate].
    apply find_some in Ef. destruct Ef as [Hin Hr].
    apply unbought_pair_true in Hr. inversion Hitem; subst.
    exists r. tauto.
Qed.

(** What [addToCart u c] has returned is what [getCartItem u c] finds
    afterwards, and [getItems u false] lists it. *)
Theorem getCartItem_finds_the_added_item db u c db1 item :
  addToCart u c db = (db1, Js.Returned item) ->
  getCartItem u c db1 = (db1, Js.Returned (Some item))
  /\ exists items, getItems u false db1 = (db1, Js.Returned items)
                   /\ In item items.
Proof.
  intros Hadd.
  pose proof (addToCart_returned_none _ _ _ _ _ Hadd) as Hnone.
  pose proof (addToCart_returned_item _ _ _ _ _ Hadd) as ->.
  apply addToCart_returned in Hadd. subst db1.
  assert (Hnew : unbought_pair u c (new_row db u c) = true).
  { apply unbought_pair_true. repeat split. }
  split.
  - rewrite getCartItem_eq. cbn [cart_items with_cart_items].
    assert (Hfind : forall l,
               (forall r, In r l -> of_pair u c r = false) ->
               find (unbought_pair u c) (l ++ [new_row db u c])%list
               = Some (new_row db u c)).
    { induction l as [|a l IH]; intros Hl; [cbn; now rewrite Hnew|].
      cbn [List.app find].
      assert (Ha : unbought_pair u c a = false).
      { unfold unbought_pair. pose proof (Hl a (or_introl eq_refl)) as E.
        unfold of_pair in E. now rewrite E. }
      rewrite Ha. apply IH. intros r Hr. apply Hl. now right. }
    now rewrite (Hfind _ Hnone).
  - rewrite getItems_eq. eexists. split; [reflexivity|].
    apply in_map. apply order_by_desc_In. apply filter_In.
    cbn [cart_items with_cart_items]. split.
    + apply in_or_app. right. now left.
    + apply listed_as_true. split; reflexivity.
Qed.

Lemma getCartItem_finds_the_added_item_witness :
  exists db1 item,
    addToCart 2 5 Fixture.init_sql = (db1, Js.Returned item)
    /\ getCartItem 2 5 db1 = (db1, Js.Returned (Some item)).
Proof.
  eexists _, _.
  assert (H : addToCart 2 5 Fixture.init_sql = (_, Js.Returned _))
    by (vm_compute; reflexivity).
  split; [exact H|].
  exact (proj1 (getCartItem_finds_the_added_item _ _ _ _ _ H)).
Defined.

(** ** More of the user service *)

Module UserMoreFacts.
Import Store Task UserTypes UserService Schema UserRows RowFacts UserFacts.
Import OrderFacts.

Section Facts.
Context {bcrypt : Bcrypt} {jwt : Jwt}.
Variable jwtSecret : string.

Lemma register_existing salt now userData requestingUser db u :
  In u (users db) -> u_email u = RegisterRequest_email userData ->
  register jwtSecret salt now userData requestingUser db
  = (db, Js.Threw (Js.Error "User already exists with this email")).
Proof.
  intros Hin Hemail. unfold register, bind, query.
  destruct (filter_some
              (fun u => String.eqb (u_email u) (RegisterRequest_email userData))
              (users db) u Hin) as (y & rest & ->).
  { now apply String.eqb_eq. }
  reflexivity.
Qed.

(** A registration that returns found its key unused. *)
Lemma register_returned_key salt now userData requestingUser db db' user token :
  register jwtSecret salt now userData requestingUser db
  = (db', Js.Returned (user, token)) ->
  forall u, In u (users db) -> u_id u <> users_id_seq db.
Proof.
  unfold register, bind, query.
  destruct (filter _ (users db)); [|discriminate].
  cbn [List.length Z.of_nat Z.ltb Z.compare]. unfold insert_user.
  destruct (first_too_long _ _ _ _ _); [discriminate|].
  destruct (existsb (fun u => u_id u =? users_id_seq db) (users db)) eqn:E;
    [discriminate|].
  intros _ u Hu. apply Z.eqb_neq.
  exact (SchemaFacts.existsb_false_all _ _ E u Hu).
Qed.

Lemma login_eq now credentials db :
  login jwtSecret now credentials db
  = (db,
     match filter (fun u => String.eqb (u_email u)
                              (LoginRequest_email credentials)
                            && Bool.eqb (u_is_active u) true) (users db) with
     | [] => Js.Threw (Js.Error "User not exist")
     | row :: _ =>
         if bcrypt_compare (LoginRequest_password credentials) (u_password row)
         then Js.Returned (mapRowToUser row,
                           generateToken jwtSecret now (mapRowToUser row))
         else Js.Threw (Js.Error "Password is invalid")
     end).
Proof.
  unfold login, bind, query.
  destruct (filter _ (users db)) as [|row rest]; [reflexivity|].
  now destruct (bcrypt_compare _ _).
Qed.

End Facts.

Lemma update_where_none {A} (p : A -> bool) (f : A -> A) l :
  (forall x, In x l -> p x = false) -> update_where p f l = l.
Proof.
  intros H. unfold update_where. rewrite <- (map_id l) at 2.
  apply map_ext_in. intros a Ha. now rewrite (H a Ha).
Qed.

Lemma with_users_same db : with_users db (users db) (users_id_seq db) = db.
Proof. now destruct db. Qed.

Lemma update_where_In {A} (p : A -> bool) (f : A -> A) l y :
  In y (update_where p f l)
  <-> exists x, In x l /\ y = (if p x then f x else x).
Proof.
  unfold update_where. rewrite in_map_iff.
  split; intros (x & H1 & H2); exists x; auto.
Qed.

End UserMoreFacts.

Import UserTypes UserService UserRows UserFacts UserMoreFacts.

(** A registration with an email the store already has, on an active or
    an inactive account, throws the duplicate error and leaves the store
    as it was; so of two registrations with one email the second fails. *)
Theorem register_rejects_duplicate_email {bcrypt : Bcrypt} {jwt : Jwt}
    jwtSecret salt now userData requestingUser db :
  (exists u, In u (users db) /\ u_email u = RegisterRequest_email userData)
  \/ (exists salt0 now0 first requester0 db0 user0 token0,
        RegisterRequest_email first = RegisterRequest_email userData
        /\ register jwtSecret salt0 now0 first requester0 db0
           = (db, Js.Returned (user0, token0))) ->
  register jwtSecret salt now userData requestingUser db
  = (db, Js.Threw (Js.Error "User already exists with this email")).
Proof.
  intros [(u & Hin & Hemail)|
          (salt0 & now0 & first & requester0 & db0 & user0 & token0 & Hemail & Hreg)].
  - now apply (register_existing jwtSecret salt now userData requestingUser db u).
  - apply register_returned in Hreg. destruct Hreg as (-> & _ & _).
    apply (register_existing jwtSecret salt now userData requestingUser _
             (new_user db0 salt0 first requester0)).
    + cbn. apply in_or_app. right. now left.
    + exact Hemail.
Qed.

Lemma register_rejects_duplicate_email_witness :
  register (bcrypt := Fixture.bcrypt) (jwt := Fixture.jwt)
    "secret" "salt" 7 Fixture.signup None
    (fst (register (bcrypt := Fixture.bcrypt) (jwt := Fixture.jwt)
            "secret" "pepper" 6 Fixture.signup (Some Fixture.root)
            Fixture.init_sql))
  = (fst (register (bcrypt := Fixture.bcrypt) (jwt := Fixture.jwt)
            "secret" "pepper" 6 Fixture.signup (Some Fixture.root)
            Fixture.init_sql),
     Js.Threw (Js.Error "User already exists with this email")).
Proof.
  apply (register_rejects_duplicate_email (bcrypt := Fixture.bcrypt)
           (jwt := Fixture.jwt)).
  right. eexists "pepper", 6, Fixture.signup, (Some Fixture.root),
    Fixture.init_sql, _, _.
  split; [reflexivity|]. vm_compute. reflexivity.
Defined.


(** The admin operations of the service refuse a requester whose role is
    not [admin]: [getAllUsers], [updateUserRole] and [deactivateUser] throw
    the access error and the store stays as it was. *)
Theorem admin_operations_refuse_other_roles
    now userId newRole requestingUser db :
  AuthUser_role requestingUser = RoleUser ->
  getAllUsers requestingUser db = (db, Js.Threw (Js.Error "Access denied"))
  /\ updateUserRole now userId newRole requestingUser db
     = (db, Js.Threw (Js.Error "Access denied"))
  /\ deactivateUser now userId requestingUser db
     = (db, Js.Threw (Js.Error "Access denied")).
Proof.
  intros Hrole. unfold getAllUsers, updateUserRole, deactivateUser.
  rewrite Hrole. repeat split.
Qed.

Lemma admin_operations_refuse_other_roles_witness :
  deactivateUser 9 1 Fixture.regular Fixture.init_sql
  = (Fixture.init_sql, Js.Threw (Js.Error "Access denied")).
Proof.
  apply (admin_operations_refuse_other_roles 9 1 RoleUser Fixture.regular
           Fixture.init_sql).
  reflexivity.
Defined.

(** A deactivated account cannot log in: when an admin deactivates the
    account with id [userId] on a store that keeps the schema, the call
    returns [true], every other account stays as it was, and a login with
    the email of the account fails with the not-exist error whatever the
    password. *)
Theorem deactivated_account_cannot_login {bcrypt : Bcrypt} {jwt : Jwt}
    jwtSecret now now' userId requestingUser usr password db :
  consistent db ->
  AuthUser_role requestingUser = RoleAdmin ->
  In usr (users db) -> u_id usr = userId ->
  exists db',
    deactivateUser now userId requestingUser db = (db', Js.Returned true)
    /\ (forall u, u_id u <> userId -> In u (users db') <-> In u (users db))
    /\ cart_items db' = cart_items db
    /\ login jwtSecret now'
         {| LoginRequest_email := u_email usr;
            LoginRequest_password := password |} db'
       = (db', Js.Threw (Js.Error "User not exist")).
Proof.
  intros Hok Hadmin Hin Hid.
  exists (with_users db
            (update_where (fun u => u_id u =? userId)
               (set_is_active false now) (users db))
            (users_id_seq db)).
  split; [|split; [|split; [reflexivity|]]].
  - unfold deactivateUser, bind, execute, ret. rewrite Hadmin.
    cbn [negb UserRole_eqb]. rewrite rowCount_positive.
    replace (existsb (fun u => u_id u =? userId) (users db)) with true;
      [reflexivity|].
    symmetry. apply existsb_exists.
    exists usr. split; [assumption | now apply Z.eqb_eq].
  - intros u Hu. cbn [users with_users]. rewrite update_where_In. split.
    + intros (x & Hx & ->). destruct (Z.eqb_spec (u_id x) userId) as [E|E];
        [|assumption].
      cbn in Hu. contradiction.
    + intros Hx. exists u. split; [assumption|].
      destruct (Z.eqb_spec (u_id u) userId); [contradiction | reflexivity].
  - rewrite login_eq. cbn [users with_users LoginRequest_email]. f_equal.
    rewrite filter_none; [reflexivity|].
    intros u Hu. apply update_where_In in Hu. destruct Hu as (x & Hx & ->).
    destruct (Z.eqb_spec (u_id x) userId) as [E|E].
    + cbn. apply andb_false_r.
    + apply andb_false_iff. left. apply String.eqb_neq. intros Hemail.
      apply E. rewrite <- Hid. f_equal.
      apply (unique_key_inj u_email (users db)); auto. apply Hok.
Qed.

Lemma deactivated_account_cannot_login_witness :
  login (bcrypt := Fixture.bcrypt) (jwt := Fixture.jwt) "secret" 10
    {| LoginRequest_email := "user@gmail.com";
       LoginRequest_password := "anything" |}
    (fst (deactivateUser 9 2 Fixture.root Fixture.init_sql))
  = (fst (deactivateUser 9 2 Fixture.root Fixture.init_sql),
     Js.Threw (Js.Error "User not exist")).
Proof.
  destruct (deactivated_account_cannot_login (bcrypt := Fixture.bcrypt)
              (jwt := Fixture.jwt) "secret" 9 10 2 Fixture.root
              Fixture.user_row "anything" Fixture.init_sql
              FixtureFacts.init_sql_consistent eq_refl
              (or_intror (or_introl eq_refl)) eq_refl)
    as (db' & Hdeact & _ & _ & Hlogin).
  rewrite Hdeact. exact Hlogin.
Defined.

(** Lookup after insert: the user a registration returns is the user
    [getUserById] finds under the returned id on the store the
    registration leaves; an id no row has finds nothing. *)
Theorem getUserById_finds_registered_user {bcrypt : Bcrypt} {jwt : Jwt}
    jwtSecret salt now userData requestingUser db db' user token :
  register jwtSecret salt now userData requestingUser db
  = (db', Js.Returned (user, token)) ->
  getUserById (User_id user) db' = (db', Js.Returned (Some user))
  /\ (forall id, (forall u, In u (users db') -> u_id u <> id) ->
                 getUserById id db' = (db', Js.Returned None)).
Proof.
  intros Hreg.
  pose proof (register_returned_key _ _ _ _ _ _ _ _ _ Hreg) as Hkey.
  apply register_returned in Hreg. destruct Hreg as (-> & -> & _).
  split.
  - unfold getUserById, bind, query. cbn [users with_users].
    rewrite filter_app, filter_none.
    2:{ intros u Hu. apply Z.eqb_neq. cbn. now apply Hkey. }
    cbn. now rewrite Z.eqb_refl.
  - intros id Hid. unfold getUserById, bind, query.
    rewrite filter_none; [reflexivity|].
    intros u Hu. apply Z.eqb_neq. now apply Hid.
Qed.

Lemma getUserById_finds_registered_user_witness :
  let r := register (bcrypt := Fixture.bcrypt) (jwt := Fixture.jwt)
             "secret" "salt" 7 Fixture.signup None Fixture.init_sql in
  exists user,
    getUserById 3 (fst r) = (fst r, Js.Returned (Some user))
    /\ User_email user = "a@x.com".
Proof.
  cbv zeta.
  edestruct (getUserById_finds_registered_user (bcrypt := Fixture.bcrypt)
               (jwt := Fixture.jwt) "secret" "salt" 7 Fixture.signup None
               Fixture.init_sql) as [Hfound _].
  - vm_compute. reflexivity.
  - eexists. split; [exact Hfound | reflexivity].
Defined.

(** [getAllUsers] for an admin returns every account of the store once,
    newest first, and leaves the store as it was. *)
Theorem getAllUsers_lists_every_account_newest_first requestingUser db :
  AuthUser_role requestingUser = RoleAdmin ->
  exists rows,
    getAllUsers requestingUser db = (db, Js.Returned (map mapRowToUser rows))
    /\ Permutation rows (users db)
    /\ descending u_created_at rows
    /\ List.length (map mapRowToUser rows) = List.length (users db).
Proof.
  intros Hadmin. exists (order_by_desc u_created_at (users db)).
  split; [|split; [|split]].
  - unfold getAllUsers, bind, query, ret. now rewrite Hadmin.
  - apply OrderFacts.order_by_desc_perm.
  - apply OrderFacts.order_by_desc_sorted.
  - now rewrite length_map, OrderFacts.order_by_desc_length.
Qed.

Lemma getAllUsers_lists_every_account_newest_first_witness :
  exists rows,
    getAllUsers Fixture.root Fixture.two_signups
    = (Fixture.two_signups, Js.Returned (map mapRowToUser rows))
    /\ Permutation rows (users Fixture.two_signups)
    /\ descending u_created_at rows.
Proof.
  destruct (getAllUsers_lists_every_account_newest_first Fixture.root
              Fixture.two_signups eq_refl) as (rows & H1 & H2 & H3 & _).
  exists rows. auto.
Defined.
(** ** More of the middleware and the controllers *)

Module HttpMoreFacts.
Import Store Task UserTypes UserService Schema RowFacts UserFacts UserMoreFacts.
Import Express AuthMiddleware Routes Credential HttpFacts.

(** A string that has a prefix is the prefix followed by the rest. *)
Lemma prefix_split p h :
  String.prefix p h = true ->
  h = p ++ String.substring (String.length p)
             (String.length h - String.length p) h.
Proof.
  revert h. induction p as [|a p IH]; intros h H.
  - cbn. rewrite Nat.sub_0_r. symmetry. apply substring_all.
  - destruct h as [|b h]; [discriminate|].
    cbn in H. destruct (Ascii.ascii_dec a b) as [->|]; [|discriminate].
    cbn. f_equal. now apply IH.
Qed.

Lemma bearer_inj t1 t2 : "Bearer " ++ t1 = "Bearer " ++ t2 -> t1 = t2.
Proof. cbn. intros H. now inversion H. Qed.

Section Facts.
Context {jwt : Jwt}.
Variable jwtSecret : string.

(** A request presents at most one credential. *)
Lemma presents_unique x token decoded row token' decoded' row' :
  presents jwtSecret x token decoded row ->
  presents jwtSecret x token' decoded' row' ->
  token' = token /\ decoded' = decoded /\ row' = row.
Proof.
  intros (Hh & Hv & Hr & _) (Hh' & Hv' & Hr' & _).
  assert (E : "Bearer " ++ token = "Bearer " ++ token') by congruence.
  apply bearer_inj in E. subst token'.
  rewrite Hv in Hv'. inversion Hv'. subst decoded'.
  rewrite Hr in Hr'. inversion Hr'. auto.
Qed.

Lemma presents_In x token decoded row :
  presents jwtSecret x token decoded row ->
  In row (users (db x)) /\ u_id row = JWTPayload_userId decoded.
Proof.
  intros (_ & _ & Hr & _).
  destruct (filter _ (users (db x))) as [|r rest] eqn:Ef; [discriminate|].
  inversion Hr; subst r. apply filter_head in Ef. destruct Ef as [Hin Hid].
  apply Z.eqb_eq in Hid. auto.
Qed.

(** [getUserById] with the id of the credential finds its row. *)
Lemma presents_lookup x token decoded row :
  presents jwtSecret x token decoded row ->
  hd_error (filter (fun u => u_id u =? u_id row) (users (db x))) = Some row.
Proof.
  intros H. destruct (presents_In _ _ _ _ H) as [_ ->].
  apply H.
Qed.

(** What [authenticate] does with any continuation: it runs it for the
    identity of the row the credential names, or answers 401 when the
    request presents no credential. *)
Lemma authenticate_cases x :
  (exists token decoded row,
      presents jwtSecret x token decoded row
      /\ forall k, authenticate jwtSecret x k
                   = invoke k (set_user (identity row) x))
  \/ ((forall token decoded row, ~ presents jwtSecret x token decoded row)
      /\ exists m, forall k, authenticate jwtSecret x k
                             = send 401 (failure m) x).
Proof.
  unfold authenticate, presents.
  destruct (headers_authorization (req x)) as [authHeader|].
  2:{ right. split; [|eauto]. intros t d r (H & _). discriminate. }
  destruct (String.prefix "Bearer " authHeader) eqn:Ep; cbn [negb].
  2:{ right. split; [|eauto]. intros t d r (H & _).
      destruct (bearer_token t) as [E _]. congruence. }
  pose proof (prefix_split _ _ Ep) as Eh.
  cbn [String.length] in Eh.
  set (token := String.substring 7 (String.length authHeader - 7) authHeader)
    in *.
  destruct (jwt_verify token jwtSecret (now x)) as [decoded|] eqn:Ev.
  2:{ right. split; [|eauto]. intros t d r (H & Hv & _).
      assert (E : "Bearer " ++ token = "Bearer " ++ t) by congruence.
      apply bearer_inj in E.
      subst t. congruence. }
  destruct (filter _ (users (db x))) as [|row rest] eqn:Ef.
  { right. split; [|eauto]. intros t d r (H & Hv & Hr & _).
    assert (E : "Bearer " ++ token = "Bearer " ++ t) by congruence.
      apply bearer_inj in E. subst t.
    rewrite Ev in Hv. inversion Hv; subst d. rewrite Ef in Hr. discriminate. }
  destruct (u_is_active row) eqn:Ea; cbn [negb].
  2:{ right. split; [|eauto]. intros t d r (H & Hv & Hr & Hact).
      assert (E : "Bearer " ++ token = "Bearer " ++ t) by congruence.
      apply bearer_inj in E. subst t.
      rewrite Ev in Hv. inversion Hv; subst d. rewrite Ef in Hr.
      inversion Hr; subst r. congruence. }
  left. exists token, decoded, row. split; [|reflexivity].
  rewrite Ef. repeat split; auto. now f_equal.
Qed.

(** [requireAdmin] by the credential and the stored role: the rest of
    the chain sees the identity attached and [next()] called twice, by
    [authenticate] and by the role check. *)
Lemma requireAdmin_cases x :
  (exists token decoded row,
      presents jwtSecret x token decoded row /\ u_role row = RoleAdmin
      /\ forall k, requireAdmin jwtSecret x k
                   = k (invoke (fun z => z)
                          (invoke (fun z => z) (set_user (identity row) x))))
  \/ (exists token decoded row,
        presents jwtSecret x token decoded row /\ u_role row = RoleUser
        /\ forall k, requireAdmin jwtSecret x k
                     = send 403 (failure "Admin access required")
                         (invoke (fun z => z) (set_user (identity row) x)))
  \/ ((forall token decoded row, ~ presents jwtSecret x token decoded row)
      /\ exists m, forall k, requireAdmin jwtSecret x k
                             = send 401 (failure m) x).
Proof.
  unfold requireAdmin.
  destruct (authenticate_cases x)
    as [(token & decoded & row & Hp & H)|(Hno & m & H)].
  - destruct (u_role row) eqn:Er.
    + right; left. exists token, decoded, row.
      split; [exact Hp|]. split; [exact Er|].
      intros k. rewrite H. unfold invoke.
      cbn [req set_user user AuthUser_role identity]. now rewrite Er.
    + left. exists token, decoded, row.
      split; [exact Hp|]. split; [exact Er|].
      intros k. rewrite H. unfold invoke at 1.
      cbn [req set_user user AuthUser_role identity]. now rewrite Er.
  - right; right. split; [exact Hno|]. exists m. intros k. apply H.
Qed.

(** [requireAdmin] for the bearer of a token that names an active
    account, by the stored role of the account. *)
Lemma requireAdmin_verified x k token decoded usr :
  NoDup (map u_id (users (db x))) ->
  headers_authorization (req x) = Some ("Bearer " ++ token) ->
  jwt_verify token jwtSecret (now x) = Some decoded ->
  In usr (users (db x)) -> u_id usr = JWTPayload_userId decoded ->
  u_is_active usr = true ->
  let seen := invoke (fun z => z)
                (set_user {| AuthUser_id := u_id usr;
                             AuthUser_email := u_email usr;
                             AuthUser_role := u_role usr |} x) in
  requireAdmin jwtSecret x k
  = match u_role usr with
    | RoleAdmin => invoke k seen
    | RoleUser => send 403 (failure "Admin access required") seen
    end.
Proof.
  intros Hnd Hhdr Hv Hin Hid Ha seen. unfold requireAdmin.
  rewrite (authenticate_active jwtSecret x _ token decoded usr) by assumption.
  unfold invoke at 1. cbn [req set_user user AuthUser_role].
  now destruct (u_role usr).
Qed.

End Facts.

End HttpMoreFacts.

Import Express AuthMiddleware Routes Credential HttpFacts HttpMoreFacts.

(** [authenticate] runs the rest of the chain exactly for a request that
    presents a credential: a bearer token that verifies and whose id
    names an active account. It then runs it once, on the same store,
    with the id, email and role of that account as identity, so the role
    comes from the store, whatever role the token carries. Every other
    request is answered 401 on the exchange as it came. *)
Theorem authenticate_identity_comes_from_store {jwt : Jwt}
    jwtSecret x next :
  (exists token decoded row y,
      presents jwtSecret x token decoded row
      /\ authenticate jwtSecret x next = next y
      /\ user (req y) = Some (identity row)
      /\ headers_authorization (req y) = headers_authorization (req x)
      /\ body (req y) = body (req x)
      /\ db y = db x /\ res y = res x
      /\ next_calls y = S (next_calls x))
  \/ ((forall token decoded row, ~ presents jwtSecret x token decoded row)
      /\ exists m, authenticate jwtSecret x next = send 401 (failure m) x).
Proof.
  destruct (authenticate_cases jwtSecret x)
    as [(token & decoded & row & Hp & H)|(Hno & m & H)].
  - left. exists token, decoded, row,
      (invoke (fun z => z) (set_user (identity row) x)).
    split; [exact Hp|]. split; [apply H|]. repeat split.
  - right. split; [exact Hno|]. exists m. apply H.
Qed.

(** [requireAdmin] runs the rest of the chain exactly for a request whose
    credential names an active account with the stored role [admin]; a
    credential of an account with another role is answered 403, a
    request without credential 401, both whatever the rest of the chain
    is. The store is never written. *)
Theorem requireAdmin_continues_only_for_admins {jwt : Jwt}
    jwtSecret x next :
  (exists token decoded row y,
      presents jwtSecret x token decoded row
      /\ u_role row = RoleAdmin
      /\ requireAdmin jwtSecret x next = next y
      /\ user (req y) = Some (identity row)
      /\ db y = db x /\ res y = res x)
  \/ (exists token decoded row y,
        presents jwtSecret x token decoded row
        /\ u_role row = RoleUser
        /\ (forall next', requireAdmin jwtSecret x next' = y)
        /\ res y = Some {| statusCode := 403;
                           json := failure "Admin access required" |}
        /\ db y = db x)
  \/ ((forall token decoded row, ~ presents jwtSecret x token decoded row)
      /\ exists m, forall next',
           requireAdmin jwtSecret x next' = send 401 (failure m) x).
Proof.
  destruct (requireAdmin_cases jwtSecret x)
    as [(token & decoded & row & Hp & Er & H)
       |[(token & decoded & row & Hp & Er & H)|(Hno & m & H)]].
  - left. exists token, decoded, row,
      (invoke (fun z => z) (invoke (fun z => z) (set_user (identity row) x))).
    split; [exact Hp|]. split; [exact Er|]. split; [apply H|]. repeat split.
  - right; left. exists token, decoded, row,
      (send 403 (failure "Admin access required")
         (invoke (fun z => z) (set_user (identity row) x))).
    split; [exact Hp|]. split; [exact Er|]. split; [exact H|].
    split; reflexivity.
  - right; right. split; [exact Hno|]. exists m. exact H.
Qed.

(** [requireRole roles] runs the rest of the chain exactly for a request
    whose credential names an active account whose stored role is one of
    [roles]; a credential of an account with another role is answered 403
    with the list of the roles, a request without credential 401, both
    whatever the rest of the chain is. With no role listed nobody gets
    through. *)
Theorem requireRole_continues_only_for_listed_roles {jwt : Jwt}
    jwtSecret roles x next :
  (exists token decoded row y,
      presents jwtSecret x token decoded row
      /\ In (u_role row) roles
      /\ requireRole jwtSecret roles x next = next y
      /\ user (req y) = Some (identity row)
      /\ db y = db x /\ res y = res x)
  \/ (exists token decoded row y,
        presents jwtSecret x token decoded row
        /\ ~ In (u_role row) roles
        /\ (forall next', requireRole jwtSecret roles x next' = y)
        /\ res y = Some {| statusCode := 403;
                           json := failure
                                     ("Access denied. Required roles: "
                                      ++ String.concat ", "
                                           (map role_name roles)) |}
        /\ db y = db x)
  \/ ((forall token decoded row, ~ presents jwtSecret x token decoded row)
      /\ exists m, forall next',
           requireRole jwtSecret roles x next' = send 401 (failure m) x).
Proof.
  unfold requireRole.
  destruct (authenticate_cases jwtSecret x)
    as [(token & decoded & row & Hp & H)|(Hno & m & H)].
  - assert (Hin : existsb (UserRole_eqb (u_role row)) roles = true
                  <-> In (u_role row) roles).
    { rewrite existsb_exists. split.
      - intros (r & Hr & Heq).
        assert (r = u_role row)
          by (destruct r, (u_role row); cbn in Heq; congruence).
        now subst r.
      - intros Hr. exists (u_role row). split; [exact Hr|].
        now destruct (u_role row). }
    destruct (existsb (UserRole_eqb (u_role row)) roles) eqn:Er.
    + left.
      exists token, decoded, row,
        (invoke (fun z => z) (invoke (fun z => z) (set_user (identity row) x))).
      split; [exact Hp|]. split; [now apply Hin|].
      split; [|repeat split].
      rewrite H. unfold invoke at 1.
      cbn [req set_user user AuthUser_role identity]. now rewrite Er.
    + right; left.
      exists token, decoded, row,
        (send 403
           (failure ("Access denied. Required roles: "
                     ++ String.concat ", " (map role_name roles)))
           (invoke (fun z => z) (set_user (identity row) x))).
      split; [exact Hp|].
      split; [intros Hr; apply Hin in Hr; discriminate|].
      split; [|split; reflexivity].
      intros next'. rewrite H. unfold invoke.
      cbn [req set_user user AuthUser_role identity]. now rewrite Er.
  - right; right. split; [exact Hno|]. exists m. intros next'. apply H.
Qed.

(** [GET /profile] never writes to the store. For a request that presents
    a credential it answers 200 with the record of the account the
    credential names, so behind the middleware the controller's 404
    answer does not occur; every other request is answered 401. *)
Theorem profile_route_answers_200_or_401 {jwt : Jwt}
    jwtSecret x :
  let y := run (profile_route jwtSecret) x in
  db y = db x
  /\ ((exists token decoded row,
          presents jwtSecret x token decoded row
          /\ res y = Some {| statusCode := 200;
                             json := {| success := true;
                                        message := "Profile retrieved successfully";
                                        error := None;
                                        json_user := Some (mapRowToUser row);
                                        json_token := None;
                                        json_item := None |} |})
      \/ ((forall token decoded row, ~ presents jwtSecret x token decoded row)
          /\ exists m, y = send 401 (failure m) x)).
Proof.
  intros y. unfold y, profile_route. cbn [run].
  destruct (authenticate_cases jwtSecret x)
    as [(token & decoded & row & Hp & H)|(Hno & m & H)];
    rewrite H.
  - unfold invoke, AuthController.getProfile.
    cbn [req set_user user db AuthUser_id identity].
    unfold getUserById, Task.bind, Task.query.
    pose proof (presents_lookup jwtSecret _ _ _ _ Hp) as Hl.
    destruct (filter _ (users (db x))) as [|r rest]; [discriminate|].
    inversion Hl; subst r.
    split; [reflexivity|]. left. exists token, decoded, row.
    split; [exact Hp | reflexivity].
  - split; [reflexivity|]. right. split; [exact Hno|]. eauto.
Qed.

(** [DELETE /users/:id] never touches the cart and changes the users
    table only when it answers 200: then the request presents the
    credential of an active admin, the id in the path is not that
    admin's, the accounts with that id are deactivated and the admin's
    own row is as it was. A request whose path names the id of its own
    credential leaves the users table as it was. *)
Theorem deactivate_route_spares_the_caller {jwt : Jwt}
    jwtSecret id x :
  let y := run (users_id_route jwtSecret id) x in
  cart_items (db y) = cart_items (db x)
  /\ (users (db y) = users (db x)
      \/ exists token decoded caller target,
           presents jwtSecret x token decoded caller
           /\ u_role caller = RoleAdmin
           /\ Js.parseInt (Js.Str id) = Some target
           /\ target <> u_id caller
           /\ users (db y)
              = update_where (fun u => u_id u =? target)
                  (set_is_active false (now x)) (users (db x))
           /\ In caller (users (db y))
           /\ option_map statusCode (res y) = Some 200)
  /\ (forall token decoded caller,
        presents jwtSecret x token decoded caller ->
        Js.parseInt (Js.Str id) = Some (u_id caller) ->
        users (db y) = users (db x)
        /\ (option_map statusCode (res y) = Some 400
            \/ option_map statusCode (res y) = Some 403)).
Proof.
  intros y. unfold y, users_id_route. cbn [run].
  destruct (requireAdmin_cases jwtSecret x)
    as [(token & decoded & caller & Hp & Er & H)
       |[(token & decoded & caller & Hp & Er & H)|(Hno & m & H)]];
    rewrite H.
  3:{ split; [reflexivity|]. split; [now left|].
      intros t d c Hc. destruct (Hno t d c Hc). }
  2:{ split; [reflexivity|]. split; [now left|].
      intros t d c Hc _. split; [reflexivity | now right]. }
  destruct (presents_In jwtSecret _ _ _ _ Hp) as [Hin _].
  unfold AuthController.deactivateUser, invoke.
  cbn [req set_user user db now AuthUser_id identity].
  destruct (Js.parseInt (Js.Str id)) as [target|] eqn:Ep.
  2:{ split; [reflexivity|]. split; [now left|].
      intros t d c Hc Hid. discriminate. }
  destruct (Z.eqb_spec target (u_id caller)) as [E|E].
  { split; [reflexivity|]. split; [now left|].
    intros t d c Hc Hid. split; [reflexivity | now left]. }
  assert (Hself : forall t d c, presents jwtSecret x t d c ->
                                Some target = Some (u_id c) -> False).
  { intros t d c Hc Hid.
    destruct (presents_unique jwtSecret _ _ _ _ _ _ _ Hp Hc) as (_ & _ & ->).
    inversion Hid. contradiction. }
  unfold deactivateUser, Task.bind, Task.execute, Task.ret.
  cbn [AuthUser_role identity]. rewrite Er. cbn [UserRole_eqb negb].
  rewrite rowCount_positive.
  destruct (existsb (fun u => u_id u =? target) (users (db x))) eqn:Ex;
    cbn [negb send set_db db cart_items users with_users].
  - split; [reflexivity|]. split.
    + right. exists token, decoded, caller, target.
      split; [exact Hp|]. repeat split; auto.
      apply update_where_In. exists caller. split; [assumption|].
      destruct (Z.eqb_spec (u_id caller) target); [congruence | reflexivity].
    + intros t d c Hc Hid. destruct (Hself t d c Hc Hid).
  - split; [reflexivity|]. split.
    + left. apply update_where_none.
      now apply SchemaFacts.existsb_false_all.
    + intros t d c Hc Hid. destruct (Hself t d c Hc Hid).
Qed.

(** The role route has no self-check: an admin who sets the own role to
    [user] through [PUT /users/:id/role] gets 200, and on the store this
    leaves the same token is refused by [requireAdmin] with 403, although
    it has not expired. *)
Theorem admin_demoting_itself_loses_admin_access {jwt : Jwt}
    jwtSecret id x token decoded caller x2 next :
  consistent (db x) ->
  headers_authorization (req x) = Some ("Bearer " ++ token) ->
  jwt_verify token jwtSecret (now x) = Some decoded ->
  In caller (users (db x)) -> u_id caller = JWTPayload_userId decoded ->
  u_is_active caller = true -> u_role caller = RoleAdmin ->
  Js.parseInt (Js.Str id) = Some (u_id caller) ->
  body_role (body (req x)) = Some "user" ->
  let y := run (users_id_role_route jwtSecret id) x in
  db x2 = db y ->
  headers_authorization (req x2) = Some ("Bearer " ++ token) ->
  jwt_verify token jwtSecret (now x2) = Some decoded ->
  option_map statusCode (res y) = Some 200
  /\ option_map statusCode (res (requireAdmin jwtSecret x2 next)) = Some 403
  /\ forall next', requireAdmin jwtSecret x2 next'
                   = requireAdmin jwtSecret x2 next.
Proof.
  intros Hok Hhdr Hv Hin Hid Ha Hr Hp Hbody y Hdb2 Hhdr2 Hv2.
  assert (Ey : y = AuthController.updateUserRole id
                     (invoke (fun z => z)
                        (invoke (fun z => z)
                           (set_user {| AuthUser_id := u_id caller;
                                        AuthUser_email := u_email caller;
                                        AuthUser_role := u_role caller |} x)))
                     (fun z => z)).
  { unfold y, users_id_role_route. cbn [run].
    rewrite (requireAdmin_verified jwtSecret x _ token decoded caller)
      by (try assumption; apply Hok).
    now rewrite Hr. }
  set (demoted := set_role RoleUser (now x) caller).
  assert (Hy : db y = with_users (db x)
                        (update_where (fun u => u_id u =? u_id caller)
                           (set_role RoleUser (now x)) (users (db x)))
                        (users_id_seq (db x))
               /\ option_map statusCode (res y) = Some 200).
  { rewrite Ey. unfold AuthController.updateUserRole, invoke.
    cbn [req set_user user db now body AuthUser_id]. rewrite Hp, Hbody.
    cbn [AuthController.valid_role String.eqb Ascii.eqb Bool.eqb].
    unfold updateUserRole, Task.bind, Task.execute, Task.ret.
    cbn [AuthUser_role]. rewrite Hr. cbn [UserRole_eqb negb].
    destruct (filter_some (fun u => u_id u =? u_id caller)
                (update_where (fun u => u_id u =? u_id caller)
                   (set_role RoleUser (now x)) (users (db x))) demoted)
      as (r0 & rest & ->).
    - apply update_where_In. exists caller. split; [assumption|].
      now rewrite Z.eqb_refl.
    - cbn. apply Z.eqb_refl.
    - split; reflexivity. }
  destruct Hy as [Hy Hstatus]. split; [exact Hstatus|].
  assert (H403 : forall k,
             requireAdmin jwtSecret x2 k
             = send 403 (failure "Admin access required")
                 (invoke (fun z => z)
                    (set_user {| AuthUser_id := u_id demoted;
                                 AuthUser_email := u_email demoted;
                                 AuthUser_role := u_role demoted |} x2))).
  { intros k.
    rewrite (requireAdmin_verified jwtSecret x2 k token decoded demoted);
      try assumption; try reflexivity.
    - rewrite Hdb2, Hy. cbn [users with_users].
      rewrite (SchemaFacts.map_key_update u_id) by reflexivity. apply Hok.
    - rewrite Hdb2, Hy. cbn [users with_users].
      apply update_where_In. exists caller. split; [assumption|].
      now rewrite Z.eqb_refl. }
  split; [now rewrite H403 | intros next'; now rewrite !H403].
Qed.

Lemma admin_demoting_itself_loses_admin_access_witness :
  let x := incoming Fixture.init_sql 10 "salt"
             {| http_method := PUT; http_path := "/api/auth/users/1/role";
                http_authorization := Some "Bearer 1";
                http_body := Fixture.role_user |} in
  let y := run (users_id_role_route (jwt := Fixture.jwt) "secret" "1") x in
  let x2 := incoming (db y) 11 "salt"
              {| http_method := GET; http_path := "/api/auth/users";
                 http_authorization := Some "Bearer 1";
                 http_body := Fixture.no_body |} in
  option_map statusCode (res y) = Some 200
  /\ option_map statusCode
       (res (requireAdmin (jwt := Fixture.jwt) "secret" x2 (fun z => z)))
     = Some 403.
Proof.
  cbv zeta.
  edestruct (admin_demoting_itself_loses_admin_access
               (jwt := Fixture.jwt) "secret" "1")
    as (H1 & H2 & _);
    [ | | | | | | | | | | | | split; [exact H1 | exact H2] ].
  - apply FixtureFacts.init_sql_consistent.
  - reflexivity.
  - reflexivity.
  - left. reflexivity.
  - reflexivity.
  - reflexivity.
  - reflexivity.
  - reflexivity.
  - reflexivity.
  - reflexivity.
  - reflexivity.
  - reflexivity.
Defined.

(** The cart routes that delete act on the cart of the account the
    credential names: [DELETE /items/:courseId] and [DELETE /clear]
    answer 401 and change nothing when the request presents no
    credential; otherwise they run with the identity of the account of
    the credential and leave the users table and the cart rows of every
    other user as they were. [DELETE /items/:courseId] also keeps every
    purchased row. *)
Theorem cart_delete_routes_act_on_the_callers_cart {jwt : Jwt}
    jwtSecret courseId bought x :
  let y1 := run (items_courseId_route jwtSecret courseId) x in
  let y2 := run (clear_route jwtSecret bought) x in
  let own y :=
    (exists token decoded row,
        presents jwtSecret x token decoded row
        /\ user (req y) = Some (identity row)
        /\ users (db y) = users (db x)
        /\ forall u', u' <> u_id row ->
             filter (fun r => ci_user_id r =? u') (cart_items (db y))
             = filter (fun r => ci_user_id r =? u') (cart_items (db x)))
    \/ ((forall token decoded row, ~ presents jwtSecret x token decoded row)
        /\ exists m, y = send 401 (failure m) x) in
  own y1 /\ own y2
  /\ (forall r, In r (cart_items (db x)) -> ci_bought r = true ->
                In r (cart_items (db y1))).
Proof.
  intros y1 y2 own. unfold own, y1, y2, items_courseId_route, clear_route.
  cbn [run].
  destruct (authenticate_cases jwtSecret x)
    as [(token & decoded & row & Hp & H)|(Hno & m & H)];
    rewrite !H.
  2:{ split; [right; eauto|]. split; [right; eauto|]. auto. }
  unfold invoke, CartController.removeFromCart, CartController.clearCart.
  cbn [req set_user user db AuthUser_id identity].
  split; [|split].
  - left. exists token, decoded, row. split; [assumption|].
    destruct (Js.parseInt (Js.Str courseId)) as [parsed|];
      [|cbn; auto].
    destruct (Js.falsy (Js.Str courseId)); [cbn; auto|].
    rewrite CartFacts.removeFromCart_eq.
    destruct (existsb _ _); cbn [negb send set_db db req user users cart_items
                                   with_cart_items];
      (split; [reflexivity|]); (split; [reflexivity|]); intros u' Hu';
      apply (CartMoreFacts.delete_keeps_other_users (u_id row)); auto;
      intros r Hr; now apply CartFacts.unbought_pair_true in Hr.
  - left. exists token, decoded, row. split; [assumption|].
    destruct (CartController.is_true bought).
    + rewrite CartFacts.clearCart_bought.
      destruct (existsb _ _); cbn [negb send set_db db req user users cart_items
                                     with_cart_items];
        (split; [reflexivity|]); (split; [reflexivity|]); intros u' Hu';
        now apply CartMoreFacts.commit_other_users.
    + rewrite CartFacts.clearCart_unbought.
      destruct (existsb _ _); cbn [negb send set_db db req user users cart_items
                                     with_cart_items];
        (split; [reflexivity|]); (split; [reflexivity|]); intros u' Hu';
        apply (CartMoreFacts.delete_keeps_other_users (u_id row)); auto;
        intros r Hr; now apply CartFacts.unbought_of_true in Hr.
  - intros r Hr Hb.
    destruct (Js.parseInt (Js.Str courseId)) as [parsed|]; [|exact Hr].
    destruct (Js.falsy (Js.Str courseId)); [exact Hr|].
    rewrite CartFacts.removeFromCart_eq.
    assert (Hkeep : In r (filter (fun r0 => negb (CartRows.unbought_pair
                                                    (u_id row) parsed r0))
                            (cart_items (db x)))).
    { apply filter_In. split; [assumption|]. unfold CartRows.unbought_pair.
      rewrite Hb. cbn. now rewrite andb_false_r. }
    destruct (existsb _ _); exact Hkeep.
Qed.


(** [POST /login] through the controller, for a body whose email and
    password are strings or absent, never writes to the store and answers
    200, 400 or 401. It answers 200 only with the record of an active
    account that has the email of the body and whose stored hash accepts
    the password of the body, and 400 with the message that both are
    required. *)
Theorem login_controller_statuses {bcrypt : Bcrypt} {jwt : Jwt}
    jwtSecret x next :
  let y := AuthController.login jwtSecret x next in
  db y = db x
  /\ ((option_map statusCode (res y) = Some 200
       /\ exists email password row,
            body_email (body (req x)) = Some email
            /\ body_password (body (req x)) = Some password
            /\ In row (users (db x)) /\ u_email row = email
            /\ u_is_active row = true
            /\ bcrypt_compare password (u_password row) = true
            /\ option_map (fun r => json_user (json r)) (res y)
               = Some (Some (mapRowToUser row)))
      \/ res y = Some {| statusCode := 400;
                         json := failure "Email and password are required" |}
      \/ option_map statusCode (res y) = Some 401).
Proof.
  intros y. unfold y, AuthController.login.
  destruct (body_email (body (req x))) as [email|];
    [|split; [|right; left]; destruct (body_password (body (req x)));
      reflexivity].
  destruct (body_password (body (req x))) as [password|];
    [|split; [|right; left]; reflexivity].
  destruct (_ || _); [split; [|right; left]; reflexivity|].
  rewrite login_eq. cbn [LoginRequest_email LoginRequest_password].
  destruct (filter _ (users (db x))) as [|row rest] eqn:Ef.
  - split; [reflexivity|]. right; right. reflexivity.
  - apply filter_head in Ef. destruct Ef as [Hin Hrow].
    apply andb_true_iff in Hrow. destruct Hrow as [He Hact].
    apply String.eqb_eq in He. apply eqb_prop in Hact.
    destruct (bcrypt_compare password (u_password row)) eqn:Ec.
    + split; [reflexivity|]. left. split; [reflexivity|].
      exists email, password, row. repeat split; auto.
    + split; [reflexivity|]. right; right. reflexivity.
Qed.

(** ** The pattern of the email check *)

Module EmailFacts.
Import AuthController.

Lemma all_plain_app a b :
  all_plain (a ++ b) = all_plain a && all_plain b.
Proof.
  induction a as [|c a IH]; [reflexivity|].
  cbn. rewrite IH. now rewrite andb_assoc.
Qed.

Lemma plain_not_at c : plain c = true -> Ascii.eqb c "@" = false.
Proof.
  unfold plain. intros H. apply andb_true_iff in H.
  now apply negb_true_iff.
Qed.

Lemma cut_at_plain l rest :
  all_plain l = true -> cut_at (l ++ String "@" rest) = Some (l, rest).
Proof.
  induction l as [|c l IH]; intros H; [reflexivity|].
  cbn in H. apply andb_true_iff in H. destruct H as [Hc Hl].
  cbn. rewrite (plain_not_at c Hc), (IH Hl). reflexivity.
Qed.

Lemma cut_at_split s l rest :
  cut_at s = Some (l, rest) -> s = l ++ String "@" rest.
Proof.
  revert l. induction s as [|c s IH]; intros l H; [discriminate|].
  cbn in H. destruct (Ascii.eqb_spec c "@") as [->|_].
  - now inversion H.
  - destruct (cut_at s) as [[l0 d0]|]; [|discriminate].
    inversion H; subst. cbn. now rewrite <- (IH l0).
Qed.

Lemma dot_before_end_app a c b :
  dot_before_end (a ++ String "." (String c b)) = true.
Proof.
  induction a as [|c0 a IH]; [reflexivity|].
  cbn [append]. cbn [dot_before_end].
  destruct (a ++ String "." (String c b)) eqn:E.
  - destruct a; discriminate.
  - rewrite IH. apply orb_true_r.
Qed.

Lemma dot_before_end_split d :
  dot_before_end d = true ->
  exists a c b, d = a ++ String "." (String c b).
Proof.
  induction d as [|c0 d IH]; [discriminate|].
  cbn [dot_before_end]. destruct d as [|c1 d']; [discriminate|].
  intros H. apply orb_true_iff in H. destruct H as [H|H].
  - apply Ascii.eqb_eq in H. subst. now exists EmptyString, c1, d'.
  - destruct (IH H) as (a & c & b & E). exists (String c0 a), c, b.
    cbn. now rewrite E.
Qed.

End EmailFacts.

Import EmailFacts.

(** The check of the email in [AuthController.register] accepts exactly
    the strings the pattern [/^[^\s@]+@[^\s@]+\.[^\s@]+$/] describes: a
    local part, an at sign, a label, a dot and a rest, the three parts
    non-empty and free of white space and of at signs. *)
Theorem emailRegex_accepts_exactly_the_pattern s :
  AuthController.emailRegex_test s = true
  <-> exists l d1 d2,
        s = l ++ "@" ++ d1 ++ "." ++ d2
        /\ l <> "" /\ d1 <> "" /\ d2 <> ""
        /\ AuthController.all_plain l = true
        /\ AuthController.all_plain d1 = true
        /\ AuthController.all_plain d2 = true.
Proof.
  unfold AuthController.emailRegex_test. split.
  - destruct (AuthController.cut_at s) as [[l domain]|] eqn:Ec; [|discriminate].
    destruct l as [|c l]; [discriminate|].
    destruct domain as [|c0 d]; [discriminate|].
    intros H. apply andb_true_iff in H. destruct H as [H Hdot].
    apply andb_true_iff in H. destruct H as [Hl Hd].
    destruct (dot_before_end_split d Hdot) as (a & c1 & b & ->).
    exists (String c l), (String c0 a), (String c1 b).
    change (String c0 (a ++ String "." (String c1 b)))
      with (String c0 a ++ String "." (String c1 b)) in *.
    rewrite all_plain_app in Hd. apply andb_true_iff in Hd.
    destruct Hd as [Ha Hb].
    change (String "." (String c1 b)) with ("." ++ String c1 b) in Hb.
    rewrite all_plain_app in Hb. apply andb_true_iff in Hb.
    repeat split; try discriminate; try tauto.
    exact (cut_at_split _ _ _ Ec).
  - intros (l & d1 & d2 & -> & Hl & Hd1 & Hd2 & Pl & Pd1 & Pd2).
    change ("@" ++ d1 ++ "." ++ d2) with (String "@" (d1 ++ String "." d2)).
    rewrite (cut_at_plain l _ Pl).
    destruct l as [|c l]; [contradiction|].
    destruct d1 as [|c0 a]; [contradiction|].
    destruct d2 as [|c1 b]; [contradiction|].
    cbn [append]. rewrite Pl.
    change (String c0 (a ++ String "." (String c1 b)))
      with (String c0 a ++ "." ++ String c1 b).
    rewrite !all_plain_app, Pd1, Pd2.
    change (String c0 a ++ "." ++ String c1 b)
      with (String c0 (a ++ String "." (String c1 b))).
    rewrite dot_before_end_app. reflexivity.
Qed.

(** ** Calls one after the other and the constraints of the store *)

Module GuardFacts.
Import Store Task CartTypes CartService Schema CartRows RowFacts CartFacts.


End GuardFacts.

Import Store Schema CartRows RowFacts CartFacts UserFacts UserMoreFacts.
Import GuardFacts.


